(** * Dottie: the Assessment model, DbService and the frontend API modules

    A shallow embedding of

    - [src/backend/models/Assessment.js] (the dual-mode Assessment model),
    - [src/unnamed/part_002] (DbService, the table-agnostic helper layer),
    - [src/unnamed/part_000] and [src/unnamed/part_001] (the assessment and
      chat frontend API modules),

    followed by the properties the specification states about them.

    JavaScript values are a small inductive type, objects are
    insertion-ordered property lists, and every [async] method is a
    computation in a state-and-exception monad over a [World] that holds the
    in-memory test store, the datastore, the console and the sources of
    time and randomness. *)

From Stdlib Require Import String Ascii List ZArith Bool Lia Permutation.
From Stdlib Require Import DecimalString.
Import ListNotations.

Local Open Scope string_scope.
Local Open Scope Z_scope.
#[local] Set Warnings "-register-all".

(* ===================================================================== *)
(** * JavaScript values *)
(* ===================================================================== *)

Module JS.

(** The values the program handles.  Numbers are the integers the code
    deals with (row counts, numeric ids); a [Date] is its epoch time; an
    [Error] is its message; a function is its name.  An object is the list
    of its own enumerable properties in insertion order.  A string holds
    its text in UTF-8. *)
Inductive value : Type :=
| VUndefined
| VNull
| VBool (b : bool)
| VNum (n : Z)
| VStr (s : string)
| VDate (ms : Z)
| VError (message : string)
| VArr (items : list value)
| VObj (props : list (string * value))
| VFunction (name : string).

Definition obj : Type := list (string * value).

(** String-keyed properties in insertion order, as [Object.values] and
    [Object.entries] enumerate them (the keys of the program are column
    names and generated identifiers, none of them an array index). *)
Section Properties.
Context {A : Type}.

(** The own property [k], if there is one. *)
Fixpoint lookup (o : list (string * A)) (k : string) : option A :=
  match o with
  | [] => None
  | (k', v) :: rest => if String.eqb k' k then Some v else lookup rest k
  end.

(** [o[k] = v]: an existing key keeps its position, a new key goes last. *)
Fixpoint set (o : list (string * A)) (k : string) (v : A) : list (string * A) :=
  match o with
  | [] => [(k, v)]
  | (k', v') :: rest =>
      if String.eqb k' k then (k, v) :: rest else (k', v') :: set rest k v
  end.

(** [delete o[k]]. *)
Fixpoint remove (o : list (string * A)) (k : string) : list (string * A) :=
  match o with
  | [] => []
  | (k', v') :: rest =>
      if String.eqb k' k then remove rest k else (k', v') :: remove rest k
  end.

(** [Object.values(o)]. *)
Definition Object_values (o : list (string * A)) : list A := map snd o.
End Properties.

(** [o[k]] (or [o.k]) on an object: [undefined] when [k] is not there. *)
Definition get (o : obj) (k : string) : value :=
  match lookup o k with
  | Some v => v
  | None => VUndefined
  end.

(** [{...a, ...b}]: the properties of [b] are assigned over those of [a]. *)
Definition assign (a b : obj) : obj :=
  fold_left (fun acc kv => set acc (fst kv) (snd kv)) b a.

(** ** Strings, counted as JavaScript counts them

    [length], [substring] and the indices of a string count UTF-16 code
    units.  A character that UTF-8 writes in one, two or three bytes is one
    code unit; one that takes four bytes is a surrogate pair, two code
    units.  A surrogate on its own is written as the three bytes of its
    number. *)
Inductive piece : Type :=
| One (bytes : string)
| Pair (b0 b1 b2 b3 : ascii).

(** The number of bytes the sequence that starts with [b] announces. *)
Definition lead_length (b : ascii) : nat :=
  let n := N_of_ascii b in
  if (n <? 192)%N then 1
  else if (n <? 224)%N then 2
  else if (n <? 240)%N then 3
  else if (n <? 248)%N then 4
  else 1.

(** A text cut into its characters; a byte that does not start a
    complete sequence counts on its own. *)
Fixpoint pieces (s : string) : list piece :=
  match s with
  | EmptyString => []
  | String b0 r0 =>
      match lead_length b0, r0 with
      | 2%nat, String b1 r1 =>
          One (String b0 (String b1 "")) :: pieces r1
      | 3%nat, String b1 (String b2 r2) =>
          One (String b0 (String b1 (String b2 ""))) :: pieces r2
      | 4%nat, String b1 (String b2 (String b3 r3)) =>
          Pair b0 b1 b2 b3 :: pieces r3
      | _, _ => One (String b0 "") :: pieces r0
      end
  end.

(** The number a four-byte sequence stands for. *)
Definition code_point (b0 b1 b2 b3 : ascii) : N :=
  ((N_of_ascii b0 mod 8) * 262144 + (N_of_ascii b1 mod 64) * 4096
   + (N_of_ascii b2 mod 64) * 64 + N_of_ascii b3 mod 64)%N.

(** The three bytes of a surrogate. *)
Definition surrogate_text (unit : N) : string :=
  String (ascii_of_N 237)
    (String (ascii_of_N (128 + (unit / 64) mod 64))
       (String (ascii_of_N (128 + unit mod 64)) "")).

Definition high_surrogate (b0 b1 b2 b3 : ascii) : string :=
  surrogate_text (55296 + (code_point b0 b1 b2 b3 - 65536) / 1024).

Definition low_surrogate (b0 b1 b2 b3 : ascii) : string :=
  surrogate_text (56320 + (code_point b0 b1 b2 b3 - 65536) mod 1024).

Definition piece_units (p : piece) : nat :=
  match p with
  | One _ => 1
  | Pair _ _ _ _ => 2
  end.

Definition piece_text (p : piece) : string :=
  match p with
  | One bytes => bytes
  | Pair b0 b1 b2 b3 => String b0 (String b1 (String b2 (String b3 "")))
  end.

(** The text of the first [n] code units of a sequence of characters: a
    cut in the middle of a pair keeps its high surrogate. *)
Fixpoint take_units (n : nat) (ps : list piece) {struct ps} : string :=
  match ps with
  | [] => ""
  | p :: rest =>
      match n with
      | O => ""
      | S n' =>
          match p with
          | One bytes => bytes ++ take_units n' rest
          | Pair b0 b1 b2 b3 =>
              match n' with
              | O => high_surrogate b0 b1 b2 b3
              | S n'' => piece_text p ++ take_units n'' rest
              end
          end
      end
  end.

(** [s.length]. *)
Definition utf16_length (s : string) : nat :=
  list_sum (map piece_units (pieces s)).

(** [s.substring(0, n)]. *)
Definition substring0 (n : nat) (s : string) : string :=
  take_units n (pieces s).

(** The code units of a string, each as a string of its own: [s[0]],
    [s[1]], ... *)
Definition code_units (s : string) : list string :=
  flat_map (fun p => match p with
                     | One bytes => [bytes]
                     | Pair b0 b1 b2 b3 =>
                         [high_surrogate b0 b1 b2 b3;
                          low_surrogate b0 b1 b2 b3]
                     end)
           (pieces s).

Definition index_key (i : nat) : string :=
  NilEmpty.string_of_uint (Nat.to_uint i).

(** The properties of an array or of a string: its indices. *)
Definition indexed (items : list value) : list (string * value) :=
  combine (map index_key (seq 0 (List.length items))) items.

(** What [...v] contributes inside an object literal: the own enumerable
    properties of [v], which are the indices of an array or of a string,
    and nothing for [null], [undefined], a number, a boolean, a [Date], an
    [Error] or a function. *)
Definition spread (v : value) : obj :=
  match v with
  | VObj props => props
  | VArr items => indexed items
  | VStr s => indexed (map VStr (code_units s))
  | _ => []
  end.

Definition truthy (v : value) : bool :=
  match v with
  | VUndefined | VNull => false
  | VBool b => b
  | VNum n => negb (n =? 0)
  | VStr s => negb (String.eqb s "")
  | VDate _ | VError _ | VArr _ | VObj _ | VFunction _ => true
  end.

(** [a || b]. *)
Definition or_else (a b : value) : value := if truthy a then a else b.

Definition typeof (v : value) : string :=
  match v with
  | VUndefined => "undefined"
  | VBool _ => "boolean"
  | VNum _ => "number"
  | VStr _ => "string"
  | VFunction _ => "function"
  | VNull | VDate _ | VError _ | VArr _ | VObj _ => "object"
  end.

Definition is_null (v : value) : bool :=
  match v with VNull => true | _ => false end.

(** [Object.entries(v)] for a non-null object: the own enumerable string
    keyed properties.  An array lists its indices; a [Date] and an [Error]
    have none. *)
Definition Object_entries (v : value) : list (string * value) :=
  match v with
  | VObj props => props
  | VArr items => indexed items
  | _ => []
  end.

(** [a === b] when one side is a primitive: primitives compare by value,
    and a primitive never equals an object. *)
Definition strict_equals (a b : value) : bool :=
  match a, b with
  | VUndefined, VUndefined => true
  | VNull, VNull => true
  | VBool x, VBool y => Bool.eqb x y
  | VNum x, VNum y => x =? y
  | VStr x, VStr y => String.eqb x y
  | _, _ => false
  end.

(** The methods every object inherits from [Object.prototype]. *)
Definition Object_prototype_methods : list string :=
  ["__defineGetter__"; "__defineSetter__"; "hasOwnProperty";
   "__lookupGetter__"; "__lookupSetter__"; "isPrototypeOf";
   "propertyIsEnumerable"; "toString"; "valueOf"; "toLocaleString"].

(** [Object.prototype[k]], but for the accessor [__proto__]. *)
Definition from_Object_prototype (k : string) : value :=
  if String.eqb k "constructor" then VFunction "Object"
  else if existsb (String.eqb k) Object_prototype_methods then VFunction k
  else VUndefined.

(** ** What [uuidv4()] makes of 128 random bits

    Thirty-two hexadecimal digits in groups of 8, 4, 4, 4 and 12, the
    first digit of the third group being the version, [4], and the first
    digit of the fourth group the variant, [8] to [b]. *)
Definition hex_digit (d : N) : ascii :=
  match d with
  | 0%N => "0" | 1%N => "1" | 2%N => "2" | 3%N => "3" | 4%N => "4"
  | 5%N => "5" | 6%N => "6" | 7%N => "7" | 8%N => "8" | 9%N => "9"
  | 10%N => "a" | 11%N => "b" | 12%N => "c" | 13%N => "d" | 14%N => "e"
  | _ => "f"
  end%char.

Definition nibble (bits : N) (i : nat) : N :=
  ((bits / 16 ^ N.of_nat (31 - i)) mod 16)%N.

Definition uuid_digit (bits : N) (i : nat) : ascii :=
  hex_digit (if Nat.eqb i 12 then 4%N
             else if Nat.eqb i 16 then (8 + nibble bits i mod 4)%N
             else nibble bits i).

Definition hex_group (bits : N) (from len : nat) : string :=
  string_of_list_ascii (map (uuid_digit bits) (seq from len)).

Definition uuid_text (bits : N) : string :=
  hex_group bits 0 8 ++ "-" ++ hex_group bits 8 4 ++ "-" ++
  hex_group bits 12 4 ++ "-" ++ hex_group bits 16 4 ++ "-" ++
  hex_group bits 20 12.

Arguments uuid_text bits : simpl never.

End JS.

Export JS.

(* ===================================================================== *)
(** * The runtime: completions, the world, the monad of async methods *)
(* ===================================================================== *)

(** How a call ends: it returns (the promise resolves) or it throws (the
    promise rejects) with a reason. *)
Inductive Completion (A : Type) : Type :=
| Return (a : A)
| Throw (reason : value).

Arguments Return {A} a.
Arguments Throw {A} reason.

(** The state the methods run against.

    - [testAssessments] holds the own properties of the module-level
      object of the Assessment model, from id to assessment object, and
      [prototype] the object it inherits from when that is no longer
      [Object.prototype] (an assignment to [__proto__] replaces it);
    - [tables] is the content of the datastore, by table name;
    - [faults] schedules what the datastore does on its next calls: the
      head is consumed by each call, [Some e] makes that call fail with
      [e], [None] or an exhausted schedule lets it through;
    - [console] collects the [console.error] lines;
    - [uuid_source] and [uuid_drawn] stand for the random bits behind
      [uuidv4()], [clock] for the time [new Date()] reads;
    - [settle_time] tells when the promises that run side by side under a
      [Promise.all] settle, by their position. *)
Record World : Type := mkWorld {
  testAssessments : list (string * obj);
  tables : string -> list obj;
  faults : list (option value);
  console : list (string * value);
  uuid_source : nat -> N;
  uuid_drawn : nat;
  clock : Z;
  prototype : option obj;
  settle_time : nat -> nat
}.

Definition M (A : Type) : Type := World -> Completion A * World.

Definition ret {A} (a : A) : M A := fun w => (Return a, w).

Definition throw {A} (e : value) : M A := fun w => (Throw e, w).

Definition bind {A B} (m : M A) (k : A -> M B) : M B :=
  fun w =>
    match m w with
    | (Return a, w') => k a w'
    | (Throw e, w') => (Throw e, w')
    end.

(** [try { body } catch (error) { handler(error) }]. *)
Definition try_catch {A} (body : M A) (handler : value -> M A) : M A :=
  fun w =>
    match body w with
    | (Return a, w') => (Return a, w')
    | (Throw e, w') => handler e w'
    end.

Declare Scope js_scope.
Delimit Scope js_scope with js.
Notation "x <- m ;; k" := (bind m (fun x => k))
  (at level 61, m at next level, right associativity) : js_scope.
Notation "m ;;; k" := (bind m (fun _ => k))
  (at level 61, right associativity) : js_scope.
Local Open Scope js_scope.

Definition result_of {A} (r : Completion A * World) : Completion A := fst r.
Definition world_of {A} (r : Completion A * World) : World := snd r.

(** [console.error(label, error)]. *)
Definition console_error (label : string) (error : value) : M unit :=
  fun w =>
    (Return tt,
     mkWorld (testAssessments w) (tables w) (faults w)
             (console w ++ [(label, error)])
             (uuid_source w) (uuid_drawn w) (clock w)
             (prototype w) (settle_time w)).

(** [new Date()]. *)
Definition new_Date : M value := fun w => (Return (VDate (clock w)), w).

(** [uuidv4()]. *)
Definition uuidv4 : M string :=
  fun w =>
    (Return (uuid_text (uuid_source w (uuid_drawn w))),
     mkWorld (testAssessments w) (tables w) (faults w) (console w)
             (uuid_source w) (S (uuid_drawn w)) (clock w)
             (prototype w) (settle_time w)).

(** The own properties of [testAssessments], for [Object.values]. *)
Definition read_store : M (list (string * obj)) :=
  fun w => (Return (testAssessments w), w).

Definition write_store (s : list (string * obj)) : M unit :=
  fun w =>
    (Return tt,
     mkWorld s (tables w) (faults w) (console w)
             (uuid_source w) (uuid_drawn w) (clock w)
             (prototype w) (settle_time w)).

(** What [testAssessments] inherits under the name [k]: a property of the
    object it inherits from, else a property of [Object.prototype], whose
    accessor [__proto__] answers the object inherited from. *)
Definition inherited (w : World) (k : string) : value :=
  match prototype w with
  | Some p =>
      match lookup p k with
      | Some v => v
      | None =>
          if String.eqb k "__proto__" then VObj p
          else from_Object_prototype k
      end
  | None =>
      if String.eqb k "__proto__" then VObj []
      else from_Object_prototype k
  end.

(** [testAssessments[k]]: an own property, else an inherited one. *)
Definition testAssessments_at (w : World) (k : string) : value :=
  match lookup (testAssessments w) k with
  | Some assessment => VObj assessment
  | None => inherited w k
  end.

Definition read_at (k : string) : M value :=
  fun w => (Return (testAssessments_at w k), w).

(** [testAssessments[k] = assessment]: an own property is created or
    replaced, unless the name is [__proto__] and reaches the accessor of
    [Object.prototype], which makes [assessment] the object inherited
    from. *)
Definition assign_at (k : string) (assessment : obj) : M unit :=
  fun w =>
    let reaches_accessor :=
      String.eqb k "__proto__"
      && match lookup (testAssessments w) k with
         | Some _ => false
         | None => match prototype w with
                   | Some p => match lookup p k with
                               | Some _ => false
                               | None => true
                               end
                   | None => true
                   end
         end in
    if reaches_accessor then
      (Return tt,
       mkWorld (testAssessments w) (tables w) (faults w) (console w)
               (uuid_source w) (uuid_drawn w) (clock w)
               (Some assessment) (settle_time w))
    else write_store (set (testAssessments w) k assessment) w.

(** [delete testAssessments[k]]. *)
Definition delete_at (k : string) : M unit :=
  fun w => write_store (remove (testAssessments w) k) w.

(** The callbacks of [xs.map(async x => f x)], each run to its end in
    the order they were started, with how each ended. *)
Fixpoint run_all {A B} (f : A -> M B) (xs : list A)
  : World -> list (Completion B) * World :=
  fun w =>
    match xs with
    | [] => ([], w)
    | x :: rest =>
        let (c, w1) := f x w in
        let (cs, w2) := run_all f rest w1 in
        (c :: cs, w2)
    end.

(** The rejection that settles first among promises that ended as [cs],
    the first of them being at position [i]: [best] is the earliest seen
    so far, with its time. *)
Fixpoint first_settled {B} (time : nat -> nat) (i : nat)
         (cs : list (Completion B)) (best : option (nat * value))
  : option (nat * value) :=
  match cs with
  | [] => best
  | Return _ :: rest => first_settled time (S i) rest best
  | Throw e :: rest =>
      first_settled time (S i) rest
        match best with
        | Some (t, e0) => if Nat.ltb (time i) t then Some (time i, e)
                          else Some (t, e0)
        | None => Some (time i, e)
        end
  end.

(** The values of promises that all resolved. *)
Fixpoint resolved {B} (cs : list (Completion B)) : list B :=
  match cs with
  | [] => []
  | Return b :: rest => b :: resolved rest
  | Throw _ :: rest => resolved rest
  end.

(** [Promise.all(xs.map(async x => f x))]: every callback is started, so
    every one of them runs, whatever the others do; the result is the list
    of their values, or the rejection of the one that is the first to
    reject as time goes. *)
Definition Promise_all_map {A B} (f : A -> M B) (xs : list A) : M (list B) :=
  fun w =>
    let (cs, w') := run_all f xs w in
    match first_settled (settle_time w) 0 cs None with
    | Some (_, e) => (Throw e, w')
    | None => (Return (resolved cs), w')
    end.

(** [v.k] on a value that may be [null] or [undefined]. *)
Definition member (v : value) (k : string) : M value :=
  match v with
  | VUndefined | VNull =>
      throw (VError ("TypeError: Cannot read properties of " ++
                     (if is_null v then "null" else "undefined") ++
                     " (reading '" ++ k ++ "')"))
  | VObj props => ret (get props k)
  | _ => ret VUndefined
  end.

(** [v.length > 0]. *)
Definition length_gt_0 (v : value) : bool :=
  match v with
  | VArr items => 0 <? Z.of_nat (List.length items)
  | VStr s => 0 <? Z.of_nat (utf16_length s)
  | _ => false
  end.

(** [v[0]]. *)
Definition item0 (v : value) : value :=
  match v with
  | VArr (x :: _) => x
  | VStr s => match code_units s with
              | unit :: _ => VStr unit
              | [] => VUndefined
              end
  | _ => VUndefined
  end.

(** [xs.map(f)] where [f] may throw: the callbacks run in order and the
    first exception ends the loop. *)
Fixpoint map_seq {A B} (f : A -> M B) (xs : list A) : M (list B) :=
  match xs with
  | [] => ret []
  | x :: rest => b <- f x ;; bs <- map_seq f rest ;; ret (b :: bs)
  end.

Definition array_map (f : value -> M value) (v : value) : M value :=
  match v with
  | VArr items => rs <- map_seq f items ;; ret (VArr rs)
  | VUndefined | VNull =>
      throw (VError ("TypeError: Cannot read properties of " ++
                     (if is_null v then "null" else "undefined") ++
                     " (reading 'map')"))
  | _ => throw (VError "TypeError: map is not a function")
  end.

(** [v.substring(0, n)]. *)
Definition call_substring0 (v : value) (n : nat) : M value :=
  match v with
  | VStr s => ret (VStr (substring0 n s))
  | VUndefined | VNull =>
      throw (VError ("TypeError: Cannot read properties of " ++
                     (if is_null v then "null" else "undefined") ++
                     " (reading 'substring')"))
  | _ => throw (VError "TypeError: substring is not a function")
  end.

(* ===================================================================== *)
(** * The datastore *)
(* ===================================================================== *)

Module Datastore.

(** Modelled from the spec: [backend/db/index.js] is not among the sources.
    The specification describes the database boundary as a query-builder
    style handle supporting table selection, predicate filtering, ordering,
    insert, update and delete, consumed by DbService, and a raw
    parameterized-SQL handle consumed by the Assessment model; failures of
    the datastore propagate as rejected operations.  Both handles act on
    the same tables.  A table is the list of its rows in insertion order,
    a row is an object from column name to value. *)
Definition Tables : Type := string -> list obj.

(** Modelled from the spec: the tables with the rows of one replaced. *)
Definition with_table (t : Tables) (name : string) (rows : list obj) : Tables :=
  fun n => if String.eqb n name then rows else t n.

(** Modelled from the spec: one call to the datastore.  It consumes the
    head of the fault schedule and either fails with the scheduled error or
    runs against the tables. *)
Definition datastore_call {A} (run : Tables -> Completion A * Tables) : M A :=
  fun w =>
    match hd None (faults w) with
    | Some e =>
        (Throw e,
         mkWorld (testAssessments w) (tables w) (tl (faults w)) (console w)
                 (uuid_source w) (uuid_drawn w) (clock w)
             (prototype w) (settle_time w))
    | None =>
        let (r, t') := run (tables w) in
        (r,
         mkWorld (testAssessments w) t' (tl (faults w)) (console w)
                 (uuid_source w) (uuid_drawn w) (clock w)
             (prototype w) (settle_time w))
    end.

(** Modelled from the spec: the comparison [column = value] of a predicate.
    Columns hold scalars; [NULL], a missing column and a non-scalar match
    nothing. *)
Definition sql_eq (a b : value) : bool :=
  match a, b with
  | VBool x, VBool y => Bool.eqb x y
  | VNum x, VNum y => x =? y
  | VStr x, VStr y => String.eqb x y
  | VDate x, VDate y => x =? y
  | _, _ => false
  end.

(** Modelled from the spec: the order [ORDER BY] sorts column values in.
    [NULL] comes first, then numbers, then timestamps, then text. *)
Definition sort_class (v : value) : Z :=
  match v with
  | VUndefined | VNull => 0
  | VBool _ | VNum _ => 1
  | VDate _ => 2
  | VStr _ => 3
  | VError _ | VArr _ | VObj _ | VFunction _ => 4
  end.

(** Modelled from the spec: the number a value sorts by within its
    class. *)
Definition sort_number (v : value) : Z :=
  match v with
  | VBool b => if b then 1 else 0
  | VNum n => n
  | VDate ms => ms
  | _ => 0
  end.

(** Modelled from the spec: the text a value sorts by within its class. *)
Definition sort_text (v : value) : string :=
  match v with
  | VStr s => s
  | _ => ""
  end.

(** Modelled from the spec: [a] sorts at or before [b]. *)
Definition sql_leb (a b : value) : bool :=
  if sort_class a <? sort_class b then true
  else if sort_class b <? sort_class a then false
  else if sort_number a <? sort_number b then true
  else if sort_number b <? sort_number a then false
  else String.leb (sort_text a) (sort_text b).

(** Modelled from the spec: [ORDER BY col DESC], stable: a row goes in
    front of the first row that does not sort after it. *)
Fixpoint insert_desc (col : string) (r : obj) (sorted : list obj) : list obj :=
  match sorted with
  | [] => [r]
  | r' :: rest =>
      if sql_leb (get r' col) (get r col) then r :: sorted
      else r' :: insert_desc col r rest
  end.

(** Modelled from the spec: the rows in descending order of [col]. *)
Fixpoint order_desc (col : string) (rows : list obj) : list obj :=
  match rows with
  | [] => []
  | r :: rest => insert_desc col r (order_desc col rest)
  end.

(** Modelled from the spec: [ORDER BY col ASC], stable. *)
Fixpoint insert_asc (col : string) (r : obj) (sorted : list obj) : list obj :=
  match sorted with
  | [] => [r]
  | r' :: rest =>
      if sql_leb (get r col) (get r' col) then r :: sorted
      else r' :: insert_asc col r rest
  end.

(** Modelled from the spec: the rows in ascending order of [col]. *)
Fixpoint order_asc (col : string) (rows : list obj) : list obj :=
  match rows with
  | [] => []
  | r :: rest => insert_asc col r (order_asc col rest)
  end.

(** Modelled from the spec: a row satisfies a conjunction of
    [column = value] predicates. *)
Definition matches (conds : list (string * value)) (r : obj) : bool :=
  forallb (fun c => sql_eq (get r (fst c)) (snd c)) conds.

(** ** The raw parameterized-SQL handle, [db.query(sql, params)] *)

(** Modelled from the spec: the statements the Assessment model issues. *)
Inductive statement : Type :=
| Select (table where_col : string) (order_by_desc : option string)
| Insert (table : string) (columns : list string)
| Update (table : string) (set_columns : list string) (where_col : string)
| Delete (table where_col : string).

(** Modelled from the spec: the texts of those statements, as the model
    writes them. *)
Definition parse_sql (sql : string) : option statement :=
  if String.eqb sql "SELECT * FROM assessments WHERE id = ?" then
    Some (Select "assessments" "id" None)
  else if String.eqb sql
    "INSERT INTO assessments (id, user_id, assessment_data, created_at, updated_at) VALUES (?, ?, ?, ?, ?)" then
    Some (Insert "assessments"
            ["id"; "user_id"; "assessment_data"; "created_at"; "updated_at"])
  else if String.eqb sql
    "SELECT * FROM assessments WHERE user_id = ? ORDER BY created_at DESC" then
    Some (Select "assessments" "user_id" (Some "created_at"))
  else if String.eqb sql
    "UPDATE assessments SET assessment_data = ?, updated_at = ? WHERE id = ?" then
    Some (Update "assessments" ["assessment_data"; "updated_at"] "id")
  else if String.eqb sql "DELETE FROM assessments WHERE id = ?" then
    Some (Delete "assessments" "id")
  else None.

(** Modelled from the spec: the error of a statement whose placeholders
    and parameters do not pair up. *)
Definition bad_parameters : value :=
  VError "SQL error: wrong number of parameters".

(** Modelled from the spec: what a statement does to the tables with its
    placeholders bound, and the rows (or the number of affected rows) it
    answers. *)
Definition exec (st : statement) (params : list value) (t : Tables)
  : Completion value * Tables :=
  match st with
  | Select table col order =>
      match params with
      | [v] =>
          let found := filter (fun r => sql_eq (get r col) v) (t table) in
          let sorted := match order with
                        | Some by_col => order_desc by_col found
                        | None => found
                        end in
          (Return (VArr (map VObj sorted)), t)
      | _ => (Throw bad_parameters, t)
      end
  | Insert table columns =>
      if Nat.eqb (List.length params) (List.length columns) then
        (Return (VNum 1),
         with_table t table (t table ++ [combine columns params]))
      else (Throw bad_parameters, t)
  | Update table columns col =>
      if Nat.eqb (List.length params) (S (List.length columns)) then
        let v := last params VUndefined in
        let changes := combine columns params in
        let hit := filter (fun r => sql_eq (get r col) v) (t table) in
        (Return (VNum (Z.of_nat (List.length hit))),
         with_table t table
           (map (fun r => if sql_eq (get r col) v then assign r changes else r)
                (t table)))
      else (Throw bad_parameters, t)
  | Delete table col =>
      match params with
      | [v] =>
          let hit := filter (fun r => sql_eq (get r col) v) (t table) in
          (Return (VNum (Z.of_nat (List.length hit))),
           with_table t table
             (filter (fun r => negb (sql_eq (get r col) v)) (t table)))
      | _ => (Throw bad_parameters, t)
      end
  end.

(** Modelled from the spec: [await db.query(sql, params)]. *)
Definition query (sql : string) (params : list value) : M value :=
  datastore_call
    (fun t =>
       match parse_sql sql with
       | Some st => exec st params t
       | None => (Throw (VError "SQL error: statement not understood"), t)
       end).

(** ** The query builder, [db(table).where(...)...] *)

(** Modelled from the spec: a query under construction, its table, its
    [where] predicates and its ordering. *)
Record Query : Type := mkQuery {
  from : string;
  wheres : list (string * value);
  order : option (string * string)
}.

(** Modelled from the spec: [db(table)]. *)
Definition db (table : string) : Query := mkQuery table [] None.

(** Modelled from the spec: [q.where(column, v)]. *)
Definition where_ (column : string) (v : value) (q : Query) : Query :=
  mkQuery (from q) (wheres q ++ [(column, v)]) (order q).

(** Modelled from the spec: [q.orderBy(column, direction)]. *)
Definition orderBy (column direction : string) (q : Query) : Query :=
  mkQuery (from q) (wheres q) (Some (column, direction)).

(** Modelled from the spec: the rows a query selects, in the order it asks
    for. *)
Definition selected (q : Query) (t : Tables) : list obj :=
  let found := filter (matches (wheres q)) (t (from q)) in
  match order q with
  | Some (column, direction) =>
      if String.eqb direction "desc" then order_desc column found
      else order_asc column found
  | None => found
  end.

(** Modelled from the spec: [await q] and [await q.select('*')]. *)
Definition select (q : Query) : M value :=
  datastore_call (fun t => (Return (VArr (map VObj (selected q t))), t)).

(** Modelled from the spec: [await q.first()]. *)
Definition first (q : Query) : M value :=
  datastore_call
    (fun t =>
       (Return match selected q t with
               | r :: _ => VObj r
               | [] => VUndefined
               end, t)).

(** Modelled from the spec: [await q.insert(data)]: the row joins the
    table; the answer is the array holding its row number. *)
Definition insert (data : value) (q : Query) : M value :=
  datastore_call
    (fun t =>
       let rows := (t (from q) ++ [spread data])%list in
       (Return (VArr [VNum (Z.of_nat (List.length rows))]),
        with_table t (from q) rows)).

(** Modelled from the spec: [await q.update(data)]: the answer is the
    number of rows changed. *)
Definition update (data : value) (q : Query) : M value :=
  datastore_call
    (fun t =>
       let hit := filter (matches (wheres q)) (t (from q)) in
       (Return (VNum (Z.of_nat (List.length hit))),
        with_table t (from q)
          (map (fun r => if matches (wheres q) r
                         then assign r (spread data) else r)
               (t (from q))))).

(** Modelled from the spec: [await q.delete()]: the answer is the number
    of rows deleted. *)
Definition delete (q : Query) : M value :=
  datastore_call
    (fun t =>
       let hit := filter (matches (wheres q)) (t (from q)) in
       (Return (VNum (Z.of_nat (List.length hit))),
        with_table t (from q)
          (filter (fun r => negb (matches (wheres q) r)) (t (from q))))).

End Datastore.

(* ===================================================================== *)
(** * [src/backend/models/Assessment.js] *)
(* ===================================================================== *)

Module Assessment.

Section Model.

(** [process.env], and the two functions of the built-in [JSON] object,
    which the model takes as given. *)
Variable process_env : string -> value.
Variable JSON_stringify : value -> value.
Variable JSON_parse : value -> Completion value.

(** [const isTestMode = process.env.NODE_ENV === 'test' ||
    process.env.TEST_MODE === 'true';] *)
Definition isTestMode : bool :=
  strict_equals (process_env "NODE_ENV") (VStr "test")
  || strict_equals (process_env "TEST_MODE") (VStr "true").

Definition not_found (id : string) : value :=
  VError ("Assessment with ID " ++ id ++ " not found").

(** [static async findById(id)] *)
Definition findById (id : string) : M value :=
  try_catch
    (hit <- (if isTestMode then read_at id else ret (VBool false)) ;;
     if truthy hit then read_at id
     else
       assessment <- Datastore.query
                       "SELECT * FROM assessments WHERE id = ?"
                       [VStr id] ;;
       if truthy assessment && length_gt_0 assessment
       then ret (item0 assessment)
       else ret VNull)
    (fun error =>
       console_error "Error finding assessment by ID:" error ;;;
       throw error).

(** [static async create(assessmentData, userId)] *)
Definition create (assessmentData : value) (userId : string) : M value :=
  try_catch
    (id <- uuidv4 ;;
     now <- new_Date ;;
     if isTestMode then
       let assessment :=
         [("id", VStr id); ("userId", VStr userId);
          ("assessmentData", assessmentData);
          ("createdAt", now); ("updatedAt", now)] in
       assign_at id assessment ;;;
       ret (VObj assessment)
     else
       Datastore.query
         "INSERT INTO assessments (id, user_id, assessment_data, created_at, updated_at) VALUES (?, ?, ?, ?, ?)"
         [VStr id; VStr userId; JSON_stringify assessmentData; now; now] ;;;
       ret (VObj [("id", VStr id); ("userId", VStr userId);
                  ("assessmentData", assessmentData);
                  ("createdAt", now); ("updatedAt", now)]))
    (fun error =>
       console_error "Error creating assessment:" error ;;;
       throw error).

(** [static async listByUser(userId)] *)
Definition listByUser (userId : string) : M value :=
  try_catch
    (if isTestMode then
       store <- read_store ;;
       ret (VArr (map VObj
              (filter (fun assessment =>
                         strict_equals (get assessment "userId") (VStr userId))
                      (Object_values store))))
     else
       assessments <- Datastore.query
                        "SELECT * FROM assessments WHERE user_id = ? ORDER BY created_at DESC"
                        [VStr userId] ;;
       array_map
         (fun assessment =>
            let copied := spread assessment in
            assessment_data <- member assessment "assessment_data" ;;
            parsed <- (fun w => (JSON_parse assessment_data, w)) ;;
            ret (VObj (assign copied [("assessmentData", parsed)])))
         assessments)
    (fun error =>
       console_error "Error listing assessments by user:" error ;;;
       throw error).

(** [static async update(id, assessmentData)] *)
Definition update (id : string) (assessmentData : value) : M value :=
  try_catch
    (now <- new_Date ;;
     if isTestMode then
       entry <- read_at id ;;
       if negb (truthy entry) then throw (not_found id)
       else
         current <- read_at id ;;
         assign_at id
           (assign (spread current) [("assessmentData", assessmentData);
                                     ("updatedAt", now)]) ;;;
         read_at id
     else
       Datastore.query
         "UPDATE assessments SET assessment_data = ?, updated_at = ? WHERE id = ?"
         [JSON_stringify assessmentData; now; VStr id] ;;;
       updatedAssessment <- findById id ;;
       ret (VObj (assign (spread updatedAssessment)
                         [("assessmentData", assessmentData)])))
    (fun error =>
       console_error "Error updating assessment:" error ;;;
       throw error).

(** [static async delete(id)] *)
Definition delete (id : string) : M value :=
  try_catch
    (if isTestMode then
       entry <- read_at id ;;
       if negb (truthy entry) then throw (not_found id)
       else
         delete_at id ;;;
         ret (VBool true)
     else
       Datastore.query "DELETE FROM assessments WHERE id = ?" [VStr id] ;;;
       ret (VBool true))
    (fun error =>
       console_error "Error deleting assessment:" error ;;;
       throw error).

End Model.

End Assessment.

(* ===================================================================== *)
(** * [src/unnamed/part_002]: DbService *)
(* ===================================================================== *)

Module DbService.

Import Datastore.

(** [static async findById(table, id)] *)
Definition findById (table : string) (id : value) : M value :=
  try_catch
    (record <- first (where_ "id" id (db table)) ;;
     ret (or_else record VNull))
    (fun error =>
       console_error ("Error in findById for " ++ table ++ ":") error ;;;
       throw error).

(** [static async findBy(table, field, value)] *)
Definition findBy (table field : string) (v : value) : M value :=
  try_catch
    (records <- select (where_ field v (db table)) ;;
     ret (or_else records (VArr [])))
    (fun error =>
       console_error ("Error in findBy for " ++ table ++ ":") error ;;;
       throw error).

(** [static async create(table, data)] *)
Definition create (table : string) (data : value) : M value :=
  try_catch
    (ids <- insert data (db table) ;;
     let id := item0 ids in
     data_id <- member data "id" ;;
     insertedRecord <- findById table (or_else data_id id) ;;
     ret insertedRecord)
    (fun error =>
       console_error ("Error in create for " ++ table ++ ":") error ;;;
       throw error).

(** [static async update(table, id, data)] *)
Definition update (table : string) (id data : value) : M value :=
  try_catch
    (Datastore.update data (where_ "id" id (db table)) ;;;
     updatedRecord <- findById table id ;;
     ret updatedRecord)
    (fun error =>
       console_error ("Error in update for " ++ table ++ ":") error ;;;
       throw error).

(** [static async delete(table, option)] *)
Definition delete (table : string) (option : value) : M value :=
  try_catch
    (let query :=
       if String.eqb (typeof option) "object" && negb (is_null option) then
         fold_left (fun query kv => where_ (fst kv) (snd kv) query)
                   (Object_entries option) (db table)
       else where_ "id" option (db table) in
     count <- Datastore.delete query ;;
     ret (VBool (match count with VNum n => 0 <? n | _ => false end)))
    (fun error =>
       console_error ("Error deleting from " ++ table ++ ":") error ;;;
       throw error).

(** [static async getAll(table)] *)
Definition getAll (table : string) : M value :=
  try_catch
    (records <- select (db table) ;;
     ret (or_else records (VArr [])))
    (fun error =>
       console_error ("Error in getAll for " ++ table ++ ":") error ;;;
       throw error).

Definition array_items (v : value) : list value :=
  match v with
  | VArr items => items
  | _ => []
  end.

(** The callback of the fan-out: one conversation, its latest message. *)
Definition withPreview (conv : value) : M value :=
  conv_id <- member conv "id" ;;
  latestMessage <- first (orderBy "created_at" "desc"
                            (where_ "conversation_id" conv_id
                               (db "chat_messages"))) ;;
  id <- member conv "id" ;;
  lastMessageDate <- member conv "updated_at" ;;
  preview <- (if truthy latestMessage
              then content <- member latestMessage "content" ;;
                   call_substring0 content 50
              else ret (VStr "")) ;;
  ret (VObj [("id", id); ("lastMessageDate", lastMessageDate);
             ("preview", preview)]).

(** [static async getConversationsWithPreviews(userId)] *)
Definition getConversationsWithPreviews (userId : string) : M value :=
  try_catch
    (conversations <- select (orderBy "updated_at" "desc"
                                (where_ "user_id" (VStr userId)
                                   (db "conversations"))) ;;
     conversationsWithPreviews <-
       Promise_all_map withPreview
         (array_items (or_else conversations (VArr []))) ;;
     ret (VArr conversationsWithPreviews))
    (fun error =>
       console_error "Error in getConversationsWithPreviews:" error ;;;
       throw error).

End DbService.

(* ===================================================================== *)
(** * [src/unnamed/part_000] and [src/unnamed/part_001]: the API modules *)
(* ===================================================================== *)

Module Frontend.

(** What a module exports under a name: a function, or an object whose
    fields are functions. *)
Inductive exported (function : Type) : Type :=
| Function (f : function)
| ApiObject (fields : list (string * function)).

Arguments Function {function} f.
Arguments ApiObject {function} fields.

(** [export * from m] re-exports every name of [m] but [default]; a name
    the module exports itself takes precedence. *)
Definition star {function : Type} (m : list (string * exported function))
  : list (string * exported function) :=
  filter (fun kv => negb (String.eqb (fst kv) "default")) m.

Section AssessmentModule.
Variable function : Type.

(** [import getList from "./requests/getList";] and the like. *)
Variables getList getById postSend putUpdate deleteAssessment : function.
(** The names of ["./utils/types"]. *)
Variable utils_types : list (string * exported function).

(** [export const assessmentApi = { list: getList, getById,
    sendAssessment: postSend, update: putUpdate,
    delete: deleteAssessment };] *)
Definition assessmentApi : list (string * function) :=
  [("list", getList); ("getById", getById); ("sendAssessment", postSend);
   ("update", putUpdate); ("delete", deleteAssessment)].

(** The names the module exports. *)
Definition assessment_exports : list (string * exported function) :=
  ([("getList", Function getList);
    ("getById", Function getById);
    ("sendAssessment", Function postSend);
    ("update", Function putUpdate);
    ("deleteAssessment", Function deleteAssessment);
    ("assessmentApi", ApiObject assessmentApi);
    ("default", ApiObject assessmentApi)]
   ++ star utils_types)%list.
End AssessmentModule.

Section ChatModule.
Variable function : Type.

Variables sendMessage getHistory getConversation deleteConversation : function.
Variable utils_types : list (string * exported function).

(** [export const chatApi = { sendMessage, getHistory, getConversation,
    deleteConversation };] *)
Definition chatApi : list (string * function) :=
  [("sendMessage", sendMessage); ("getHistory", getHistory);
   ("getConversation", getConversation);
   ("deleteConversation", deleteConversation)].

Definition chat_exports : list (string * exported function) :=
  ([("sendMessage", Function sendMessage);
    ("getHistory", Function getHistory);
    ("getConversation", Function getConversation);
    ("deleteConversation", Function deleteConversation);
    ("chatApi", ApiObject chatApi);
    ("default", ApiObject chatApi)]
   ++ star utils_types)%list.
End ChatModule.

End Frontend.

(* ===================================================================== *)
(** * Vocabulary of the properties *)
(* ===================================================================== *)

(** The datastore is up: no failure is scheduled. *)
Definition datastore_up (w : World) : Prop := faults w = [].

(** The rows of [table] whose [column] equals [v]. *)
Definition rows_where (w : World) (table column : string) (v : value) : list obj :=
  filter (fun r => Datastore.sql_eq (get r column) v) (tables w table).

(** The world with the rows of one table replaced. *)
Definition put_table (w : World) (table : string) (rows : list obj) : World :=
  mkWorld (testAssessments w) (Datastore.with_table (tables w) table rows)
          (faults w) (console w) (uuid_source w) (uuid_drawn w) (clock w) (prototype w) (settle_time w).

(** The world with the in-memory store replaced. *)
Definition put_store (w : World) (store : list (string * obj)) : World :=
  mkWorld store (tables w) (faults w) (console w)
          (uuid_source w) (uuid_drawn w) (clock w) (prototype w) (settle_time w).

(** The world after one identifier was generated, and that identifier. *)
Definition drawn (w : World) : World :=
  mkWorld (testAssessments w) (tables w) (faults w) (console w)
          (uuid_source w) (S (uuid_drawn w)) (clock w) (prototype w) (settle_time w).

Definition next_uuid (w : World) : string :=
  uuid_text (uuid_source w (uuid_drawn w)).

Arguments next_uuid w : simpl never.

(** The store object inherits something truthy under the name [id]: with
    [Object.prototype] behind it these are [constructor], [toString],
    [__proto__] and the like. *)
Definition inherits (w : World) (id : string) : bool :=
  truthy (inherited w id).


(** The assessment object [create] builds. *)
Definition new_assessment (id userId : string) (assessmentData now : value) : obj :=
  [("id", VStr id); ("userId", VStr userId);
   ("assessmentData", assessmentData);
   ("createdAt", now); ("updatedAt", now)].

(** The row [create] inserts. *)
Definition new_row (id userId : string) (data now : value) : obj :=
  [("id", VStr id); ("user_id", VStr userId); ("assessment_data", data);
   ("created_at", now); ("updated_at", now)].

Definition first_or_null (rows : list obj) : value :=
  match rows with
  | r :: _ => VObj r
  | [] => VNull
  end.

(** What [UPDATE assessments SET assessment_data = ?, updated_at = ?
    WHERE id = ?] makes of a row. *)
Definition updated_row (data now id : value) (r : obj) : obj :=
  if Datastore.sql_eq (get r "id") id
  then assign r [("assessment_data", data); ("updated_at", now)]
  else r.

(** The lines an operation added to the console. *)
Definition logged (w w' : World) : list (string * value) :=
  skipn (List.length (console w)) (console w').

(** The part of the fault schedule an operation consumed: one entry per
    datastore call it made. *)
Definition consumed (w w' : World) : list (option value) :=
  firstn (List.length (faults w) - List.length (faults w')) (faults w).

(** The error of the first call that failed, if one did. *)
Fixpoint first_failure (calls : list (option value)) : option value :=
  match calls with
  | [] => None
  | Some e :: _ => Some e
  | None :: rest => first_failure rest
  end.

(** The calls [calls] stop at the failure [e]: the last of them failed
    with [e] and none before it failed. *)
Definition stops_at (e : value) (calls : list (option value)) : Prop :=
  exists earlier,
    calls = (earlier ++ [Some e])%list /\ first_failure earlier = None.





(** A chat message whose content is text, as the schema has it
    ([content: text NOT NULL]). *)
Definition has_text (m : obj) : bool :=
  match get m "content" with
  | VStr _ => true
  | _ => false
  end.

(** The messages of a conversation. *)
Definition messages_of (w : World) (conv : obj) : list obj :=
  rows_where w "chat_messages" "conversation_id" (get conv "id").

(** [m] is a most recent message among [ms]: none was created later. *)
Definition most_recent (ms : list obj) (m : obj) : Prop :=
  In m ms /\
  forall m', In m' ms ->
    Datastore.sql_leb (get m' "created_at") (get m "created_at") = true.

(** Every byte of the text is an ASCII character. *)
Definition is_ascii (s : string) : bool :=
  forallb (fun c => (N_of_ascii c <? 128)%N) (list_ascii_of_string s).

(** The code units and the text of a run of characters. *)
Definition units_of (ps : list piece) : nat := list_sum (map piece_units ps).
Definition text_of (ps : list piece) : string :=
  fold_right (fun p rest => piece_text p ++ rest) "" ps.

(** [p] is [s] cut after its first [n] UTF-16 code units: the characters
    of [s] split into those [p] keeps and the rest; what is kept counts
    [n] code units, or all of [s] when [s] has fewer; and when the cut
    falls inside a surrogate pair, [p] ends with the high surrogate of the
    pair. *)
Definition first_code_units (n : nat) (s p : string) : Prop :=
  exists kept rest,
    pieces s = (kept ++ rest)%list /\
    ((units_of kept = Nat.min n (utf16_length s) /\ p = text_of kept) \/
     (exists b0 b1 b2 b3 rest',
         rest = Pair b0 b1 b2 b3 :: rest' /\
         S (units_of kept) = n /\
         p = text_of kept ++ high_surrogate b0 b1 b2 b3)).

(** The text a preview shows for a conversation: the first 50 characters
    of the content of a most recent message (characters as JavaScript
    counts them, which for ASCII text are its bytes), the empty string
    when the conversation has no message. *)
Definition preview_text (w : World) (conv : obj) (p : string) : Prop :=
  (messages_of w conv = [] /\ p = "") \/
  (exists m s, most_recent (messages_of w conv) m /\
               get m "content" = VStr s /\
               first_code_units 50 s p /\
               (is_ascii s = true ->
                p = String.substring 0 50 s /\
                String.length p = Nat.min 50 (String.length s))).

(** The entry of the preview list that stands for a conversation. *)
Definition entry_of (w : World) (conv : obj) (entry : value) : Prop :=
  exists p, preview_text w conv p /\
    entry = VObj [("id", get conv "id");
                  ("lastMessageDate", get conv "updated_at");
                  ("preview", VStr p)].

(** Every row sorts at or before [r]. *)
Definition all_before (col : string) (r : obj) (rows : list obj) : Prop :=
  Forall (fun r' => Datastore.sql_leb (get r' col) (get r col) = true) rows.

(** The rows are in descending order of [col]. *)
Fixpoint descending (col : string) (rows : list obj) : Prop :=
  match rows with
  | [] => True
  | r :: rest => all_before col r rest /\ descending col rest
  end.

(** The field-value pairs [DbService.delete] filters on: the entries of a
    non-null object, else the id. *)
Definition conditions (option : value) : list (string * value) :=
  if String.eqb (typeof option) "object" && negb (is_null option)
  then Object_entries option
  else [("id", option)].

(** The operations of the two classes. *)
Inductive operation : Type :=
| DbService_findById (table : string) (id : value)
| DbService_findBy (table field : string) (v : value)
| DbService_create (table : string) (data : value)
| DbService_update (table : string) (id data : value)
| DbService_delete (table : string) (option : value)
| DbService_getAll (table : string)
| DbService_getConversationsWithPreviews (userId : string)
| Assessment_findById (id : string)
| Assessment_create (assessmentData : value) (userId : string)
| Assessment_listByUser (userId : string)
| Assessment_update (id : string) (assessmentData : value)
| Assessment_delete (id : string).

Definition run (process_env : string -> value)
           (JSON_stringify : value -> value)
           (JSON_parse : value -> Completion value)
           (op : operation) : M value :=
  match op with
  | DbService_findById table id => DbService.findById table id
  | DbService_findBy table field v => DbService.findBy table field v
  | DbService_create table data => DbService.create table data
  | DbService_update table id data => DbService.update table id data
  | DbService_delete table option => DbService.delete table option
  | DbService_getAll table => DbService.getAll table
  | DbService_getConversationsWithPreviews userId =>
      DbService.getConversationsWithPreviews userId
  | Assessment_findById id => Assessment.findById process_env id
  | Assessment_create assessmentData userId =>
      Assessment.create process_env JSON_stringify assessmentData userId
  | Assessment_listByUser userId =>
      Assessment.listByUser process_env JSON_parse userId
  | Assessment_update id assessmentData =>
      Assessment.update process_env JSON_stringify id assessmentData
  | Assessment_delete id => Assessment.delete process_env id
  end.


(** ** Sample environments and worlds *)

Module Sample.

Definition test_env : string -> value :=
  fun name => if String.eqb name "NODE_ENV" then VStr "test" else VUndefined.

Definition production_env : string -> value :=
  fun name => if String.eqb name "NODE_ENV" then VStr "production"
              else VUndefined.

(** A questionnaire result. *)
Definition answers : value :=
  VObj [("age", VStr "25-34"); ("cycleLength", VStr "26-30");
        ("periodDuration", VStr "4-5"); ("flowHeaviness", VStr "moderate");
        ("painLevel", VStr "mild")].

Definition answers' : value :=
  VObj [("age", VStr "25-34"); ("cycleLength", VStr "31-35");
        ("periodDuration", VStr "6-7"); ("flowHeaviness", VStr "heavy");
        ("painLevel", VStr "severe")].

Definition quoted (s : string) : string :=
  String "034"%char (s ++ String "034"%char "").

(** [JSON.stringify] on the flat objects of text the questionnaire
    produces, and on text; [undefined] elsewhere. *)
Definition JSON_stringify (v : value) : value :=
  match v with
  | VStr s => VStr (quoted s)
  | VObj props =>
      VStr ("{" ++
            String.concat ","
              (map (fun kv => quoted (fst kv) ++ ":" ++
                              match snd kv with
                              | VStr s => quoted s
                              | _ => "null"
                              end) props) ++ "}")
  | _ => VUndefined
  end.

(** [JSON.parse] on the two texts above; a [SyntaxError] elsewhere. *)
Definition JSON_parse (v : value) : Completion value :=
  if strict_equals v (JSON_stringify answers) then Return answers
  else if strict_equals v (JSON_stringify answers') then Return answers'
  else Throw (VError "SyntaxError: Unexpected token").

(** The random bits behind the identifiers, and the identifiers:
    [6f1c0a52-3b7e-4c7e-9d55-2a1f0e8b7c01],
    [0b9d2f4e-8a61-4f0c-b3a7-5e2d9c4f1a02] and
    [c4e7a1d9-5f20-4b8e-a6c3-9b0f3d7e2a03]. *)
Definition random (n : nat) : N :=
  match n with
  | O => 0x6f1c0a523b7e4c7e9d552a1f0e8b7c01
  | 1%nat => 0x0b9d2f4e8a614f0cb3a75e2d9c4f1a02
  | _ => 0xc4e7a1d95f204b8ea6c39b0f3d7e2a03
  end%N.

Definition uuids (n : nat) : string := uuid_text (random n).

(** Promises that settle in the order they were started, and promises
    that settle in the opposite order. *)
Definition in_turn : nat -> nat := fun i => i.
Definition last_first : nat -> nat := fun i => (100 - i)%nat.

Definition tables_of (content : list (string * list obj)) : string -> list obj :=
  fun name => match lookup content name with
              | Some rows => rows
              | None => []
              end.

Definition start : Z := 1714550400000.

(** A fresh process over an empty datastore. *)
Definition empty_world : World :=
  mkWorld [] (tables_of []) [] [] random 0 start None in_turn.

Definition ada : string := "user-ada".
Definition grace : string := "user-grace".

(** The assessment of Ada in the in-memory store of a test process. *)
Definition stored : obj :=
  new_assessment (uuids 0) ada answers (VDate (start - 60000)).

(** Rows of the [assessments] table. *)
Definition row_ada : obj :=
  new_row (uuids 0) ada (JSON_stringify answers) (VDate (start - 60000)).
Definition row_grace : obj :=
  new_row (uuids 1) grace (JSON_stringify answers') (VDate (start - 30000)).

(** Conversations and their messages: Ada has two conversations, the
    first with two messages, the second with none. *)
Definition conversation (id user title : string) (updated : Z) : obj :=
  [("id", VStr id); ("user_id", VStr user); ("title", VStr title);
   ("created_at", VDate (updated - 1000)); ("updated_at", VDate updated)].

Definition message (id conversation_id role content : string) (created : Z) : obj :=
  [("id", VStr id); ("conversation_id", VStr conversation_id);
   ("role", VStr role); ("content", VStr content);
   ("created_at", VDate created)].

Definition conversations : list obj :=
  [conversation "conv-1" ada "Cycle length" (start - 5000);
   conversation "conv-2" ada "Cramps" (start - 2000);
   conversation "conv-3" grace "Tracking" (start - 4000)].

Definition chat_messages : list obj :=
  [message "msg-1" "conv-1" "user" "Is a 35 day cycle normal?" (start - 6000);
   message "msg-2" "conv-1" "assistant"
     "A cycle between 21 and 35 days is considered within the typical range for adults."
     (start - 5000);
   message "msg-3" "conv-3" "user" "How do I log a period?" (start - 4000)].

Definition content : list (string * list obj) :=
  [("assessments", [row_ada; row_grace]);
   ("conversations", conversations);
   ("chat_messages", chat_messages)].

(** A test process: Ada's assessment in the store, nothing in the
    [assessments] table. *)
Definition test_world : World :=
  mkWorld [(uuids 0, stored)]
          (tables_of [("conversations", conversations);
                      ("chat_messages", chat_messages)])
          [] [] random 1 start None in_turn.

(** A test process whose datastore also holds a row with the id of the
    assessment in the store. *)
Definition shadowed_world : World :=
  mkWorld [(uuids 0, stored)] (tables_of content) [] [] random 1 start None in_turn.

(** A production process. *)
Definition production_world : World :=
  mkWorld [] (tables_of content) [] [] random 2 start None in_turn.

Definition connection_reset : value := VError "read ECONNRESET".
Definition statement_timeout : value :=
  VError "canceling statement due to statement timeout".

(** The datastore fails on the next call. *)
Definition failing_world : World :=
  mkWorld [] (tables_of content) [Some connection_reset] [] random 2 start None in_turn.

(** The datastore answers the next call and fails on the two after it,
    with two different errors. *)
Definition twice_failing_world : World :=
  mkWorld [] (tables_of content)
          [None; Some connection_reset; Some statement_timeout]
          [] random 2 start None in_turn.

End Sample.

(* ===================================================================== *)
(** * Vocabulary of the further properties *)
(* ===================================================================== *)

(** The context an operation logs its errors under: the first argument
    of the [console.error] of its [catch] block. *)
Definition label_of (op : operation) : string :=
  match op with
  | DbService_findById table _ => "Error in findById for " ++ table ++ ":"
  | DbService_findBy table _ _ => "Error in findBy for " ++ table ++ ":"
  | DbService_create table _ => "Error in create for " ++ table ++ ":"
  | DbService_update table _ _ => "Error in update for " ++ table ++ ":"
  | DbService_delete table _ => "Error deleting from " ++ table ++ ":"
  | DbService_getAll table => "Error in getAll for " ++ table ++ ":"
  | DbService_getConversationsWithPreviews _ =>
      "Error in getConversationsWithPreviews:"
  | Assessment_findById _ => "Error finding assessment by ID:"
  | Assessment_create _ _ => "Error creating assessment:"
  | Assessment_listByUser _ => "Error listing assessments by user:"
  | Assessment_update _ _ => "Error updating assessment:"
  | Assessment_delete _ => "Error deleting assessment:"
  end.

(** The operations of the Assessment model. *)
Definition of_model (op : operation) : bool :=
  match op with
  | Assessment_findById _ | Assessment_create _ _ | Assessment_listByUser _
  | Assessment_update _ _ | Assessment_delete _ => true
  | _ => false
  end.

(** The operations that only read: the finders and the listings. *)
Definition reads (op : operation) : bool :=
  match op with
  | DbService_findById _ _ | DbService_findBy _ _ _ | DbService_getAll _
  | DbService_getConversationsWithPreviews _
  | Assessment_findById _ | Assessment_listByUser _ => true
  | _ => false
  end.

(** A computation is quiet: it only adds lines to the console, and none
    when it returns. *)
Definition quiet {A} (m : M A) : Prop :=
  forall w, exists lines,
    console (world_of (m w)) = (console w ++ lines)%list /\
    forall a, result_of (m w) = Return a -> lines = [].

(** A computation leaves a component of the world as it found it. *)
Definition preserves {X A} (component : World -> X) (m : M A) : Prop :=
  forall w, component (world_of (m w)) = component w.

(** The record [listByUser] makes of a row in production mode, when the
    column [assessment_data] parses. *)
Definition decoded (JSON_parse : value -> Completion value) (row : obj)
  : Completion value :=
  match JSON_parse (get row "assessment_data") with
  | Return parsed => Return (VObj (assign row [("assessmentData", parsed)]))
  | Throw e => Throw e
  end.

(** The callback of the loop of [listByUser] in production mode. *)
Definition decode (JSON_parse : value -> Completion value) (assessment : value)
  : M value :=
  assessment_data <- member assessment "assessment_data" ;;
  parsed <- (fun w => (JSON_parse assessment_data, w)) ;;
  ret (VObj (assign (spread assessment) [("assessmentData", parsed)])).

(** The rows [listByUser] reads in production mode, in its order. *)
Definition rows_of_user (w : World) (userId : string) : list obj :=
  Datastore.order_desc "created_at"
    (rows_where w "assessments" "user_id" (VStr userId)).

(** The conversations of a user, in the order of the preview list. *)
Definition conversations_of (w : World) (userId : string) : list obj :=
  Datastore.order_desc "updated_at"
    (rows_where w "conversations" "user_id" (VStr userId)).

(** The message a preview is taken from, if the conversation has one. *)
Definition latest_message (w : World) (conv : obj) : option obj :=
  match Datastore.order_desc "created_at" (messages_of w conv) with
  | m :: _ => Some m
  | [] => None
  end.

(** What a failed re-read leaves in the world: the write is applied, one
    more entry of the schedule is consumed, two lines are logged. *)
Definition after_failed_reread (w : World) (table : string) (rows : list obj)
           (inner outer : string) (e : value) : World :=
  mkWorld (testAssessments w) (Datastore.with_table (tables w) table rows)
          (tl (tl (faults w)))
          (console w ++ [(inner, e); (outer, e)])
          (uuid_source w) (uuid_drawn w) (clock w) (prototype w) (settle_time w).

(** ** More sample worlds *)

Module Scenario.

(** A production process whose datastore answers the next call and fails
    on the one after it. *)
Definition reread_failing_world : World :=
  mkWorld [] (Sample.tables_of Sample.content)
          [None; Some Sample.connection_reset]
          [] Sample.random 2 Sample.start None Sample.in_turn.

(** A row of Ada whose [assessment_data] is not JSON. *)
Definition row_corrupt : obj :=
  new_row (Sample.uuids 2) Sample.ada (VStr "{age:") (VDate (Sample.start - 10000)).

(** A production process with that row in the [assessments] table. *)
Definition corrupt_world : World :=
  mkWorld []
          (Sample.tables_of
             [("assessments", [Sample.row_ada; row_corrupt; Sample.row_grace])])
          [] [] Sample.random 3 Sample.start None Sample.in_turn.

(** The latest message of the first conversation of Ada, with no content. *)
Definition message_without_text : obj :=
  [("id", VStr "msg-4"); ("conversation_id", VStr "conv-1");
   ("role", VStr "assistant"); ("content", VNull);
   ("created_at", VDate (Sample.start - 1000))].

Definition textless_world : World :=
  mkWorld []
          (Sample.tables_of
             [("conversations", Sample.conversations);
              ("chat_messages",
               (Sample.chat_messages ++ [message_without_text])%list)])
          [] [] Sample.random 2 Sample.start None Sample.in_turn.

(** A production process in which Ada has three conversations; the
    datastore answers the query for them and fails on the message queries
    of the first and of the third, with two different errors, the later
    query settling first. *)
Definition overtaken_world : World :=
  mkWorld []
          (Sample.tables_of
             [("conversations",
               (Sample.conversations ++
                [Sample.conversation "conv-5" Sample.ada "Sleep"
                                     (Sample.start - 9000)])%list);
              ("chat_messages", Sample.chat_messages)])
          [None; Some Sample.connection_reset; None;
           Some Sample.statement_timeout]
          [] Sample.random 2 Sample.start None Sample.last_first.

(** A conversation that is not in the table yet. *)
Definition new_conversation : obj :=
  Sample.conversation "conv-4" Sample.grace "Symptoms" (Sample.start - 500).

End Scenario.
(* ===================================================================== *)
(** * Basic facts: property lists *)
(* ===================================================================== *)

Section PropertyFacts.
Context {A : Type}.
Implicit Types (o : list (string * A)) (k : string) (v : A).

Lemma lookup_set_same o k v : lookup (set o k v) k = Some v.
Proof.
  induction o as [|[k' v'] o IH]; simpl.
  - now rewrite String.eqb_refl.
  - destruct (String.eqb k' k) eqn:E; simpl.
    + now rewrite String.eqb_refl.
    + now rewrite E.
Qed.

Lemma lookup_set_other o k k' v :
  k' <> k -> lookup (set o k v) k' = lookup o k'.
Proof.
  intros Hne. induction o as [|[k0 v0] o IH]; simpl.
  - destruct (String.eqb_spec k k'); congruence.
  - destruct (String.eqb_spec k0 k) as [->|Hk]; simpl.
    + destruct (String.eqb_spec k k'); congruence.
    + destruct (String.eqb_spec k0 k'); auto.
Qed.

Lemma lookup_remove_same o k : lookup (remove o k) k = None.
Proof.
  induction o as [|[k' v'] o IH]; simpl; auto.
  destruct (String.eqb k' k) eqn:E; simpl; auto.
  now rewrite E.
Qed.

Lemma lookup_remove_other o k k' :
  k' <> k -> lookup (remove o k) k' = lookup o k'.
Proof.
  intros Hne. induction o as [|[k0 v0] o IH]; simpl; auto.
  destruct (String.eqb_spec k0 k) as [->|Hk]; simpl.
  - destruct (String.eqb_spec k k'); congruence.
  - destruct (String.eqb_spec k0 k'); auto.
Qed.
End PropertyFacts.

Lemma get_set_same (o : obj) k v : get (set o k v) k = v.
Proof. unfold get. now rewrite lookup_set_same. Qed.

Lemma get_set_other (o : obj) k k' v :
  k' <> k -> get (set o k v) k' = get o k'.
Proof. intros H. unfold get. now rewrite lookup_set_other. Qed.

(* ===================================================================== *)
(** * Basic facts: strings and identifiers *)
(* ===================================================================== *)

Lemma string_app_assoc (a b c : string) : ((a ++ b) ++ c = a ++ (b ++ c))%string.
Proof. induction a as [|x a IH]; simpl; [reflexivity | now rewrite IH]. Qed.

Lemma units_of_cons p ps : units_of (p :: ps) = (piece_units p + units_of ps)%nat.
Proof. reflexivity. Qed.

(** Cutting after [n] code units keeps a run of whole characters, and the
    high surrogate of the pair the cut falls in. *)
Lemma take_units_first n ps :
  exists kept rest,
    ps = (kept ++ rest)%list /\
    ((units_of kept = Nat.min n (units_of ps) /\
      take_units n ps = text_of kept) \/
     (exists b0 b1 b2 b3 rest',
         rest = Pair b0 b1 b2 b3 :: rest' /\
         S (units_of kept) = n /\
         take_units n ps = (text_of kept ++ high_surrogate b0 b1 b2 b3)%string)).
Proof.
  revert n. induction ps as [|p ps IH]; intros n.
  - exists [], []. split; [reflexivity|]. left.
    split; [now rewrite Nat.min_0_r | reflexivity].
  - destruct n as [|n].
    + exists [], (p :: ps). split; [reflexivity|]. left.
      split; [reflexivity | now destruct p].
    + destruct p as [bytes|b0 b1 b2 b3].
      * destruct (IH n) as (kept & rest & -> & Hcut).
        exists (One bytes :: kept), rest. split; [reflexivity|].
        destruct Hcut as [[Hunits Htext]|(c0 & c1 & c2 & c3 & rest' & -> & Hunits & Htext)].
        -- left. cbn [take_units app]. rewrite Htext. split; [|reflexivity].
           cbn [app]. rewrite !units_of_cons. cbn [piece_units]. lia.
        -- right. exists c0, c1, c2, c3, rest'. cbn [take_units app].
           rewrite Htext. split; [reflexivity|]. split.
           ++ cbn [app]. rewrite !units_of_cons. cbn [piece_units]. lia.
           ++ cbn [text_of fold_right piece_text]. now rewrite string_app_assoc.
      * destruct n as [|n].
        -- exists [], (Pair b0 b1 b2 b3 :: ps). split; [reflexivity|].
           right. exists b0, b1, b2, b3, ps. repeat split.
        -- destruct (IH n) as (kept & rest & -> & Hcut).
           exists (Pair b0 b1 b2 b3 :: kept), rest. split; [reflexivity|].
           destruct Hcut as [[Hunits Htext]|(c0 & c1 & c2 & c3 & rest' & -> & Hunits & Htext)].
           ++ left. cbn [take_units app]. rewrite Htext. split; [|reflexivity].
              cbn [app]. rewrite !units_of_cons. cbn [piece_units]. lia.
           ++ right. exists c0, c1, c2, c3, rest'. cbn [take_units app].
              rewrite Htext. split; [reflexivity|]. split.
              ** cbn [app]. rewrite !units_of_cons. cbn [piece_units]. lia.
              ** cbn [text_of fold_right]. now rewrite string_app_assoc.
Qed.

Lemma substring0_first n s : first_code_units n s (substring0 n s).
Proof. exact (take_units_first n (pieces s)). Qed.

(** On ASCII text the code units are the bytes. *)
Lemma substring0_ascii s :
  is_ascii s = true -> forall n, substring0 n s = String.substring 0 n s.
Proof.
  unfold is_ascii, substring0.
  induction s as [|c s IH]; intros Hs n.
  - now destruct n.
  - cbn [list_ascii_of_string forallb] in Hs.
    apply andb_true_iff in Hs as [Hc Hs].
    assert (Hlead : lead_length c = 1%nat).
    { unfold lead_length. apply N.ltb_lt in Hc.
      destruct (N.ltb_spec (N_of_ascii c) 192); [reflexivity | lia]. }
    cbn [pieces]. rewrite Hlead. destruct n as [|n]; [reflexivity|].
    cbn [take_units]. rewrite (IH Hs). reflexivity.
Qed.

Lemma length_substring0 s n :
  String.length (String.substring 0 n s) = Nat.min n (String.length s).
Proof.
  revert n. induction s as [|c s IH]; intros [|n]; simpl; auto.
Qed.

(** An identifier has 36 characters: it is none of the names an object
    inherits, and not [__proto__] in particular. *)
Lemma uuid_text_length bits : String.length (uuid_text bits) = 36%nat.
Proof. reflexivity. Qed.

Lemma uuid_text_is_no_accessor bits : String.eqb (uuid_text bits) "__proto__" = false.
Proof.
  apply String.eqb_neq. intros H.
  apply (f_equal String.length) in H. now rewrite uuid_text_length in H.
Qed.

(* ===================================================================== *)
(** * Basic facts: the datastore *)
(* ===================================================================== *)

Lemma world_up_eta w :
  datastore_up w ->
  mkWorld (testAssessments w) (tables w) [] (console w)
          (uuid_source w) (uuid_drawn w) (clock w) (prototype w) (settle_time w) = w.
Proof. unfold datastore_up. destruct w; simpl. now intros ->. Qed.

Lemma with_table_same t name rows : Datastore.with_table t name rows name = rows.
Proof. unfold Datastore.with_table. now rewrite String.eqb_refl. Qed.

Lemma with_table_other t name rows n :
  n <> name -> Datastore.with_table t name rows n = t n.
Proof.
  unfold Datastore.with_table. intros H.
  destruct (String.eqb_spec n name); congruence.
Qed.

Lemma put_table_up w table rows : datastore_up w -> datastore_up (put_table w table rows).
Proof. exact (fun H => H). Qed.

(** A call that goes through answers what it computes on the tables. *)
Lemma datastore_call_up {A} (run : Datastore.Tables -> Completion A * Datastore.Tables) w :
  datastore_up w ->
  Datastore.datastore_call run w =
    (fst (run (tables w)),
     mkWorld (testAssessments w) (snd (run (tables w))) [] (console w)
             (uuid_source w) (uuid_drawn w) (clock w) (prototype w) (settle_time w)).
Proof.
  unfold datastore_up, Datastore.datastore_call. intros ->. simpl.
  now destruct (run (tables w)).
Qed.

(** A call that only reads leaves the world as it was. *)
Lemma datastore_call_read {A} (run : Datastore.Tables -> Completion A * Datastore.Tables) w :
  datastore_up w ->
  snd (run (tables w)) = tables w ->
  Datastore.datastore_call run w = (fst (run (tables w)), w).
Proof.
  intros Hup Hread. rewrite datastore_call_up by assumption.
  now rewrite Hread, world_up_eta.
Qed.

(** A call that writes one table. *)
Lemma datastore_call_write {A} (run : Datastore.Tables -> Completion A * Datastore.Tables)
      w table rows :
  datastore_up w ->
  snd (run (tables w)) = Datastore.with_table (tables w) table rows ->
  Datastore.datastore_call run w = (fst (run (tables w)), put_table w table rows).
Proof.
  intros Hup Hwrite. rewrite datastore_call_up by assumption.
  unfold put_table. now rewrite Hwrite, Hup.
Qed.

(** A call that meets a scheduled failure rejects with it. *)
Lemma datastore_call_down {A} (run : Datastore.Tables -> Completion A * Datastore.Tables)
      w e :
  hd None (faults w) = Some e ->
  Datastore.datastore_call run w =
    (Throw e,
     mkWorld (testAssessments w) (tables w) (tl (faults w)) (console w)
             (uuid_source w) (uuid_drawn w) (clock w) (prototype w) (settle_time w)).
Proof. unfold Datastore.datastore_call. now intros ->. Qed.

Lemma filter_filter_negb {A} (p : A -> bool) (l : list A) :
  filter p (filter (fun x => negb (p x)) l) = [].
Proof.
  induction l as [|x l IH]; simpl; auto.
  destruct (p x) eqn:E; simpl; auto. now rewrite E.
Qed.

Lemma filter_map_stable {A} (p : A -> bool) (f : A -> A) (l : list A) :
  (forall x, p (f x) = p x) ->
  filter p (map f l) = map f (filter p l).
Proof.
  intros H. induction l as [|x l IH]; simpl; auto.
  rewrite H. destruct (p x); simpl; now rewrite IH.
Qed.

(** ** The statements of the Assessment model, with the datastore up *)

Lemma select_by_id_up w v :
  datastore_up w ->
  Datastore.query "SELECT * FROM assessments WHERE id = ?" [v] w =
    (Return (VArr (map VObj (rows_where w "assessments" "id" v))), w).
Proof. intros Hup. unfold Datastore.query. now rewrite datastore_call_read. Qed.

Lemma select_by_user_up w v :
  datastore_up w ->
  Datastore.query
    "SELECT * FROM assessments WHERE user_id = ? ORDER BY created_at DESC" [v] w =
    (Return (VArr (map VObj (Datastore.order_desc "created_at"
                               (rows_where w "assessments" "user_id" v)))), w).
Proof. intros Hup. unfold Datastore.query. now rewrite datastore_call_read. Qed.

Lemma insert_up w id user data created updated :
  datastore_up w ->
  Datastore.query
    "INSERT INTO assessments (id, user_id, assessment_data, created_at, updated_at) VALUES (?, ?, ?, ?, ?)"
    [id; user; data; created; updated] w =
    (Return (VNum 1),
     put_table w "assessments"
       (tables w "assessments" ++
        [[("id", id); ("user_id", user); ("assessment_data", data);
          ("created_at", created); ("updated_at", updated)]])%list).
Proof.
  intros Hup. unfold Datastore.query.
  now erewrite datastore_call_write by (try assumption; reflexivity).
Qed.

Lemma update_up w data now id :
  datastore_up w ->
  Datastore.query
    "UPDATE assessments SET assessment_data = ?, updated_at = ? WHERE id = ?"
    [data; now; id] w =
    (Return (VNum (Z.of_nat (List.length (rows_where w "assessments" "id" id)))),
     put_table w "assessments"
       (map (updated_row data now id) (tables w "assessments"))).
Proof.
  intros Hup. unfold Datastore.query.
  now erewrite datastore_call_write by (try assumption; reflexivity).
Qed.

Lemma delete_up w id :
  datastore_up w ->
  Datastore.query "DELETE FROM assessments WHERE id = ?" [id] w =
    (Return (VNum (Z.of_nat (List.length (rows_where w "assessments" "id" id)))),
     put_table w "assessments"
       (filter (fun r => negb (Datastore.sql_eq (get r "id") id))
               (tables w "assessments"))).
Proof.
  intros Hup. unfold Datastore.query.
  now erewrite datastore_call_write by (try assumption; reflexivity).
Qed.

Lemma new_row_has_its_id id user data now :
  Datastore.sql_eq (get (new_row id user data now) "id") (VStr id) = true.
Proof. simpl. apply String.eqb_refl. Qed.

Lemma updated_row_frame data now id r k :
  k <> "assessment_data" -> k <> "updated_at" ->
  get (updated_row data now id r) k = get r k.
Proof.
  intros H1 H2. unfold updated_row.
  destruct (Datastore.sql_eq (get r "id") id); auto.
  unfold assign; simpl. now rewrite !get_set_other.
Qed.

Lemma rows_where_id_updated w data now id v :
  rows_where (put_table w "assessments"
                (map (updated_row data now id) (tables w "assessments")))
             "assessments" "id" v =
  map (updated_row data now id) (rows_where w "assessments" "id" v).
Proof.
  unfold rows_where, put_table; simpl. rewrite with_table_same.
  apply filter_map_stable. intros r.
  now rewrite updated_row_frame by discriminate.
Qed.

(* ===================================================================== *)
(** * Basic facts: the Assessment model, method by method *)
(* ===================================================================== *)

Section AssessmentFacts.

Variable process_env : string -> value.
Variable JSON_stringify : value -> value.
Variable JSON_parse : value -> Completion value.

Local Abbreviation isTestMode := (Assessment.isTestMode process_env).
Local Abbreviation findById := (Assessment.findById process_env).
Local Abbreviation create := (Assessment.create process_env JSON_stringify).
Local Abbreviation listByUser := (Assessment.listByUser process_env JSON_parse).
Local Abbreviation update := (Assessment.update process_env JSON_stringify).
Local Abbreviation delete := (Assessment.delete process_env).

(** What the store answers under a name: its own property, else what it
    inherits. *)
Lemma testAssessments_at_own id w a :
  lookup (testAssessments w) id = Some a -> testAssessments_at w id = VObj a.
Proof. unfold testAssessments_at. now intros ->. Qed.

Lemma testAssessments_at_inherited id w :
  lookup (testAssessments w) id = None ->
  testAssessments_at w id = inherited w id.
Proof. unfold testAssessments_at. now intros ->. Qed.

Lemma read_at_run id w : read_at id w = (Return (testAssessments_at w id), w).
Proof. reflexivity. Qed.

(** An assignment under a name that is not [__proto__], or that the store
    has as its own, writes an own property. *)
Lemma assign_at_own id a w :
  String.eqb id "__proto__" = false \/ lookup (testAssessments w) id <> None ->
  assign_at id a w = (Return tt, put_store w (set (testAssessments w) id a)).
Proof.
  unfold assign_at. intros [-> | Hown]; [reflexivity|].
  destruct (lookup (testAssessments w) id); [|contradiction].
  now rewrite andb_false_r.
Qed.

(** [findById] answers from the in-memory store when it is in test mode
    and the store has the id. *)
Lemma findById_store_hit id w a :
  isTestMode = true ->
  lookup (testAssessments w) id = Some a ->
  findById id w = (Return (VObj a), w).
Proof.
  intros Hmode Hfound.
  unfold Assessment.findById, try_catch, bind.
  rewrite Hmode, read_at_run, (testAssessments_at_own _ _ _ Hfound).
  cbn [truthy].
  now rewrite read_at_run, (testAssessments_at_own _ _ _ Hfound).
Qed.

(** It answers what the store inherits under the name, when that is
    truthy. *)
Lemma findById_inherited id w :
  isTestMode = true ->
  lookup (testAssessments w) id = None ->
  inherits w id = true ->
  findById id w = (Return (inherited w id), w).
Proof.
  intros Hmode Hnone Hinh. unfold inherits in Hinh.
  unfold Assessment.findById, try_catch, bind.
  rewrite Hmode, read_at_run, (testAssessments_at_inherited _ _ Hnone), Hinh.
  now rewrite read_at_run, (testAssessments_at_inherited _ _ Hnone).
Qed.

(** In every other case it asks the datastore. *)
Lemma findById_datastore id w :
  isTestMode && truthy (testAssessments_at w id) = false ->
  datastore_up w ->
  findById id w =
    (Return (first_or_null (rows_where w "assessments" "id" (VStr id))), w).
Proof.
  intros Hmiss Hup.
  unfold Assessment.findById, try_catch, bind.
  assert (Hhit : (if isTestMode then read_at id else ret (VBool false)) w
                 = (Return (if isTestMode then testAssessments_at w id
                            else VBool false), w))
    by now destruct isTestMode.
  rewrite Hhit.
  replace (truthy (if isTestMode then testAssessments_at w id else VBool false))
    with false by (destruct isTestMode; [now rewrite <- Hmiss | reflexivity]).
  rewrite select_by_id_up by assumption.
  now destruct (rows_where w "assessments" "id" (VStr id)).
Qed.

Lemma findById_miss id w :
  isTestMode = true ->
  lookup (testAssessments w) id = None ->
  inherits w id = false ->
  datastore_up w ->
  findById id w =
    (Return (first_or_null (rows_where w "assessments" "id" (VStr id))), w).
Proof.
  intros Hmode Hnone Hinh Hup. apply findById_datastore; [|exact Hup].
  rewrite Hmode, (testAssessments_at_inherited _ _ Hnone). exact Hinh.
Qed.

Lemma create_test_mode assessmentData userId w :
  isTestMode = true ->
  create assessmentData userId w =
    (let a := new_assessment (next_uuid w) userId assessmentData
                             (VDate (clock w)) in
     (Return (VObj a),
      put_store (drawn w) (set (testAssessments w) (next_uuid w) a))).
Proof.
  intros Hmode.
  unfold Assessment.create, try_catch, bind, uuidv4, new_Date.
  rewrite Hmode. cbv zeta. cbn [fst snd].
  change (mkWorld (testAssessments w) (tables w) (faults w) (console w)
                  (uuid_source w) (S (uuid_drawn w)) (clock w)
                  (prototype w) (settle_time w)) with (drawn w).
  rewrite assign_at_own by (left; apply uuid_text_is_no_accessor).
  reflexivity.
Qed.

Lemma create_production assessmentData userId w :
  isTestMode = false ->
  datastore_up w ->
  create assessmentData userId w =
    (Return (VObj (new_assessment (next_uuid w) userId assessmentData
                                  (VDate (clock w)))),
     put_table (drawn w) "assessments"
       (tables w "assessments" ++
        [new_row (next_uuid w) userId (JSON_stringify assessmentData)
                 (VDate (clock w))])%list).
Proof.
  intros Hmode Hup.
  unfold Assessment.create, try_catch, bind, uuidv4, new_Date.
  rewrite Hmode.
  change (mkWorld (testAssessments w) (tables w) (faults w) (console w)
                  (uuid_source w) (S (uuid_drawn w)) (clock w) (prototype w) (settle_time w)) with (drawn w).
  now rewrite insert_up by exact Hup.
Qed.

Lemma update_test_mode id assessmentData w stored :
  isTestMode = true ->
  lookup (testAssessments w) id = Some stored ->
  update id assessmentData w =
    (let a := assign stored [("assessmentData", assessmentData);
                             ("updatedAt", VDate (clock w))] in
     (Return (VObj a), put_store w (set (testAssessments w) id a))).
Proof.
  intros Hmode Hfound.
  unfold Assessment.update, try_catch, bind, new_Date.
  rewrite Hmode, read_at_run, (testAssessments_at_own _ _ _ Hfound).
  cbn [truthy negb].
  rewrite read_at_run, (testAssessments_at_own _ _ _ Hfound).
  cbn [spread].
  rewrite assign_at_own by (right; congruence).
  rewrite read_at_run. erewrite testAssessments_at_own; [reflexivity|].
  cbn [put_store testAssessments]. apply lookup_set_same.
Qed.

Lemma update_production id assessmentData w :
  isTestMode = false ->
  datastore_up w ->
  update id assessmentData w =
    (let w' := put_table w "assessments"
                 (map (updated_row (JSON_stringify assessmentData)
                                   (VDate (clock w)) (VStr id))
                      (tables w "assessments")) in
     (Return (VObj (assign
                (spread (first_or_null
                           (rows_where w' "assessments" "id" (VStr id))))
                [("assessmentData", assessmentData)])),
      w')).
Proof.
  intros Hmode Hup.
  unfold Assessment.update, try_catch, bind, new_Date.
  rewrite Hmode, update_up by exact Hup.
  rewrite findById_datastore; [reflexivity | now rewrite Hmode | exact Hup].
Qed.

Lemma delete_test_mode id w stored :
  isTestMode = true ->
  lookup (testAssessments w) id = Some stored ->
  delete id w =
    (Return (VBool true), put_store w (remove (testAssessments w) id)).
Proof.
  intros Hmode Hfound.
  unfold Assessment.delete, try_catch, bind.
  now rewrite Hmode, read_at_run, (testAssessments_at_own _ _ _ Hfound).
Qed.

Lemma delete_production id w :
  isTestMode = false ->
  datastore_up w ->
  delete id w =
    (Return (VBool true),
     put_table w "assessments"
       (filter (fun r => negb (Datastore.sql_eq (get r "id") (VStr id)))
               (tables w "assessments"))).
Proof.
  intros Hmode Hup.
  unfold Assessment.delete, try_catch, bind.
  now rewrite Hmode, delete_up by exact Hup.
Qed.

(** In test mode an id that the store neither has nor inherits makes
    [update] and [delete] throw. *)
Lemma update_test_mode_missing id assessmentData w :
  isTestMode = true ->
  lookup (testAssessments w) id = None ->
  inherits w id = false ->
  update id assessmentData w =
    (Throw (VError ("Assessment with ID " ++ id ++ " not found")),
     mkWorld (testAssessments w) (tables w) (faults w)
             (console w ++
              [("Error updating assessment:",
                VError ("Assessment with ID " ++ id ++ " not found"))])
             (uuid_source w) (uuid_drawn w) (clock w)
             (prototype w) (settle_time w)).
Proof.
  intros Hmode Hnone Hinh. unfold inherits in Hinh.
  unfold Assessment.update, try_catch, bind, new_Date.
  now rewrite Hmode, read_at_run, (testAssessments_at_inherited _ _ Hnone), Hinh.
Qed.

Lemma delete_test_mode_missing id w :
  isTestMode = true ->
  lookup (testAssessments w) id = None ->
  inherits w id = false ->
  delete id w =
    (Throw (VError ("Assessment with ID " ++ id ++ " not found")),
     mkWorld (testAssessments w) (tables w) (faults w)
             (console w ++
              [("Error deleting assessment:",
                VError ("Assessment with ID " ++ id ++ " not found"))])
             (uuid_source w) (uuid_drawn w) (clock w)
             (prototype w) (settle_time w)).
Proof.
  intros Hmode Hnone Hinh. unfold inherits in Hinh.
  unfold Assessment.delete, try_catch, bind.
  now rewrite Hmode, read_at_run, (testAssessments_at_inherited _ _ Hnone), Hinh.
Qed.

(** An id the store inherits something truthy under does not: [delete]
    answers [true] and leaves the store as it is. *)
Lemma delete_test_mode_inherited id w :
  isTestMode = true ->
  lookup (testAssessments w) id = None ->
  inherits w id = true ->
  delete id w = (Return (VBool true), w).
Proof.
  intros Hmode Hnone Hinh. unfold inherits in Hinh.
  unfold Assessment.delete, try_catch, bind.
  rewrite Hmode, read_at_run, (testAssessments_at_inherited _ _ Hnone), Hinh.
  cbn [negb]. unfold delete_at, write_store, ret. f_equal.
  assert (Hsame : remove (testAssessments w) id = testAssessments w).
  { clear - Hnone. induction (testAssessments w) as [|[k a] store IH];
      simpl in *; auto.
    destruct (String.eqb k id); [discriminate|]. simpl. now rewrite IH. }
  rewrite Hsame. now destruct w.
Qed.

(** Whatever the store answers under a name, when it is truthy
    [findById] answers it. *)
Lemma findById_truthy id w :
  isTestMode = true ->
  truthy (testAssessments_at w id) = true ->
  findById id w = (Return (testAssessments_at w id), w).
Proof.
  intros Hmode Hhit.
  unfold Assessment.findById, try_catch, bind.
  now rewrite Hmode, read_at_run, Hhit, read_at_run.
Qed.

(** An id the store inherits something truthy under: [update] spreads
    what is inherited under the data and the time, and the store answers
    that object under the id afterwards. *)
Lemma update_test_mode_inherited id assessmentData w :
  isTestMode = true ->
  lookup (testAssessments w) id = None ->
  inherits w id = true ->
  let a := assign (spread (inherited w id))
                  [("assessmentData", assessmentData);
                   ("updatedAt", VDate (clock w))] in
  exists w1,
    update id assessmentData w = (Return (VObj a), w1) /\
    testAssessments_at w1 id = VObj a /\
    tables w1 = tables w /\ faults w1 = faults w /\ console w1 = console w.
Proof.
  intros Hmode Hnone Hinh. unfold inherits in Hinh. cbv zeta.
  unfold Assessment.update, try_catch, bind, new_Date.
  rewrite Hmode, read_at_run, (testAssessments_at_inherited _ _ Hnone), Hinh.
  cbn [negb].
  rewrite read_at_run, (testAssessments_at_inherited _ _ Hnone).
  set (a := assign _ _).
  unfold assign_at. rewrite Hnone.
  destruct (String.eqb_spec id "__proto__") as [->|Hid]; cbn [andb].
  - assert (Hplain : lookup a "__proto__" = None ->
                     testAssessments_at
                       (mkWorld (testAssessments w) (tables w) (faults w)
                          (console w) (uuid_source w) (uuid_drawn w) (clock w)
                          (Some a) (settle_time w)) "__proto__" = VObj a).
    { intros Hplain. unfold testAssessments_at, inherited.
      cbn [testAssessments prototype]. now rewrite Hnone, Hplain. }
    assert (Hset : lookup a "__proto__"
                   = lookup (spread (inherited w "__proto__")) "__proto__").
    { subst a. unfold assign. cbn [fold_left fst snd].
      now rewrite !lookup_set_other by discriminate. }
    assert (Hkept : testAssessments_at
                      (put_store w (set (testAssessments w) "__proto__" a))
                      "__proto__" = VObj a).
    { apply testAssessments_at_own. cbn [put_store testAssessments].
      apply lookup_set_same. }
    unfold inherited in Hset.
    destruct (prototype w) as [p|] eqn:Hproto.
    + destruct (lookup p "__proto__") as [v|] eqn:Hp.
      * unfold write_store. rewrite read_at_run. cbn [fst snd].
        unfold put_store in Hkept. rewrite Hkept.
        eexists. split; [reflexivity|]. now rewrite Hkept.
      * cbn [String.eqb Ascii.eqb Bool.eqb spread] in Hset.
        rewrite read_at_run. cbn [fst snd].
        rewrite Hplain by now rewrite Hset.
        eexists. split; [reflexivity|]. split; [|now split].
        apply Hplain. now rewrite Hset.
    + rewrite read_at_run. cbn [fst snd].
      rewrite Hplain by now rewrite Hset.
      eexists. split; [reflexivity|]. split; [|now split].
      apply Hplain. now rewrite Hset.
  - unfold write_store. rewrite read_at_run. cbn [fst snd].
    assert (Hkept : testAssessments_at
                      (put_store w (set (testAssessments w) id a)) id = VObj a).
    { apply testAssessments_at_own. cbn [put_store testAssessments].
      apply lookup_set_same. }
    unfold put_store in Hkept. rewrite Hkept.
    eexists. split; [reflexivity|]. now rewrite Hkept.
Qed.

End AssessmentFacts.


(* ===================================================================== *)
(** * Basic facts: DbService, method by method *)
(* ===================================================================== *)

Lemma matches_id id r :
  Datastore.matches [("id", id)] r = Datastore.sql_eq (get r "id") id.
Proof. unfold Datastore.matches; simpl. apply andb_true_r. Qed.

Lemma fold_where_wheres (l : list (string * value)) (q : Datastore.Query) :
  Datastore.wheres
    (fold_left (fun query kv => Datastore.where_ (fst kv) (snd kv) query) l q)
  = (Datastore.wheres q ++ l)%list.
Proof.
  revert q. induction l as [|[k v] l IH]; intros q; simpl.
  - now rewrite app_nil_r.
  - rewrite IH. simpl. now rewrite <- app_assoc.
Qed.

Lemma fold_where_from (l : list (string * value)) (q : Datastore.Query) :
  Datastore.from
    (fold_left (fun query kv => Datastore.where_ (fst kv) (snd kv) query) l q)
  = Datastore.from q.
Proof.
  revert q. induction l as [|[k v] l IH]; intros q; simpl; auto.
  now rewrite IH.
Qed.

(** The query [DbService.delete] builds filters on [conditions option]. *)
Lemma delete_query_conditions table option :
  let query :=
    if String.eqb (typeof option) "object" && negb (is_null option) then
      fold_left (fun query kv => Datastore.where_ (fst kv) (snd kv) query)
                (Object_entries option) (Datastore.db table)
    else Datastore.where_ "id" option (Datastore.db table) in
  Datastore.from query = table /\ Datastore.wheres query = conditions option.
Proof.
  unfold conditions.
  destruct (String.eqb (typeof option) "object" && negb (is_null option)); simpl.
  - now rewrite fold_where_from, fold_where_wheres.
  - auto.
Qed.

Lemma DbService_findById_up table id w :
  datastore_up w ->
  DbService.findById table id w =
    (Return (first_or_null (rows_where w table "id" id)), w).
Proof.
  intros Hup. unfold DbService.findById, try_catch, bind, Datastore.first.
  rewrite datastore_call_read by (try assumption; reflexivity).
  unfold Datastore.selected, rows_where; simpl.
  rewrite (filter_ext _ _ (matches_id id)).
  now destruct (filter _ _).
Qed.

Lemma DbService_delete_up table option w :
  datastore_up w ->
  DbService.delete table option w =
    (Return (VBool (0 <? Z.of_nat (List.length
               (filter (Datastore.matches (conditions option)) (tables w table))))),
     put_table w table
       (filter (fun r => negb (Datastore.matches (conditions option) r))
               (tables w table))).
Proof.
  intros Hup. unfold DbService.delete, try_catch, bind, Datastore.delete.
  destruct (delete_query_conditions table option) as [Hfrom Hwheres].
  cbv zeta in Hfrom, Hwheres.
  erewrite datastore_call_write; [ | exact Hup | cbn [snd]; rewrite Hfrom; reflexivity ].
  cbn [fst]. now rewrite Hfrom, Hwheres.
Qed.

(** A row [DbService.delete] keeps does not have the id it was given. *)
Lemma kept_row_has_other_id option r :
  Datastore.matches (conditions option) r = false ->
  Datastore.sql_eq (get r "id") option = false.
Proof.
  destruct option; unfold conditions, Datastore.matches; simpl;
    try rewrite andb_true_r; try discriminate; auto;
    intros _; now destruct (get r "id").
Qed.

(* ===================================================================== *)
(** * Basic facts: loops, ordering *)
(* ===================================================================== *)

Lemma Forall2_map_same {A B} (R : A -> B -> Prop) (f : A -> B) (l : list A) :
  (forall x, In x l -> R x (f x)) -> Forall2 R l (map f l).
Proof.
  induction l as [|x l IH]; intros H; simpl; constructor.
  - apply H. now left.
  - apply IH. intros y Hy. apply H. now right.
Qed.

(** What a sequential [map] returned was returned element by element. *)
Lemma map_seq_return {A B} (f : A -> M B) xs :
  forall w bs w',
    map_seq f xs w = (Return bs, w') ->
    Forall2 (fun x b => exists w1 w2, f x w1 = (Return b, w2)) xs bs.
Proof.
  induction xs as [|x xs IH]; intros w bs w'; simpl.
  - unfold ret. intros [= <- _]. constructor.
  - unfold bind. destruct (f x w) as [[b|e] w1] eqn:Hx; [|discriminate].
    destruct (map_seq f xs w1) as [[bs'|e] w2] eqn:Hxs; [|discriminate].
    unfold ret. intros [= <- _]. constructor; eauto.
Qed.

Lemma insert_desc_perm col r rows :
  Permutation (Datastore.insert_desc col r rows) (r :: rows).
Proof.
  induction rows as [|r' rows IH]; simpl; auto.
  destruct (Datastore.sql_leb _ _); auto.
  rewrite IH. apply perm_swap.
Qed.

Lemma order_desc_perm col rows :
  Permutation (Datastore.order_desc col rows) rows.
Proof.
  induction rows as [|r rows IH]; simpl; auto.
  rewrite insert_desc_perm. now constructor.
Qed.

Lemma sql_eq_text a s : Datastore.sql_eq a (VStr s) = true -> a = VStr s.
Proof.
  destruct a; simpl; try discriminate.
  intros H. apply String.eqb_eq in H. now subst.
Qed.

Lemma strict_equals_text a s : strict_equals a (VStr s) = true -> a = VStr s.
Proof.
  destruct a; simpl; try discriminate.
  intros H. apply String.eqb_eq in H. now subst.
Qed.

(** What a statement answered, whatever the fault schedule. *)
Lemma select_by_user_result w v r w1 :
  Datastore.query
    "SELECT * FROM assessments WHERE user_id = ? ORDER BY created_at DESC" [v] w
    = (Return r, w1) ->
  r = VArr (map VObj (Datastore.order_desc "created_at"
                        (rows_where w "assessments" "user_id" v))).
Proof.
  unfold Datastore.query, Datastore.datastore_call.
  destruct (hd None (faults w)); simpl; [discriminate|].
  now intros [= <- _].
Qed.

(** ** The order of [ORDER BY] is a total preorder *)

Lemma ascii_compare_lt_trans a b c :
  Ascii.compare a b = Lt -> Ascii.compare b c = Lt -> Ascii.compare a c = Lt.
Proof.
  unfold Ascii.compare. rewrite !N.compare_lt_iff. apply N.lt_trans.
Qed.

Lemma string_compare_not_gt_trans s1 :
  forall s2 s3,
    String.compare s1 s2 <> Gt -> String.compare s2 s3 <> Gt ->
    String.compare s1 s3 <> Gt.
Proof.
  induction s1 as [|c1 s1 IH]; intros [|c2 s2] [|c3 s3]; simpl;
    try congruence.
  destruct (Ascii.compare c1 c2) eqn:H12; try congruence;
    destruct (Ascii.compare c2 c3) eqn:H23; try congruence; intros Ha Hb.
  - apply Ascii.compare_eq_iff in H12, H23. subst.
    assert (H : Ascii.compare c3 c3 = Eq)
      by (unfold Ascii.compare; apply N.compare_refl).
    rewrite H. eauto.
  - apply Ascii.compare_eq_iff in H12. subst. rewrite H23. discriminate.
  - apply Ascii.compare_eq_iff in H23. subst. rewrite H12. discriminate.
  - rewrite (ascii_compare_lt_trans _ _ _ H12 H23). discriminate.
Qed.

Lemma string_leb_trans s1 s2 s3 :
  String.leb s1 s2 = true -> String.leb s2 s3 = true -> String.leb s1 s3 = true.
Proof.
  unfold String.leb. intros H12 H23.
  pose proof (string_compare_not_gt_trans s1 s2 s3) as H.
  destruct (String.compare s1 s2); try discriminate;
    destruct (String.compare s2 s3); try discriminate;
    destruct (String.compare s1 s3); auto;
    exfalso; apply H; congruence.
Qed.

Lemma sql_leb_total a b :
  Datastore.sql_leb a b = true \/ Datastore.sql_leb b a = true.
Proof.
  unfold Datastore.sql_leb.
  destruct (Z.ltb_spec (Datastore.sort_class a) (Datastore.sort_class b)); auto.
  destruct (Z.ltb_spec (Datastore.sort_class b) (Datastore.sort_class a)); auto.
  destruct (Z.ltb_spec (Datastore.sort_number a) (Datastore.sort_number b)); auto.
  destruct (Z.ltb_spec (Datastore.sort_number b) (Datastore.sort_number a)); auto.
  apply String.leb_total.
Qed.

Lemma sql_leb_trans a b c :
  Datastore.sql_leb a b = true -> Datastore.sql_leb b c = true ->
  Datastore.sql_leb a c = true.
Proof.
  unfold Datastore.sql_leb.
  destruct (Z.ltb_spec (Datastore.sort_class a) (Datastore.sort_class b));
  destruct (Z.ltb_spec (Datastore.sort_class b) (Datastore.sort_class a));
  destruct (Z.ltb_spec (Datastore.sort_class b) (Datastore.sort_class c));
  destruct (Z.ltb_spec (Datastore.sort_class c) (Datastore.sort_class b));
  destruct (Z.ltb_spec (Datastore.sort_class a) (Datastore.sort_class c));
  destruct (Z.ltb_spec (Datastore.sort_class c) (Datastore.sort_class a));
  try lia; try discriminate; auto;
  destruct (Z.ltb_spec (Datastore.sort_number a) (Datastore.sort_number b));
  destruct (Z.ltb_spec (Datastore.sort_number b) (Datastore.sort_number a));
  destruct (Z.ltb_spec (Datastore.sort_number b) (Datastore.sort_number c));
  destruct (Z.ltb_spec (Datastore.sort_number c) (Datastore.sort_number b));
  destruct (Z.ltb_spec (Datastore.sort_number a) (Datastore.sort_number c));
  destruct (Z.ltb_spec (Datastore.sort_number c) (Datastore.sort_number a));
  try lia; try discriminate; auto.
  apply string_leb_trans.
Qed.

(** ** [ORDER BY ... DESC] puts a latest row first *)

Lemma all_before_perm col r rows rows' :
  Permutation rows rows' -> all_before col r rows -> all_before col r rows'.
Proof. intros HP. unfold all_before. now rewrite HP. Qed.

Lemma all_before_trans col r r' rows :
  Datastore.sql_leb (get r' col) (get r col) = true ->
  all_before col r' rows -> all_before col r rows.
Proof.
  intros Hle. unfold all_before. apply Forall_impl.
  intros x Hx. now apply (sql_leb_trans _ (get r' col)).
Qed.

Lemma insert_desc_descending col r rows :
  descending col rows -> descending col (Datastore.insert_desc col r rows).
Proof.
  induction rows as [|r' rows IH]; simpl; auto.
  - intros _. split; [constructor | exact I].
  - intros [Hall Hdesc].
    destruct (Datastore.sql_leb (get r' col) (get r col)) eqn:Hle; simpl.
    + split; [|now split].
      constructor; [exact Hle|]. now apply (all_before_trans col r r').
    + split; [|now apply IH].
      apply (all_before_perm col r' (r :: rows)).
      * symmetry. apply insert_desc_perm.
      * constructor; [|exact Hall].
        destruct (sql_leb_total (get r col) (get r' col)); congruence.
Qed.

Lemma order_desc_descending col rows :
  descending col (Datastore.order_desc col rows).
Proof.
  induction rows as [|r rows IH]; simpl; auto.
  now apply insert_desc_descending.
Qed.

Lemma sql_leb_refl a : Datastore.sql_leb a a = true.
Proof. now destruct (sql_leb_total a a). Qed.

(** The first row of the sorted list is a most recent one of the list. *)
Lemma order_desc_first col rows r rest :
  Datastore.order_desc col rows = r :: rest ->
  In r rows /\
  forall r', In r' rows ->
    Datastore.sql_leb (get r' col) (get r col) = true.
Proof.
  intros Hsorted.
  pose proof (order_desc_perm col rows) as HP.
  pose proof (order_desc_descending col rows) as HD.
  rewrite Hsorted in HP, HD. destruct HD as [Hall _]. split.
  - apply (Permutation_in _ HP). now left.
  - intros r' Hin. apply (Permutation_in _ (Permutation_sym HP)) in Hin.
    destruct Hin as [<-|Hin]; [apply sql_leb_refl|].
    unfold all_before in Hall. rewrite Forall_forall in Hall. now apply Hall.
Qed.

(** ** The preview fan-out *)

Lemma matches_single col v r :
  Datastore.matches [(col, v)] r = Datastore.sql_eq (get r col) v.
Proof. unfold Datastore.matches; simpl. apply andb_true_r. Qed.

(** The latest message of a conversation, as the callback asks for it. *)
Lemma latest_message_up conv w :
  datastore_up w ->
  Datastore.first
    (Datastore.orderBy "created_at" "desc"
       (Datastore.where_ "conversation_id" (get conv "id")
          (Datastore.db "chat_messages"))) w =
  (Return match Datastore.order_desc "created_at" (messages_of w conv) with
          | m :: _ => VObj m
          | [] => VUndefined
          end, w).
Proof.
  intros Hup. unfold Datastore.first.
  rewrite datastore_call_read by (try assumption; reflexivity).
  unfold Datastore.selected, messages_of, rows_where; simpl.
  now rewrite (filter_ext _ _ (matches_single "conversation_id" (get conv "id"))).
Qed.

(** With the datastore up and text in every message, the callback answers
    the entry of its conversation and leaves the world as it was. *)
Lemma withPreview_up conv w :
  datastore_up w ->
  forallb has_text (tables w "chat_messages") = true ->
  exists entry,
    DbService.withPreview (VObj conv) w = (Return entry, w) /\
    entry_of w conv entry.
Proof.
  intros Hup Htext.
  unfold DbService.withPreview, bind, member, ret.
  rewrite latest_message_up by exact Hup.
  destruct (Datastore.order_desc "created_at" (messages_of w conv))
    as [|m rest] eqn:Hsorted.
  - simpl. eexists. split; [reflexivity|].
    exists "". split; [|reflexivity]. left. split; [|reflexivity].
    apply Permutation_nil. rewrite <- Hsorted. apply order_desc_perm.
  - apply order_desc_first in Hsorted as [Hin Hmax].
    assert (Hm : has_text m = true).
    { rewrite forallb_forall in Htext. apply Htext.
      unfold messages_of, rows_where in Hin. now apply filter_In in Hin. }
    unfold has_text in Hm. cbn [truthy].
    destruct (get m "content") as [| | | |s| | | | |] eqn:Hcontent;
      try discriminate.
    simpl. eexists. split; [reflexivity|].
    exists (substring0 50 s). split; [|reflexivity].
    right. exists m, s. split; [now split|]. split; [exact Hcontent|].
    split; [apply substring0_first|].
    intros Hascii. rewrite (substring0_ascii _ Hascii).
    split; [reflexivity | apply length_substring0].
Qed.

(** Callbacks that all return and leave the world as it is. *)
Lemma run_all_up {A B} (f : A -> M B) (R : A -> B -> Prop) w xs :
  (forall x, In x xs -> exists b, f x w = (Return b, w) /\ R x b) ->
  exists bs, run_all f xs w = (map Return bs, w) /\ Forall2 R xs bs.
Proof.
  induction xs as [|x xs IH]; intros Hf; cbn [run_all].
  - exists []. split; [reflexivity | constructor].
  - destruct (Hf x (or_introl eq_refl)) as (b & Hx & HR).
    destruct IH as (bs & Hxs & HRs).
    { intros y Hy. apply Hf. now right. }
    exists (b :: bs). rewrite Hx, Hxs. split; [reflexivity | now constructor].
Qed.

Lemma first_settled_resolved {B} time (bs : list B) i :
  first_settled time i (map Return bs) None = None.
Proof. revert i. induction bs as [|b bs IH]; intros i; simpl; auto. Qed.

Lemma resolved_map_Return {B} (bs : list B) : resolved (map Return bs) = bs.
Proof. induction bs as [|b bs IH]; simpl; [reflexivity | now rewrite IH]. Qed.

Lemma Promise_all_map_up {A B} (f : A -> M B) (R : A -> B -> Prop) w xs :
  (forall x, In x xs -> exists b, f x w = (Return b, w) /\ R x b) ->
  exists bs, Promise_all_map f xs w = (Return bs, w) /\ Forall2 R xs bs.
Proof.
  intros Hf. destruct (run_all_up f R w xs Hf) as (bs & Hrun & HR).
  exists bs. unfold Promise_all_map.
  now rewrite Hrun, first_settled_resolved, resolved_map_Return.
Qed.

Lemma conversations_of_user_up userId w :
  datastore_up w ->
  Datastore.select
    (Datastore.orderBy "updated_at" "desc"
       (Datastore.where_ "user_id" (VStr userId) (Datastore.db "conversations"))) w =
  (Return (VArr (map VObj
     (Datastore.order_desc "updated_at"
        (rows_where w "conversations" "user_id" (VStr userId))))), w).
Proof.
  intros Hup. unfold Datastore.select.
  rewrite datastore_call_read by (try assumption; reflexivity).
  unfold Datastore.selected, rows_where; simpl.
  now rewrite (filter_ext _ _ (matches_single "user_id" (VStr userId))).
Qed.

Lemma Forall2_map_l {A B C} (R : B -> C -> Prop) (f : A -> B) xs ys :
  Forall2 R (map f xs) ys -> Forall2 (fun x y => R (f x) y) xs ys.
Proof.
  revert ys. induction xs as [|x xs IH]; intros ys H; inversion H; subst;
    constructor; auto.
Qed.

(* ===================================================================== *)
(** * Basic facts: failures of the datastore are passed on *)
(* ===================================================================== *)


Lemma first_failure_app a b :
  first_failure (a ++ b) =
    match first_failure a with
    | Some e => Some e
    | None => first_failure b
    end.
Proof. induction a as [|[e|] a IH]; simpl; auto. Qed.



Lemma stops_at_first e calls : stops_at e calls -> first_failure calls = Some e.
Proof.
  intros (earlier & -> & Hnone). now rewrite first_failure_app, Hnone.
Qed.
















(** ** Every method body passes failures on *)




Section AssessmentPropagation.

Variable process_env : string -> value.
Variable JSON_stringify : value -> value.
Variable JSON_parse : value -> Completion value.



End AssessmentPropagation.

(** ** The fan-out *)



(** The rejection [first_settled] picks is one that no other precedes. *)
Lemma first_settled_spec {B} time (cs : list (Completion B)) :
  forall i best,
    match first_settled time i cs best with
    | Some (t, e) =>
        (best = Some (t, e) \/
         exists k, nth_error cs k = Some (Throw e) /\ t = time (i + k)%nat) /\
        (forall k e', nth_error cs k = Some (Throw e') ->
                      (t <= time (i + k)%nat)%nat) /\
        (forall t0 e0, best = Some (t0, e0) -> (t <= t0)%nat)
    | None => best = None /\ forall k e', nth_error cs k <> Some (Throw e')
    end.
Proof.
  induction cs as [|c cs IH]; intros i best; cbn [first_settled].
  - destruct best as [[t e]|].
    + repeat split; auto.
      * intros k e'. now destruct k.
      * now intros t0 e0 [= -> _].
    + split; [reflexivity|]. intros k e'. now destruct k.
  - destruct c as [b|e].
    + specialize (IH (S i) best).
      destruct (first_settled time (S i) cs best) as [[t e]|].
      * destruct IH as (Hwho & Hmin & Hbest). repeat split; auto.
        -- destruct Hwho as [->|(k & Hk & ->)]; [now left|].
           right. exists (S k). split; [exact Hk|]. f_equal. lia.
        -- intros [|k] e'; cbn [nth_error]; [discriminate|].
           intros Hk. apply Hmin in Hk.
           now replace (i + S k)%nat with (S i + k)%nat by lia.
      * destruct IH as [-> Hnone]. split; [reflexivity|].
        intros [|k] e'; cbn [nth_error]; [discriminate | apply Hnone].
    + match goal with
      | |- context [first_settled time (S i) cs ?b] =>
          specialize (IH (S i) b); remember b as best' eqn:Hbest'
      end.
      destruct (first_settled time (S i) cs best') as [[t e1]|].
      * destruct IH as (Hwho & Hmin & Hbest).
        assert (Hhere : (t <= time i)%nat /\
                        (forall t0 e0, best = Some (t0, e0) -> (t <= t0)%nat) /\
                        (best' = Some (t, e1) ->
                         best = Some (t, e1) \/ (e1 = e /\ t = time i))).
        { subst best'. destruct best as [[t0 e0]|].
          - destruct (Nat.ltb_spec (time i) t0).
            + specialize (Hbest _ _ eq_refl). repeat split; [lia| |].
              * intros ? ? [= <- _]. lia.
              * intros [= <- <-]. now right.
            + specialize (Hbest _ _ eq_refl). repeat split; [lia| |].
              * now intros ? ? [= <- _].
              * intros [= <- <-]. now left.
          - specialize (Hbest _ _ eq_refl). repeat split; [exact Hbest| |].
            + discriminate.
            + intros [= <- <-]. now right. }
        destruct Hhere as (Hi & Hb & Hfrom). repeat split; auto.
        -- destruct Hwho as [Heq|(k & Hk & ->)].
           ++ destruct (Hfrom Heq) as [->|[-> ->]]; [now left|].
              right. exists 0%nat. split; [reflexivity|]. f_equal. lia.
           ++ right. exists (S k). split; [exact Hk|]. f_equal. lia.
        -- intros [|k] e'; cbn [nth_error].
           ++ intros _. now rewrite Nat.add_0_r.
           ++ intros Hk. apply Hmin in Hk.
              now replace (i + S k)%nat with (S i + k)%nat by lia.
      * destruct IH as [Hnone _]. subst best'.
        destruct best as [[t0 e0]|]; [destruct (time i <? t0)%nat|];
          discriminate.
Qed.

Lemma select_result (q : Datastore.Query) w v w1 :
  Datastore.select q w = (Return v, w1) ->
  v = VArr (map VObj (Datastore.selected q (tables w))) /\ tables w1 = tables w.
Proof.
  unfold Datastore.select, Datastore.datastore_call.
  destruct (hd None (faults w)); cbn; [discriminate|].
  now intros [= <- <-].
Qed.

Lemma first_failure_In calls e : first_failure calls = Some e -> In (Some e) calls.
Proof.
  induction calls as [|[e0|] calls IH]; simpl; [discriminate| |].
  - intros [= ->]. now left.
  - intros H. right. now apply IH.
Qed.





(** ** Promises side by side, in general *)

Lemma Promise_all_map_world {A B} (f : A -> M B) xs w :
  world_of (Promise_all_map f xs w) = snd (run_all f xs w).
Proof.
  unfold Promise_all_map. destruct (run_all f xs w) as [cs w'].
  now destruct (first_settled _ _ _ _) as [[t e]|].
Qed.

(** It resolves only when every callback returned, and then with their
    values; it rejects only with what a callback threw. *)
Lemma Promise_all_map_result {A B} (f : A -> M B) xs w :
  match result_of (Promise_all_map f xs w) with
  | Return bs => fst (run_all f xs w) = map Return bs
  | Throw e => In (Throw e) (fst (run_all f xs w))
  end.
Proof.
  unfold Promise_all_map. destruct (run_all f xs w) as [cs w'].
  pose proof (first_settled_spec (settle_time w) cs 0 None) as Hspec.
  destruct (first_settled (settle_time w) 0 cs None) as [[t e]|];
    cbn [result_of fst].
  - destruct Hspec as ([Hbest|(k & Hk & _)] & _); [discriminate|].
    exact (nth_error_In _ _ Hk).
  - destruct Hspec as [_ Hnone]. clear - Hnone.
    induction cs as [|[b|e] cs IH]; cbn [resolved map]; [reflexivity| |].
    + f_equal. apply IH. intros k e'. exact (Hnone (S k) e').
    + now destruct (Hnone 0%nat e).
Qed.

(** Callbacks that leave the world as it is. *)
Lemma run_all_fixed_world {A B} (f : A -> M B) xs w :
  (forall x, In x xs -> world_of (f x w) = w) ->
  run_all f xs w = (map (fun x => result_of (f x w)) xs, w).
Proof.
  induction xs as [|x xs IH]; intros Hf; cbn [run_all map]; [reflexivity|].
  pose proof (Hf x (or_introl eq_refl)) as Hx.
  destruct (f x w) as [c w1]; cbn [world_of result_of fst snd] in *.
  subst w1. rewrite IH; [reflexivity|].
  intros y Hy. apply Hf. now right.
Qed.

(* ===================================================================== *)
(** * Properties of the Assessment model and of DbService *)
(* ===================================================================== *)

Section Properties.

Variable process_env : string -> value.
Variable JSON_stringify : value -> value.
Variable JSON_parse : value -> Completion value.

Local Abbreviation isTestMode := (Assessment.isTestMode process_env).
Local Abbreviation findById := (Assessment.findById process_env).
Local Abbreviation create := (Assessment.create process_env JSON_stringify).
Local Abbreviation listByUser := (Assessment.listByUser process_env JSON_parse).
Local Abbreviation update := (Assessment.update process_env JSON_stringify).
Local Abbreviation delete := (Assessment.delete process_env).

(** ** Create, then read *)

(** In test mode the round trip holds: [findById] on the id [create]
    returned answers the very object [create] returned, whose
    [assessmentData] is the payload. *)
Lemma create_then_findById_test_mode assessmentData userId w :
  isTestMode = true ->
  exists a w1,
    create assessmentData userId w = (Return (VObj a), w1) /\
    get a "id" = VStr (next_uuid w) /\
    findById (next_uuid w) w1 = (Return (VObj a), w1) /\
    get a "assessmentData" = assessmentData.
Proof.
  intros Hmode. rewrite (create_test_mode _ _ _ _ _ Hmode). cbv zeta.
  eexists _, _. split; [reflexivity|].
  split; [reflexivity|]. split; [|reflexivity].
  apply findById_store_hit; [exact Hmode|].
  cbn [put_store testAssessments]. apply lookup_set_same.
Qed.

(** In production mode, over a table that has no row with the generated
    id yet, [findById] answers the row as the datastore holds it: the
    payload sits serialised in the column [assessment_data], and the
    row has no [assessmentData]. *)
Lemma create_then_findById_production assessmentData userId w :
  isTestMode = false ->
  datastore_up w ->
  rows_where w "assessments" "id" (VStr (next_uuid w)) = [] ->
  exists w1 row,
    create assessmentData userId w =
      (Return (VObj (new_assessment (next_uuid w) userId assessmentData
                                    (VDate (clock w)))), w1) /\
    findById (next_uuid w) w1 = (Return (VObj row), w1) /\
    get row "assessment_data" = JSON_stringify assessmentData /\
    get row "assessmentData" = VUndefined.
Proof.
  intros Hmode Hup Hfresh.
  rewrite (create_production _ _ _ _ _ Hmode Hup).
  eexists _, (new_row (next_uuid w) userId (JSON_stringify assessmentData)
                      (VDate (clock w))).
  split; [reflexivity|]. split; [|split; reflexivity].
  rewrite findById_datastore; [ | now rewrite Hmode | exact Hup ].
  unfold rows_where in *. cbn [put_table tables drawn].
  rewrite with_table_same, filter_app, Hfresh. cbn [app filter].
  now rewrite new_row_has_its_id.
Qed.

(** ** Delete, then read *)

(** C2, as amended.  With the datastore up, once [Assessment.delete id]
    has returned, [Assessment.findById id] answers [null] in production
    mode, and in test mode when no row of the datastore's [assessments]
    table has that id and the store object inherits nothing truthy under
    that name; when it does ([constructor], [toString], [__proto__] and
    the like), [findById] answers what it inherits.  And once
    [DbService.delete table id] has returned, [DbService.findById table
    id] answers [null]. *)
Theorem findById_after_delete (id : string) (table : string) (rid : value)
        (w : World) :
  datastore_up w ->
  (forall r w1,
      delete id w = (Return r, w1) ->
      (isTestMode = true ->
       rows_where w "assessments" "id" (VStr id) = [] /\
       inherits w id = false) ->
      findById id w1 = (Return VNull, w1)) /\
  (forall r w1,
      delete id w = (Return r, w1) ->
      isTestMode = true ->
      inherits w id = true ->
      findById id w1 = (Return (inherited w id), w1)) /\
  (forall r w1,
      DbService.delete table rid w = (Return r, w1) ->
      DbService.findById table rid w1 = (Return VNull, w1)).
Proof.
  intros Hup. split; [|split].
  - intros r w1 Hdel Hclean. destruct isTestMode eqn:Hmode.
    + destruct (Hclean eq_refl) as [Hrows Hinh].
      destruct (lookup (testAssessments w) id) as [stored|] eqn:Hfound.
      * rewrite (delete_test_mode _ _ _ _ Hmode Hfound) in Hdel.
        injection Hdel as _ <-.
        rewrite findById_miss; auto.
        -- unfold rows_where in *. cbn [put_store tables].
           now rewrite Hrows.
        -- cbn [put_store testAssessments]. apply lookup_remove_same.
      * rewrite (delete_test_mode_missing _ _ _ Hmode Hfound Hinh) in Hdel.
        discriminate.
    + rewrite (delete_production _ _ _ Hmode Hup) in Hdel.
      injection Hdel as _ <-.
      rewrite findById_datastore; [ | now rewrite Hmode | exact Hup ].
      unfold rows_where. cbn [put_table tables].
      now rewrite with_table_same, filter_filter_negb.
  - intros r w1 Hdel Hmode Hinh.
    destruct (lookup (testAssessments w) id) as [stored|] eqn:Hfound.
    + rewrite (delete_test_mode _ _ _ _ Hmode Hfound) in Hdel.
      injection Hdel as _ <-.
      apply (findById_inherited process_env id
               (put_store w (remove (testAssessments w) id)) Hmode);
        [|exact Hinh].
      cbn [put_store testAssessments]. apply lookup_remove_same.
    + rewrite (delete_test_mode_inherited _ _ _ Hmode Hfound Hinh) in Hdel.
      injection Hdel as _ <-. now apply findById_inherited.
  - intros r w1. rewrite (DbService_delete_up _ _ _ Hup). intros Hdel.
    injection Hdel as _ <-.
    rewrite DbService_findById_up by exact Hup.
    unfold rows_where. cbn [put_table tables]. rewrite with_table_same.
    replace (filter _ (filter _ _)) with (@nil obj); [reflexivity|].
    symmetry. induction (tables w table) as [|x l IH]; simpl; auto.
    destruct (Datastore.matches (conditions rid) x) eqn:E; simpl; auto.
    now rewrite (kept_row_has_other_id _ _ E).
Qed.

(** ** Not found *)


(** ** What create returns *)

(** C10.  The record [create] returns has [createdAt] equal to
    [updatedAt] (both the time the call read), and its [id] is the
    identifier the call drew from the generator, whatever [assessmentData]
    and [userId] the caller gave: another call from the same world with
    other arguments returns the same [id].  Nothing here depends on the
    mode. *)
Theorem create_timestamps_and_id (assessmentData : value) (userId : string)
        (w : World) (r : value) :
  result_of (create assessmentData userId w) = Return r ->
  exists a,
    r = VObj a /\
    get a "createdAt" = get a "updatedAt" /\
    get a "createdAt" = VDate (clock w) /\
    get a "id" = VStr (next_uuid w) /\
    uuid_drawn (world_of (create assessmentData userId w)) = S (uuid_drawn w) /\
    forall assessmentData' userId' r',
      result_of (create assessmentData' userId' w) = Return r' ->
      exists a', r' = VObj a' /\ get a' "id" = get a "id".
Proof.
  assert (Hshape : forall d u x,
             result_of (create d u w) = Return x ->
             x = VObj (new_assessment (next_uuid w) u d (VDate (clock w))) /\
             uuid_drawn (world_of (create d u w)) = S (uuid_drawn w)).
  { intros d u x. destruct isTestMode eqn:Hmode.
    - rewrite (create_test_mode _ _ _ _ _ Hmode). cbv zeta.
      cbn [result_of world_of fst snd]. intros [= <-]. now split.
    - unfold Assessment.create, try_catch, bind, uuidv4, new_Date.
      rewrite Hmode.
      unfold Datastore.query, Datastore.datastore_call. cbn.
      destruct (hd None (faults w)); cbn; [discriminate|].
      now intros [= <-]. }
  intros Hr. apply Hshape in Hr as [-> Hdrawn].
  eexists. split; [reflexivity|]. repeat split; [exact Hdrawn|].
  intros d' u' r' Hr'. apply Hshape in Hr' as [-> _].
  eexists. split; reflexivity.
Qed.

(** ** Update *)

(** C4.  [update] on an existing assessment changes the payload and the
    update time of the stored record and nothing else.  In test mode the
    object stored under the id afterwards has the new [assessmentData],
    [updatedAt] set to the time the call read, and every other property
    ([id], [userId], [createdAt] among them) as before; the other
    assessments of the store are as before.  In production mode, with the
    datastore up, every row with that id has the serialised payload in
    [assessment_data] and the time of the call in [updated_at], its
    other columns ([id], [user_id], [created_at] among them) as before,
    and every other row and table is as before. *)
Theorem update_changes_payload_and_time (id : string) (assessmentData : value)
        (w : World) :
  let w' := world_of (update id assessmentData w) in
  (isTestMode = true ->
   forall stored, lookup (testAssessments w) id = Some stored ->
   exists updated,
     lookup (testAssessments w') id = Some updated /\
     result_of (update id assessmentData w) = Return (VObj updated) /\
     get updated "assessmentData" = assessmentData /\
     get updated "updatedAt" = VDate (clock w) /\
     get updated "id" = get stored "id" /\
     get updated "userId" = get stored "userId" /\
     get updated "createdAt" = get stored "createdAt" /\
     (forall k, k <> "assessmentData" -> k <> "updatedAt" ->
                get updated k = get stored k) /\
     (forall id', id' <> id ->
                  lookup (testAssessments w') id' = lookup (testAssessments w) id')) /\
  (isTestMode = false ->
   datastore_up w ->
   Forall2
     (fun row row' =>
        (forall k, k <> "assessment_data" -> k <> "updated_at" ->
                   get row' k = get row k) /\
        if Datastore.sql_eq (get row "id") (VStr id)
        then get row' "assessment_data" = JSON_stringify assessmentData /\
             get row' "updated_at" = VDate (clock w)
        else row' = row)
     (tables w "assessments") (tables w' "assessments") /\
   (forall table, table <> "assessments" -> tables w' table = tables w table) /\
   testAssessments w' = testAssessments w).
Proof.
  cbv zeta. split.
  - intros Hmode stored Hfound.
    rewrite (update_test_mode _ _ _ _ _ _ Hmode Hfound). cbv zeta.
    cbn [world_of result_of fst snd put_store testAssessments].
    eexists. split; [apply lookup_set_same|].
    split; [reflexivity|].
    assert (Hframe : forall k, k <> "assessmentData" -> k <> "updatedAt" ->
              get (assign stored [("assessmentData", assessmentData);
                                  ("updatedAt", VDate (clock w))]) k
              = get stored k).
    { intros k H1 H2. unfold assign; simpl. now rewrite !get_set_other. }
    repeat split.
    + unfold assign; simpl.
      rewrite get_set_other by discriminate. apply get_set_same.
    + unfold assign; simpl. apply get_set_same.
    + apply Hframe; discriminate.
    + apply Hframe; discriminate.
    + apply Hframe; discriminate.
    + exact Hframe.
    + intros id' Hne. now apply lookup_set_other.
  - intros Hmode Hup.
    rewrite (update_production _ _ _ _ _ Hmode Hup). cbv zeta.
    cbn [world_of snd put_table tables testAssessments].
    rewrite with_table_same. repeat split.
    + apply Forall2_map_same. intros row _. split.
      * intros k H1 H2. now apply updated_row_frame.
      * unfold updated_row.
        destruct (Datastore.sql_eq (get row "id") (VStr id)); [|reflexivity].
        unfold assign; simpl. split.
        -- rewrite get_set_other by discriminate. apply get_set_same.
        -- apply get_set_same.
    + intros table Hne. now apply with_table_other.
Qed.

(** ** List by user *)

(** C5.  Every record of the list [listByUser userId] returns belongs to
    [userId]: in test mode its [userId] is the one asked for, in
    production mode its [user_id] column is. *)
Theorem listByUser_only_own (userId : string) (w : World) (v : value) :
  result_of (listByUser userId w) = Return v ->
  exists records,
    v = VArr records /\
    Forall (fun record =>
              exists a, record = VObj a /\
                get a (if isTestMode then "userId" else "user_id")
                = VStr userId)
           records.
Proof.
  unfold Assessment.listByUser, try_catch, bind, read_store.
  destruct isTestMode.
  - cbn. intros [= <-]. eexists. split; [reflexivity|].
    apply Forall_forall. intros record Hin.
    apply in_map_iff in Hin as (a & <- & Hin).
    apply filter_In in Hin as [_ Hown].
    exists a. split; [reflexivity|]. now apply strict_equals_text.
  - destruct (Datastore.query _ _ w) as [[rows|e] w1] eqn:Hq; [|discriminate].
    apply select_by_user_result in Hq. subst rows.
    unfold array_map, bind.
    destruct (map_seq _ _ w1) as [[records|e] w2] eqn:Hmap; [|discriminate].
    cbn. intros [= <-]. eexists. split; [reflexivity|].
    apply map_seq_return in Hmap.
    remember (map VObj _) as items eqn:Hitems.
    assert (Hall : Forall (fun x => exists row, x = VObj row /\
                              get row "user_id" = VStr userId) items).
    { subst items. apply Forall_forall. intros x Hin.
      apply in_map_iff in Hin as (row & <- & Hin).
      exists row. split; [reflexivity|].
      apply (Permutation_in _ (order_desc_perm _ _)) in Hin.
      apply filter_In in Hin as [_ Hown]. now apply sql_eq_text. }
    clear Hitems. induction Hmap as [|x record xs rs Hx _ IH]; constructor.
    + inversion Hall as [|? ? (row & -> & Hown) _]; subst.
      destruct Hx as (wa & wb & Hx). unfold member, bind, ret in Hx.
      destruct (JSON_parse (get row "assessment_data")) as [parsed|e];
        [|discriminate].
      injection Hx as <- _. eexists. split; [reflexivity|].
      unfold assign; simpl. rewrite get_set_other by discriminate.
      exact Hown.
    + apply IH. now inversion Hall.
Qed.

(** ** Failures of the datastore *)


End Properties.

(** ** Conversation previews *)

(** C6.  With the datastore up and text in every chat message,
    [getConversationsWithPreviews userId] returns one entry for each
    conversation of the user and no other: the entries stand, one for one
    and in the order of the query (latest update first), for the rows of
    [conversations] whose [user_id] is [userId].  The entry of a
    conversation carries its [id], its [updated_at] (as [lastMessageDate])
    and as [preview] the first 50 characters of the content of a most
    recent message of the conversation, or the empty string when it has no
    message.  Characters are counted as JavaScript counts them, in UTF-16
    code units: the preview keeps the characters of the content that make
    up its first 50 code units (all of them when it has fewer), with the
    high surrogate of a pair the cut falls in; for ASCII content it is
    the first 50 bytes, [String.substring 0 50], of length the smaller of
    50 and the length of the content. *)
Theorem getConversationsWithPreviews_entries (userId : string) (w : World) :
  datastore_up w ->
  forallb has_text (tables w "chat_messages") = true ->
  exists conversations entries,
    result_of (DbService.getConversationsWithPreviews userId w)
      = Return (VArr entries) /\
    conversations = Datastore.order_desc "updated_at"
                      (rows_where w "conversations" "user_id" (VStr userId)) /\
    Permutation conversations
                (rows_where w "conversations" "user_id" (VStr userId)) /\
    Forall2 (entry_of w) conversations entries.
Proof.
  intros Hup Htext.
  unfold DbService.getConversationsWithPreviews, try_catch, bind.
  rewrite conversations_of_user_up by exact Hup.
  cbn [or_else truthy DbService.array_items].
  destruct (Promise_all_map_up DbService.withPreview
              (fun x entry => exists conv, x = VObj conv /\ entry_of w conv entry)
              w (map VObj (Datastore.order_desc "updated_at"
                   (rows_where w "conversations" "user_id" (VStr userId)))))
    as (entries & Hrun & Hentries).
  { intros x Hin. apply in_map_iff in Hin as (conv & <- & _).
    destruct (withPreview_up conv w Hup Htext) as (entry & Hentry & Hof).
    exists entry. split; [exact Hentry|]. now exists conv. }
  rewrite Hrun. eexists _, entries. split; [reflexivity|].
  split; [reflexivity|]. split; [apply order_desc_perm|].
  apply Forall2_map_l in Hentries.
  eapply Forall2_impl; [|exact Hentries].
  intros conv entry (conv' & [= <-] & Hof). exact Hof.
Qed.

(** ** Deleting by conditions *)

(** C9.  With the datastore up, [DbService.delete table option] removes
    from [table] exactly the rows that match [conditions option] and
    leaves the other tables alone; a row matches when every listed pair
    holds for it; the conditions are the entries of [option] when it is a
    non-null object and the [id] otherwise; and the call returns [true]
    exactly when it removed a row. *)
Theorem DbService_delete_by_conditions (table : string) (option : value)
        (w : World) :
  datastore_up w ->
  let w' := world_of (DbService.delete table option w) in
  let deleted := filter (Datastore.matches (conditions option)) (tables w table) in
  tables w' table =
    filter (fun r => negb (Datastore.matches (conditions option) r))
           (tables w table) /\
  (forall other, other <> table -> tables w' other = tables w other) /\
  (forall r, Datastore.matches (conditions option) r = true <->
             forall k v, In (k, v) (conditions option) ->
                         Datastore.sql_eq (get r k) v = true) /\
  (typeof option = "object" -> option <> VNull ->
   conditions option = Object_entries option) /\
  (typeof option <> "object" \/ option = VNull ->
   conditions option = [("id", option)]) /\
  exists b, result_of (DbService.delete table option w) = Return (VBool b) /\
            (b = true <-> deleted <> []).
Proof.
  intros Hup. cbv zeta. rewrite (DbService_delete_up _ _ _ Hup).
  cbn [world_of result_of fst snd put_table tables].
  split; [apply with_table_same|].
  split; [intros other Hne; now apply with_table_other|].
  split.
  { intros r. unfold Datastore.matches. rewrite forallb_forall. split.
    - intros H k v Hin. exact (H (k, v) Hin).
    - intros H [k v] Hin. now apply H. }
  split.
  { intros Hobj Hnn. unfold conditions. rewrite Hobj.
    now destruct option. }
  split.
  { intros [Hobj| ->]; [|reflexivity]. unfold conditions.
    destruct (String.eqb_spec (typeof option) "object"); [contradiction|reflexivity]. }
  eexists. split; [reflexivity|].
  destruct (filter _ _) as [|r rest]; cbn.
  - split; [discriminate | intros H; now contradiction H].
  - split; [discriminate | reflexivity].
Qed.

(** ** The legacy objects of the frontend modules *)

(** C8.  Every field of [assessmentApi] is the function the module also
    exports on its own ([list] is [getList], [getById] is [getById],
    [sendAssessment] is [postSend], exported as [sendAssessment],
    [update] is [putUpdate], exported as [update], [delete] is
    [deleteAssessment]); every field of [chatApi] is the export of the
    same name; and each module exports its object both by name and as
    [default]. *)
Theorem legacy_objects_are_the_exports (function : Type)
        (getList getById postSend putUpdate deleteAssessment : function)
        (sendMessage getHistory getConversation deleteConversation : function)
        (assessment_types chat_types : list (string * Frontend.exported function)) :
  let api := Frontend.assessmentApi function getList getById postSend
               putUpdate deleteAssessment in
  let exports := Frontend.assessment_exports function getList getById postSend
                   putUpdate deleteAssessment assessment_types in
  let chat := Frontend.chatApi function sendMessage getHistory getConversation
                deleteConversation in
  let chat_exports := Frontend.chat_exports function sendMessage getHistory
                        getConversation deleteConversation chat_types in
  Forall (fun names =>
            exists f, lookup api (fst names) = Some f /\
                      lookup exports (snd names) = Some (Frontend.Function f))
         [("list", "getList"); ("getById", "getById");
          ("sendAssessment", "sendAssessment"); ("update", "update");
          ("delete", "deleteAssessment")] /\
  lookup api "list" = Some getList /\
  lookup api "getById" = Some getById /\
  lookup api "sendAssessment" = Some postSend /\
  lookup api "update" = Some putUpdate /\
  lookup api "delete" = Some deleteAssessment /\
  List.length api = 5%nat /\
  lookup exports "assessmentApi" = Some (Frontend.ApiObject api) /\
  lookup exports "default" = Some (Frontend.ApiObject api) /\
  Forall (fun name =>
            exists f, lookup chat name = Some f /\
                      lookup chat_exports name = Some (Frontend.Function f))
         ["sendMessage"; "getHistory"; "getConversation"; "deleteConversation"] /\
  lookup chat "sendMessage" = Some sendMessage /\
  lookup chat "getHistory" = Some getHistory /\
  lookup chat "getConversation" = Some getConversation /\
  lookup chat "deleteConversation" = Some deleteConversation /\
  List.length chat = 4%nat /\
  lookup chat_exports "chatApi" = Some (Frontend.ApiObject chat) /\
  lookup chat_exports "default" = Some (Frontend.ApiObject chat).
Proof.
  cbv zeta. repeat split; try reflexivity;
    repeat constructor; eexists; split; reflexivity.
Qed.

(* ===================================================================== *)
(** * The properties on sample worlds *)
(* ===================================================================== *)

(** C1.  In production mode the round trip loses the payload: on an empty
    datastore, [create] returns the assessment with its [assessmentData],
    but [findById] on the returned id answers the row of the table, where
    the payload is the text of the column [assessment_data] and there is
    no [assessmentData].  ([listByUser] parses that column back into
    [assessmentData]; [findById] does not.) *)
Theorem create_then_findById_production_row :
  let id := next_uuid Sample.empty_world in
  let created :=
    Assessment.create Sample.production_env Sample.JSON_stringify
                      Sample.answers Sample.ada Sample.empty_world in
  let found :=
    Assessment.findById Sample.production_env id (world_of created) in
  let row :=
    new_row id Sample.ada (Sample.JSON_stringify Sample.answers)
            (VDate Sample.start) in
  result_of created =
    Return (VObj (new_assessment id Sample.ada Sample.answers
                                 (VDate Sample.start))) /\
  result_of found = Return (VObj row) /\
  get row "assessment_data" = Sample.JSON_stringify Sample.answers /\
  get row "assessmentData" = VUndefined /\
  get row "assessmentData" <> Sample.answers.
Proof.
  cbv zeta. repeat split; try reflexivity. vm_compute. discriminate.
Qed.

(** The same call in test mode answers the object [create] returned. *)
Example create_then_findById_test_run :
  let id := next_uuid Sample.empty_world in
  let created :=
    Assessment.create Sample.test_env Sample.JSON_stringify
                      Sample.answers Sample.ada Sample.empty_world in
  result_of (Assessment.findById Sample.test_env id (world_of created))
  = result_of created.
Proof. reflexivity. Qed.

(** C2, as stated, fails in test mode: with a row of the same id in the
    datastore, [delete] succeeds and [findById] then answers that row,
    because a miss in the in-memory store falls through to the
    datastore. *)
Lemma findById_after_delete_falls_through :
  let id := Sample.uuids 0 in
  let deleted := Assessment.delete Sample.test_env id Sample.shadowed_world in
  datastore_up Sample.shadowed_world /\
  result_of deleted = Return (VBool true) /\
  result_of (Assessment.findById Sample.test_env id (world_of deleted))
  = Return (VObj Sample.row_ada) /\
  result_of (Assessment.findById Sample.test_env id (world_of deleted))
  <> Return VNull.
Proof.
  cbv zeta. split; [reflexivity|]. split; [reflexivity|].
  split; [reflexivity|]. vm_compute. discriminate.
Qed.

Lemma findById_after_delete_witness :
  let id := Sample.uuids 0 in
  let w := Sample.test_world in
  let w1 := world_of (Assessment.delete Sample.test_env id w) in
  let w2 := world_of (DbService.delete "conversations" (VStr "conv-2") w) in
  Assessment.findById Sample.test_env id w1 = (Return VNull, w1) /\
  DbService.findById "conversations" (VStr "conv-2") w2 = (Return VNull, w2).
Proof.
  cbv zeta.
  destruct (findById_after_delete Sample.test_env (Sample.uuids 0)
              "conversations" (VStr "conv-2") Sample.test_world eq_refl)
    as [Hmodel [_ Hservice]].
  split.
  - apply (Hmodel (VBool true)); [reflexivity|].
    intros _. split; reflexivity.
  - apply (Hservice (VBool true)); reflexivity.
Defined.

(** Under a name the store object inherits, the read after the delete
    answers what is inherited. *)
Example findById_after_delete_of_inherited_name :
  let w := Sample.test_world in
  let deleted := Assessment.delete Sample.test_env "toString" w in
  result_of deleted = Return (VBool true) /\
  result_of (Assessment.findById Sample.test_env "toString" (world_of deleted))
  = Return (VFunction "toString").
Proof. split; reflexivity. Qed.



Lemma update_changes_payload_and_time_witness :
  let id := Sample.uuids 0 in
  (exists updated,
      lookup (testAssessments
                (world_of (Assessment.update Sample.test_env
                             Sample.JSON_stringify id Sample.answers'
                             Sample.test_world))) id = Some updated /\
      get updated "assessmentData" = Sample.answers' /\
      get updated "updatedAt" = VDate Sample.start /\
      get updated "userId" = VStr Sample.ada /\
      get updated "createdAt" = VDate (Sample.start - 60000)) /\
  tables (world_of (Assessment.update Sample.production_env
                      Sample.JSON_stringify id Sample.answers'
                      Sample.production_world)) "conversations"
  = Sample.conversations.
Proof.
  cbv zeta. split.
  - destruct (update_changes_payload_and_time Sample.test_env
                Sample.JSON_stringify (Sample.uuids 0) Sample.answers'
                Sample.test_world) as [Htest _].
    destruct (Htest eq_refl Sample.stored eq_refl)
      as (updated & Hstored & _ & Hdata & Htime & _ & Huser & Hcreated & _).
    exists updated. repeat split; assumption.
  - destruct (update_changes_payload_and_time Sample.production_env
                Sample.JSON_stringify (Sample.uuids 0) Sample.answers'
                Sample.production_world) as [_ Hproduction].
    destruct (Hproduction eq_refl eq_refl) as (_ & Hothers & _).
    rewrite Hothers; [reflexivity | discriminate].
Defined.

Lemma listByUser_only_own_witness :
  (exists records,
      result_of (Assessment.listByUser Sample.test_env Sample.JSON_parse
                   Sample.ada Sample.test_world) = Return (VArr records) /\
      Forall (fun record => exists a, record = VObj a /\
                                      get a "userId" = VStr Sample.ada)
             records) /\
  (exists records,
      result_of (Assessment.listByUser Sample.production_env Sample.JSON_parse
                   Sample.ada Sample.production_world) = Return (VArr records) /\
      Forall (fun record => exists a, record = VObj a /\
                                      get a "user_id" = VStr Sample.ada)
             records).
Proof.
  split.
  - destruct (listByUser_only_own Sample.test_env Sample.JSON_parse
                Sample.ada Sample.test_world _ eq_refl)
      as (records & Hresult & Hown).
    exists records. split; [now rewrite <- Hresult | exact Hown].
  - destruct (listByUser_only_own Sample.production_env Sample.JSON_parse
                Sample.ada Sample.production_world _ eq_refl)
      as (records & Hresult & Hown).
    exists records. split; [now rewrite <- Hresult | exact Hown].
Defined.

Lemma create_timestamps_and_id_witness :
  exists a,
    result_of (Assessment.create Sample.production_env Sample.JSON_stringify
                 Sample.answers Sample.ada Sample.production_world)
    = Return (VObj a) /\
    get a "createdAt" = get a "updatedAt" /\
    get a "id" = VStr (Sample.uuids 2).
Proof.
  destruct (create_timestamps_and_id Sample.production_env
              Sample.JSON_stringify Sample.answers Sample.ada
              Sample.production_world _ eq_refl)
    as (a & Hshape & Htimes & _ & Hid & _ & _).
  exists a. split; [now rewrite <- Hshape|]. split; assumption.
Defined.

Lemma getConversationsWithPreviews_entries_witness :
  exists entries,
    result_of (DbService.getConversationsWithPreviews Sample.ada
                 Sample.production_world) = Return (VArr entries) /\
    List.length entries = 2%nat.
Proof.
  destruct (getConversationsWithPreviews_entries Sample.ada
              Sample.production_world eq_refl eq_refl)
    as (conversations & entries & Hresult & Hsorted & _ & Hentries).
  exists entries. split; [exact Hresult|].
  rewrite <- (Forall2_length Hentries), Hsorted. reflexivity.
Defined.

(** The previews of Ada: the conversation updated last comes first and has
    no message; the other shows the first 50 characters of its latest
    message. *)
Example getConversationsWithPreviews_run :
  result_of (DbService.getConversationsWithPreviews Sample.ada
               Sample.production_world)
  = Return (VArr
      [VObj [("id", VStr "conv-2");
             ("lastMessageDate", VDate (Sample.start - 2000));
             ("preview", VStr "")];
       VObj [("id", VStr "conv-1");
             ("lastMessageDate", VDate (Sample.start - 5000));
             ("preview",
              VStr "A cycle between 21 and 35 days is considered withi")]]).
Proof. reflexivity. Qed.

(** A cut counts UTF-16 code units: of a letter followed by a character
    outside the basic plane (four bytes, a surrogate pair), the first two
    code units are the letter and the high surrogate of the pair. *)
Example substring0_cuts_inside_a_pair :
  let face := String (ascii_of_N 240) (String (ascii_of_N 159)
                (String (ascii_of_N 152) (String (ascii_of_N 128) ""))) in
  utf16_length ("a" ++ face) = 3%nat /\
  substring0 2 ("a" ++ face) = "a" ++ surrogate_text 55357 /\
  substring0 3 ("a" ++ face) = "a" ++ face /\
  utf16_length (substring0 2 ("a" ++ face)) = 2%nat.
Proof. repeat split; reflexivity. Qed.

Lemma DbService_delete_by_conditions_witness :
  let option := VObj [("user_id", VStr Sample.ada); ("title", VStr "Cramps")] in
  tables (world_of (DbService.delete "conversations" option
                      Sample.production_world)) "conversations"
  = [Sample.conversation "conv-1" Sample.ada "Cycle length" (Sample.start - 5000);
     Sample.conversation "conv-3" Sample.grace "Tracking" (Sample.start - 4000)]
  /\
  result_of (DbService.delete "conversations" option Sample.production_world)
  = Return (VBool true).
Proof.
  cbv zeta.
  destruct (DbService_delete_by_conditions "conversations"
              (VObj [("user_id", VStr Sample.ada); ("title", VStr "Cramps")])
              Sample.production_world eq_refl)
    as (Hrows & _ & _ & _ & _ & b & Hresult & Hb).
  split.
  - rewrite Hrows. reflexivity.
  - rewrite Hresult. f_equal. f_equal. apply Hb. discriminate.
Defined.


(** The same operation over three conversations, the message queries of
    the first and of the third failing and the later one settling first:
    the operation rejects with the error of the third query and logs that
    one alone. *)
Example later_failure_overtakes :
  let outcome :=
    DbService.getConversationsWithPreviews Sample.ada Scenario.overtaken_world in
  consumed Scenario.overtaken_world (world_of outcome)
  = [None; Some Sample.connection_reset; None; Some Sample.statement_timeout] /\
  result_of outcome = Throw Sample.statement_timeout /\
  logged Scenario.overtaken_world (world_of outcome)
  = [("Error in getConversationsWithPreviews:", Sample.statement_timeout)].
Proof. repeat split; reflexivity. Qed.



(* ===================================================================== *)
(** * Further properties: what the console shows *)
(* ===================================================================== *)

Lemma quiet_ret {A} (a : A) : quiet (ret a).
Proof. intros w. exists []. simpl. now rewrite app_nil_r. Qed.

Lemma quiet_throw {A} (e : value) : quiet (@throw A e).
Proof. intros w. exists []. simpl. now rewrite app_nil_r. Qed.

Lemma quiet_bind {A B} (m : M A) (k : A -> M B) :
  quiet m -> (forall a, quiet (k a)) -> quiet (bind m k).
Proof.
  intros Hm Hk w. unfold bind.
  destruct (Hm w) as (l1 & Hc1 & Hr1).
  destruct (m w) as [[a|e] w1]; cbn [world_of result_of fst snd] in *.
  - destruct (Hk a w1) as (l2 & Hc2 & Hr2).
    rewrite (Hr1 a eq_refl), app_nil_r in Hc1.
    exists l2. rewrite Hc2, Hc1. split; [reflexivity | exact Hr2].
  - exists l1. split; [exact Hc1 | discriminate].
Qed.

(** Nothing in the console changes when the world changes elsewhere. *)
Lemma quiet_silent {A} (m : M A) :
  (forall w, console (world_of (m w)) = console w) -> quiet m.
Proof.
  intros H w. exists []. rewrite H, app_nil_r. now split.
Qed.

Lemma quiet_datastore_call {A}
      (run : Datastore.Tables -> Completion A * Datastore.Tables) :
  quiet (Datastore.datastore_call run).
Proof.
  apply quiet_silent. intros w. unfold Datastore.datastore_call.
  destruct (hd None (faults w)); [reflexivity|].
  now destruct (run (tables w)).
Qed.

Lemma quiet_member v k : quiet (member v k).
Proof. apply quiet_silent. intros w. now destruct v. Qed.

Lemma quiet_assign_at id a : quiet (assign_at id a).
Proof.
  apply quiet_silent. intros w. unfold assign_at. now destruct (_ && _).
Qed.

Lemma quiet_map_seq {A B} (f : A -> M B) xs :
  (forall x, quiet (f x)) -> quiet (map_seq f xs).
Proof.
  intros Hf. induction xs as [|x xs IH]; simpl.
  - apply quiet_ret.
  - apply quiet_bind; [apply Hf|]. intros b.
    apply quiet_bind; [exact IH|]. intros bs. apply quiet_ret.
Qed.

Lemma quiet_run_all {A B} (f : A -> M B) xs :
  (forall x, quiet (f x)) ->
  forall w, exists lines,
    console (snd (run_all f xs w)) = (console w ++ lines)%list /\
    forall bs, fst (run_all f xs w) = map Return bs -> lines = [].
Proof.
  intros Hf. induction xs as [|x xs IH]; intros w; cbn [run_all].
  - exists []. now rewrite app_nil_r.
  - destruct (Hf x w) as (l1 & Hc1 & Hr1).
    destruct (f x w) as [c w1]; cbn [world_of result_of fst snd] in *.
    destruct (IH w1) as (l2 & Hc2 & Hr2).
    destruct (run_all f xs w1) as [cs w2]; cbn [fst snd] in *.
    exists (l1 ++ l2)%list. rewrite Hc2, Hc1, app_assoc.
    split; [reflexivity|].
    intros [|b bs]; cbn [map]; [discriminate|]. intros [= -> ->].
    now rewrite (Hr1 b eq_refl), (Hr2 bs eq_refl).
Qed.

Lemma quiet_Promise_all_map {A B} (f : A -> M B) xs :
  (forall x, quiet (f x)) -> quiet (Promise_all_map f xs).
Proof.
  intros Hf w. destruct (quiet_run_all f xs Hf w) as (lines & Hc & Hr).
  exists lines. rewrite Promise_all_map_world. split; [exact Hc|].
  intros bs Hbs. pose proof (Promise_all_map_result f xs w) as Hres.
  rewrite Hbs in Hres. exact (Hr bs Hres).
Qed.

(** A method logs nothing when it returns; when it throws, the last line
    it logged is its own, with the error it throws. *)
Lemma try_catch_console {A} (body : M A) label w :
  quiet body ->
  match result_of (try_catch body
          (fun error => console_error label error ;;; throw error) w) with
  | Return _ =>
      console (world_of (try_catch body
          (fun error => console_error label error ;;; throw error) w))
      = console w
  | Throw e =>
      exists lines,
        console (world_of (try_catch body
            (fun error => console_error label error ;;; throw error) w))
        = (console w ++ lines ++ [(label, e)])%list
  end.
Proof.
  intros Hbody. unfold try_catch.
  destruct (Hbody w) as (l & Hc & Hr).
  destruct (body w) as [[a|e] w1]; cbn [world_of result_of fst snd] in *.
  - rewrite Hc, (Hr a eq_refl). apply app_nil_r.
  - exists l. cbn. now rewrite Hc, app_assoc.
Qed.

Lemma quiet_try_catch {A} (body : M A) label :
  quiet body ->
  quiet (try_catch body
           (fun error => console_error label error ;;; throw error)).
Proof.
  intros Hbody w. pose proof (try_catch_console body label w Hbody) as H.
  destruct (result_of _) eqn:Hr.
  - exists []. rewrite H, app_nil_r. now split.
  - destruct H as (l & H). exists (l ++ [(label, reason)])%list.
    split; [exact H | discriminate].
Qed.

Ltac quiet_step :=
  lazymatch goal with
  | |- quiet (ret _) => apply quiet_ret
  | |- quiet (throw _) => apply quiet_throw
  | |- quiet (bind _ _) => apply quiet_bind; [|intros ?]
  | |- quiet (try_catch _ _) => apply quiet_try_catch
  | |- quiet (Datastore.datastore_call _) => apply quiet_datastore_call
  | |- quiet (member _ _) => apply quiet_member
  | |- quiet (assign_at _ _) => apply quiet_assign_at
  | |- quiet (map_seq _ _) => apply quiet_map_seq; intros ?
  | |- quiet (Promise_all_map _ _) => apply quiet_Promise_all_map; intros ?
  | |- quiet (if ?c then _ else _) => destruct c
  | |- quiet (match ?x with _ => _ end) => destruct x
  | |- quiet _ => apply quiet_silent; intros ?; reflexivity
  end.

Ltac quietly :=
  repeat first
    [ progress unfold Datastore.query, Datastore.select, Datastore.first,
        Datastore.insert, Datastore.update, Datastore.delete, array_map,
        call_substring0, DbService.withPreview, DbService.findById,
        Assessment.findById
    | quiet_step ].

Section Console.

Variable process_env : string -> value.
Variable JSON_stringify : value -> value.
Variable JSON_parse : value -> Completion value.

(** X1.  Whatever the mode, the tables and the fault schedule: an
    operation of DbService or of the Assessment model that returns has
    logged nothing, and one that throws has logged, as its last line, its
    own context (operation and table or entity) with the very error it
    throws. *)
Theorem console_after (op : operation) (w : World) :
  let outcome := run process_env JSON_stringify JSON_parse op w in
  match result_of outcome with
  | Return _ => console (world_of outcome) = console w
  | Throw e =>
      exists lines,
        console (world_of outcome)
        = (console w ++ lines ++ [(label_of op, e)])%list
  end.
Proof.
  cbv zeta.
  destruct op; cbn [run label_of];
    apply try_catch_console; quietly.
Qed.

End Console.

(* ===================================================================== *)
(** * Further properties: what an operation leaves alone *)
(* ===================================================================== *)

Lemma preserves_bind {X A B} (component : World -> X) (m : M A) (k : A -> M B) :
  preserves component m -> (forall a, preserves component (k a)) ->
  preserves component (bind m k).
Proof.
  intros Hm Hk w. unfold bind. specialize (Hm w).
  destruct (m w) as [[a|e] w1]; cbn [world_of snd] in *; [|exact Hm].
  now rewrite Hk.
Qed.

Lemma preserves_try_catch {X A} (component : World -> X)
      (body : M A) (handler : value -> M A) :
  preserves component body -> (forall e, preserves component (handler e)) ->
  preserves component (try_catch body handler).
Proof.
  intros Hbody Hhandler w. unfold try_catch. specialize (Hbody w).
  destruct (body w) as [[a|e] w1]; cbn [world_of snd] in *; [exact Hbody|].
  now rewrite Hhandler.
Qed.

Lemma preserves_map_seq {X A B} (component : World -> X) (f : A -> M B) xs :
  (forall x, preserves component (f x)) -> preserves component (map_seq f xs).
Proof.
  intros Hf. induction xs as [|x xs IH]; simpl.
  - intros w. reflexivity.
  - apply preserves_bind; [apply Hf|]. intros b.
    apply preserves_bind; [exact IH|]. intros bs w. reflexivity.
Qed.

Lemma preserves_Promise_all_map {X A B} (component : World -> X)
      (f : A -> M B) xs :
  (forall x, preserves component (f x)) ->
  preserves component (Promise_all_map f xs).
Proof.
  intros Hf w. rewrite Promise_all_map_world. revert w.
  induction xs as [|x xs IH]; intros w; cbn [run_all]; [reflexivity|].
  pose proof (Hf x w) as Hx.
  destruct (f x w) as [c w1]; cbn [world_of snd] in *.
  pose proof (IH w1) as Hxs.
  destruct (run_all f xs w1) as [cs w2]; cbn [snd] in *. congruence.
Qed.

(** A datastore call changes the tables and the schedule only. *)
Lemma preserves_datastore_call {X A} (component : World -> X)
      (run : Datastore.Tables -> Completion A * Datastore.Tables) :
  (forall w t f,
      component (mkWorld (testAssessments w) t f (console w)
                         (uuid_source w) (uuid_drawn w) (clock w) (prototype w) (settle_time w))
      = component w) ->
  preserves component (Datastore.datastore_call run).
Proof.
  intros H w. unfold Datastore.datastore_call.
  destruct (hd None (faults w)); [apply H|].
  destruct (run (tables w)). apply H.
Qed.

(** An assignment to the store changes the store and what it inherits
    from only. *)
Lemma preserves_assign_at {X} (component : World -> X) id a :
  (forall w store proto,
      component (mkWorld store (tables w) (faults w) (console w)
                         (uuid_source w) (uuid_drawn w) (clock w)
                         proto (settle_time w))
      = component w) ->
  preserves component (assign_at id a).
Proof.
  intros H w. unfold assign_at, write_store.
  destruct (_ && _); cbn [world_of snd]; apply H.
Qed.

(** A datastore call that only reads leaves the tables as they were. *)
Lemma preserves_tables_read {A}
      (run : Datastore.Tables -> Completion A * Datastore.Tables) :
  (forall t, snd (run t) = t) ->
  preserves tables (Datastore.datastore_call run).
Proof.
  intros H w. unfold Datastore.datastore_call.
  destruct (hd None (faults w)); [reflexivity|].
  specialize (H (tables w)). now destruct (run (tables w)).
Qed.

Ltac preserving_step :=
  lazymatch goal with
  | |- preserves _ (bind _ _) => apply preserves_bind; [|intros ?]
  | |- preserves _ (try_catch _ _) => apply preserves_try_catch; [|intros ?]
  | |- preserves _ (map_seq _ _) => apply preserves_map_seq; intros ?
  | |- preserves _ (Promise_all_map _ _) =>
      apply preserves_Promise_all_map; intros ?
  | |- preserves _ (assign_at _ _) =>
      apply preserves_assign_at; intros ? ? ?; reflexivity
  | |- preserves _ (Datastore.datastore_call _) =>
      first [ apply preserves_datastore_call; intros ? ? ?; reflexivity
            | apply preserves_tables_read; intros ?; reflexivity ]
  | |- preserves _ (if ?c then _ else _) => destruct c
  | |- preserves _ (match ?x with _ => _ end) => destruct x
  | |- preserves _ _ => intros ?; reflexivity
  end.

Ltac preserving :=
  repeat first
    [ progress cbv iota
    | progress unfold Datastore.query, Datastore.select, Datastore.first,
        Datastore.insert, Datastore.update, Datastore.delete, array_map,
        call_substring0, member, DbService.withPreview, DbService.findById,
        Assessment.findById
    | preserving_step ].

Ltac as_preserves :=
  match goal with
  | |- ?component (world_of (?m ?w0)) = _ =>
      revert w0; change (preserves component m)
  end.

Section Frames.

Variable process_env : string -> value.
Variable JSON_stringify : value -> value.
Variable JSON_parse : value -> Completion value.

Local Abbreviation isTestMode := (Assessment.isTestMode process_env).
Local Abbreviation run_op := (run process_env JSON_stringify JSON_parse).

(** X2.  The finders and the listings ([findById], [findBy], [getAll],
    [getConversationsWithPreviews] of DbService, [findById] and
    [listByUser] of the model) only read: whatever the mode and whether the
    datastore answers or fails, every table and the in-memory store are
    afterwards as they were, and no identifier was generated. *)
Theorem readers_change_nothing (op : operation) (w : World) :
  reads op = true ->
  tables (world_of (run_op op w)) = tables w /\
  testAssessments (world_of (run_op op w)) = testAssessments w /\
  uuid_drawn (world_of (run_op op w)) = uuid_drawn w.
Proof.
  intros Hreads.
  destruct op; try discriminate; cbn [run]; repeat split.
  all: as_preserves.
  all: unfold DbService.findBy, DbService.getAll,
         DbService.getConversationsWithPreviews, Assessment.listByUser;
       preserving.
Qed.

(** X3.  In test mode [create], [listByUser], [update] and [delete] never
    call the datastore, and neither does [findById] on an id the in-memory
    store has: the tables and the fault schedule are afterwards as they
    were, so these calls behave the same with the datastore down. *)
Theorem test_mode_spares_the_datastore (op : operation) (w : World) :
  isTestMode = true ->
  of_model op = true ->
  (forall id, op = Assessment_findById id ->
              lookup (testAssessments w) id <> None) ->
  tables (world_of (run_op op w)) = tables w /\
  faults (world_of (run_op op w)) = faults w.
Proof.
  intros Hmode Hmodel Hhit.
  destruct op; try discriminate; cbn [run].
  - destruct (lookup (testAssessments w) id) as [a|] eqn:Hfound.
    + now rewrite (findById_store_hit _ _ _ _ Hmode Hfound).
    + now contradiction (Hhit id eq_refl).
  - clear Hhit. split; as_preserves; unfold Assessment.create; rewrite Hmode;
      preserving.
  - clear Hhit. split; as_preserves; unfold Assessment.listByUser; rewrite Hmode;
      preserving.
  - clear Hhit. split; as_preserves; unfold Assessment.update; rewrite Hmode;
      preserving.
  - clear Hhit. split; as_preserves; unfold Assessment.delete; rewrite Hmode;
      preserving.
Qed.

(** X4.  The in-memory store belongs to test mode: no operation of
    DbService, and in production mode no operation of the model, changes
    it; whether the operation returns or throws, the store is afterwards
    as it was. *)
Theorem store_is_left_alone (op : operation) (w : World) :
  (of_model op = true -> isTestMode = false) ->
  testAssessments (world_of (run_op op w)) = testAssessments w.
Proof.
  intros Hproduction.
  destruct op; cbn [run of_model] in *;
    try specialize (Hproduction eq_refl);
    as_preserves;
    unfold DbService.findBy, DbService.create, DbService.update,
      DbService.delete, DbService.getAll,
      DbService.getConversationsWithPreviews, Assessment.create,
      Assessment.listByUser, Assessment.update, Assessment.delete,
      Assessment.findById;
    rewrite ?Hproduction; preserving.
Qed.

End Frames.

(* ===================================================================== *)
(** * Further properties: the model in test mode *)
(* ===================================================================== *)

Lemma set_fresh {A} (o : list (string * A)) k v :
  lookup o k = None -> set o k v = (o ++ [(k, v)])%list.
Proof.
  induction o as [|[k' v'] o IH]; simpl; auto.
  destruct (String.eqb k' k); [discriminate|].
  intros H. now rewrite IH.
Qed.

Lemma set_In {A} (o : list (string * A)) k v : In (k, v) (set o k v).
Proof.
  induction o as [|[k' v'] o IH]; simpl; auto.
  destruct (String.eqb k' k); simpl; auto.
Qed.

Section TestMode.

Variable process_env : string -> value.
Variable JSON_stringify : value -> value.
Variable JSON_parse : value -> Completion value.

Local Abbreviation isTestMode := (Assessment.isTestMode process_env).
Local Abbreviation findById := (Assessment.findById process_env).
Local Abbreviation create := (Assessment.create process_env JSON_stringify).
Local Abbreviation listByUser := (Assessment.listByUser process_env JSON_parse).
Local Abbreviation update := (Assessment.update process_env JSON_stringify).
Local Abbreviation delete := (Assessment.delete process_env).

Lemma listByUser_test_mode userId w :
  isTestMode = true ->
  listByUser userId w =
    (Return (VArr (map VObj
       (filter (fun a => strict_equals (get a "userId") (VStr userId))
               (Object_values (testAssessments w))))), w).
Proof.
  intros Hmode. unfold Assessment.listByUser, try_catch, bind, read_store.
  now rewrite Hmode.
Qed.

(** X5.  In test mode the listing of a user shows what [create] returned:
    the new assessment is in [listByUser userId] after the call.  When the
    generated id is new to the store, the listing of that user is the
    former one with the new assessment added at the end, and the listing
    of every other user is what it was. *)
Theorem create_then_listByUser_test_mode (assessmentData : value)
        (userId : string) (w : World) :
  isTestMode = true ->
  exists a w1 before after,
    create assessmentData userId w = (Return (VObj a), w1) /\
    result_of (listByUser userId w) = Return (VArr before) /\
    result_of (listByUser userId w1) = Return (VArr after) /\
    In (VObj a) after /\
    (lookup (testAssessments w) (next_uuid w) = None ->
     after = (before ++ [VObj a])%list /\
     forall other, other <> userId ->
       result_of (listByUser other w1) = result_of (listByUser other w)).
Proof.
  intros Hmode. rewrite (create_test_mode _ _ _ _ _ Hmode). cbv zeta.
  eexists _, _, _, _. split; [reflexivity|].
  rewrite !(listByUser_test_mode _ _ Hmode).
  split; [reflexivity|]. split; [reflexivity|].
  cbn [put_store testAssessments]. split.
  - apply in_map, filter_In. split.
    + unfold Object_values. apply (in_map snd _ _ (set_In _ _ _)).
    + cbn. apply String.eqb_refl.
  - intros Hfresh. rewrite (set_fresh _ _ _ Hfresh).
    unfold Object_values. rewrite map_app, filter_app, map_app. cbn.
    rewrite String.eqb_refl. split; [reflexivity|].
    intros other Hother. rewrite !(listByUser_test_mode _ _ Hmode).
    cbn [put_store testAssessments result_of fst].
    unfold Object_values. rewrite map_app, filter_app. cbn.
    destruct (String.eqb_spec userId other) as [->|_]; [contradiction|].
    now rewrite app_nil_r.
Qed.

(** X6.  In test mode a deleted assessment is gone for the model's
    writers, unless the store object inherits under its name: after
    [delete id] has returned, a second [delete id] and an [update id]
    throw the not-found error when the store object inherits nothing
    truthy under [id]; when it does, the second [delete] answers [true]
    again and [update] answers the inherited value spread under the data
    and the time.  Every other assessment of the store is still there,
    unchanged. *)
Theorem delete_then_not_found_test_mode (id : string) (assessmentData : value)
        (w w1 : World) (r : value) :
  isTestMode = true ->
  delete id w = (Return r, w1) ->
  (inherits w id = false ->
   result_of (delete id w1)
     = Throw (VError ("Assessment with ID " ++ id ++ " not found")) /\
   result_of (update id assessmentData w1)
     = Throw (VError ("Assessment with ID " ++ id ++ " not found"))) /\
  (inherits w id = true ->
   result_of (delete id w1) = Return (VBool true) /\
   result_of (update id assessmentData w1)
     = Return (VObj (assign (spread (inherited w id))
                            [("assessmentData", assessmentData);
                             ("updatedAt", VDate (clock w))]))) /\
  forall other, other <> id ->
    lookup (testAssessments w1) other = lookup (testAssessments w) other.
Proof.
  intros Hmode Hdel.
  assert (Hafter : lookup (testAssessments w1) id = None /\
                   inherited w1 id = inherited w id /\
                   clock w1 = clock w /\
                   forall other, other <> id ->
                     lookup (testAssessments w1) other
                     = lookup (testAssessments w) other).
  { destruct (lookup (testAssessments w) id) as [stored|] eqn:Hfound.
    - rewrite (delete_test_mode _ _ _ _ Hmode Hfound) in Hdel.
      injection Hdel as _ <-. cbn [put_store testAssessments clock].
      split; [apply lookup_remove_same|]. split; [reflexivity|].
      split; [reflexivity|].
      intros other Hother. now apply lookup_remove_other.
    - destruct (inherits w id) eqn:Hinh.
      + rewrite (delete_test_mode_inherited _ _ _ Hmode Hfound Hinh) in Hdel.
        injection Hdel as _ <-. auto.
      + rewrite (delete_test_mode_missing _ _ _ Hmode Hfound Hinh) in Hdel.
        discriminate. }
  destruct Hafter as (Hgone & Hsame & Hclock & Hothers).
  assert (Hinh1 : inherits w1 id = inherits w id)
    by (unfold inherits; now rewrite Hsame).
  split; [|split; [|exact Hothers]].
  - intros Hinh. rewrite <- Hinh1 in Hinh. split.
    + now rewrite (delete_test_mode_missing _ _ _ Hmode Hgone Hinh).
    + now rewrite (update_test_mode_missing _ _ _ _ _ Hmode Hgone Hinh).
  - intros Hinh. rewrite <- Hinh1 in Hinh. split.
    + now rewrite (delete_test_mode_inherited _ _ _ Hmode Hgone Hinh).
    + destruct (update_test_mode_inherited process_env JSON_stringify
                  id assessmentData w1 Hmode Hgone Hinh) as (w2 & -> & _).
      cbn [result_of fst]. now rewrite Hsame, Hclock.
Qed.

(** X7.  In test mode [findById] reads what [update] wrote: after
    [update id data] has returned a record, [findById id] answers that
    same record, whose payload is [data], without calling the
    datastore. *)
Theorem update_then_findById_test_mode (id : string) (assessmentData : value)
        (w w1 : World) (r : value) :
  isTestMode = true ->
  update id assessmentData w = (Return r, w1) ->
  findById id w1 = (Return r, w1) /\
  exists a, r = VObj a /\ get a "assessmentData" = assessmentData.
Proof.
  intros Hmode Hupd.
  destruct (lookup (testAssessments w) id) as [stored|] eqn:Hfound.
  - rewrite (update_test_mode _ _ _ _ _ _ Hmode Hfound) in Hupd.
    cbv zeta in Hupd. injection Hupd as <- <-. split.
    + apply findById_store_hit; [exact Hmode|]. apply lookup_set_same.
    + eexists. split; [reflexivity|].
      unfold assign; simpl.
      rewrite get_set_other by discriminate. apply get_set_same.
  - destruct (inherits w id) eqn:Hinh.
    + destruct (update_test_mode_inherited process_env JSON_stringify
                  id assessmentData w Hmode Hfound Hinh)
        as (w2 & Hrun & Hkept & _).
      rewrite Hrun in Hupd. injection Hupd as <- <-. split.
      * assert (Hhit : truthy (testAssessments_at w2 id) = true)
          by now rewrite Hkept.
        rewrite (findById_truthy _ _ _ Hmode Hhit), Hkept. reflexivity.
      * eexists. split; [reflexivity|].
        unfold assign; simpl.
        rewrite get_set_other by discriminate. apply get_set_same.
    + rewrite (update_test_mode_missing _ _ _ _ _ Hmode Hfound Hinh) in Hupd.
      discriminate.
Qed.

End TestMode.

(* ===================================================================== *)
(** * Further properties: the model in production mode *)
(* ===================================================================== *)

Lemma Forall2_In_l {A B} (R : A -> B -> Prop) l l' x :
  Forall2 R l l' -> In x l -> exists y, In y l' /\ R x y.
Proof.
  induction 1 as [|a b l l' Hab _ IH]; intros Hin; [contradiction|].
  destruct Hin as [<-|Hin].
  - exists b. split; [now left | exact Hab].
  - destruct (IH Hin) as (y & Hy & HR). exists y. split; [now right | exact HR].
Qed.

Lemma array_map_run (f : value -> M value) items w r w' :
  map_seq f items w = (r, w') ->
  array_map f (VArr items) w =
    (match r with
     | Return rs => Return (VArr rs)
     | Throw e => Throw e
     end, w').
Proof.
  intros H. unfold array_map, bind. rewrite H. now destruct r.
Qed.

Section Production.

Variable process_env : string -> value.
Variable JSON_stringify : value -> value.
Variable JSON_parse : value -> Completion value.

Local Abbreviation isTestMode := (Assessment.isTestMode process_env).
Local Abbreviation findById := (Assessment.findById process_env).
Local Abbreviation create := (Assessment.create process_env JSON_stringify).
Local Abbreviation listByUser := (Assessment.listByUser process_env JSON_parse).
Local Abbreviation update := (Assessment.update process_env JSON_stringify).

(** The loop of [listByUser] over rows that all parse. *)
Lemma decode_all rows w :
  Forall (fun row => exists parsed,
            JSON_parse (get row "assessment_data") = Return parsed) rows ->
  exists records,
    map_seq
      (decode JSON_parse)
      (map VObj rows) w = (Return records, w) /\
    Forall2 (fun row record => decoded JSON_parse row = Return record)
            rows records.
Proof.
  induction 1 as [|row rows (parsed & Hrow) _ (records & Hrun & Hall)].
  - exists []. split; [reflexivity | constructor].
  - eexists (_ :: records). cbn [map map_seq]. unfold bind at 1.
    unfold decode at 1. cbn [member spread]. unfold bind, ret. rewrite Hrow.
    unfold bind, ret in Hrun. rewrite Hrun. split; [reflexivity|].
    constructor; [|exact Hall]. unfold decoded. now rewrite Hrow.
Qed.

(** The loop over rows one of which does not parse. *)
Lemma decode_some_bad rows w :
  Exists (fun row => exists e,
            JSON_parse (get row "assessment_data") = Throw e) rows ->
  exists e row,
    In row rows /\ JSON_parse (get row "assessment_data") = Throw e /\
    map_seq
      (decode JSON_parse)
      (map VObj rows) w = (Throw e, w).
Proof.
  induction rows as [|row rows IH]; intros Hbad; [inversion Hbad|].
  cbn [map map_seq]. unfold bind at 1. unfold decode at 1.
  cbn [member spread]. unfold bind, ret.
  destruct (JSON_parse (get row "assessment_data")) as [parsed|e] eqn:Hrow.
  - assert (Hrest : Exists (fun row => exists e,
                JSON_parse (get row "assessment_data") = Throw e) rows).
    { inversion Hbad as [? ? (e & He)|]; subst; [congruence | assumption]. }
    destruct (IH Hrest) as (e & row' & Hin & Hrow' & Hrun).
    unfold bind, ret in Hrun. rewrite Hrun.
    exists e, row'. repeat split; [now right | exact Hrow'].
  - exists e, row. repeat split; [now left | exact Hrow].
Qed.

Lemma listByUser_production userId w :
  isTestMode = false ->
  datastore_up w ->
  listByUser userId w =
    try_catch
      (array_map (decode JSON_parse)
         (VArr (map VObj (rows_of_user w userId))))
      (fun error =>
         console_error "Error listing assessments by user:" error ;;;
         throw error) w.
Proof.
  intros Hmode Hup. unfold Assessment.listByUser, try_catch.
  rewrite Hmode. unfold bind at 1.
  now rewrite select_by_user_up by exact Hup.
Qed.

Lemma listByUser_decodes_rows_aux userId w :
  isTestMode = false ->
  datastore_up w ->
  Forall (fun row => exists parsed,
            JSON_parse (get row "assessment_data") = Return parsed)
         (rows_where w "assessments" "user_id" (VStr userId)) ->
  exists records,
    listByUser userId w = (Return (VArr records), w) /\
    Forall2 (fun row record => decoded JSON_parse row = Return record)
            (rows_of_user w userId) records /\
    Permutation (rows_of_user w userId)
                (rows_where w "assessments" "user_id" (VStr userId)).
Proof.
  intros Hmode Hup Hparse.
  assert (Hsorted : Forall (fun row => exists parsed,
              JSON_parse (get row "assessment_data") = Return parsed)
            (rows_of_user w userId)).
  { apply Forall_forall. intros row Hin. rewrite Forall_forall in Hparse.
    apply Hparse. eapply Permutation_in; [apply order_desc_perm | exact Hin]. }
  destruct (decode_all _ w Hsorted) as (records & Hrun & Hall).
  exists records. split.
  - rewrite (listByUser_production _ _ Hmode Hup).
    unfold try_catch. now rewrite (array_map_run _ _ _ _ _ Hrun).
  - split; [exact Hall | apply order_desc_perm].
Qed.

(** X8.  In production mode, with the datastore answering, [listByUser]
    answers one record for each row of the user, latest [created_at]
    first, provided the [assessment_data] of every such row parses: the
    record is the row with the parsed text added as [assessmentData]. *)
Theorem listByUser_decodes_rows (userId : string) (w : World) :
  isTestMode = false ->
  datastore_up w ->
  Forall (fun row => exists parsed,
            JSON_parse (get row "assessment_data") = Return parsed)
         (rows_where w "assessments" "user_id" (VStr userId)) ->
  exists records,
    listByUser userId w = (Return (VArr records), w) /\
    Forall2 (fun row record => decoded JSON_parse row = Return record)
            (rows_of_user w userId) records /\
    Permutation (rows_of_user w userId)
                (rows_where w "assessments" "user_id" (VStr userId)) /\
    descending "created_at" (rows_of_user w userId).
Proof.
  intros Hmode Hup Hparse.
  destruct (listByUser_decodes_rows_aux userId w Hmode Hup Hparse)
    as (records & Hlist & Hall & Hperm).
  exists records. repeat split; try assumption.
  apply order_desc_descending.
Qed.

(** X9.  In production mode one row whose [assessment_data] does not
    parse spoils the listing of its user: [listByUser] rejects with the
    error [JSON.parse] threw on such a row, and returns no record at
    all. *)
Theorem listByUser_rejects_unparsable (userId : string) (w : World)
        (row : obj) (e : value) :
  isTestMode = false ->
  datastore_up w ->
  In row (rows_where w "assessments" "user_id" (VStr userId)) ->
  JSON_parse (get row "assessment_data") = Throw e ->
  exists e' row',
    In row' (rows_where w "assessments" "user_id" (VStr userId)) /\
    JSON_parse (get row' "assessment_data") = Throw e' /\
    result_of (listByUser userId w) = Throw e'.
Proof.
  intros Hmode Hup Hin Hbad.
  assert (Hexists : Exists (fun row => exists e,
              JSON_parse (get row "assessment_data") = Throw e)
            (rows_of_user w userId)).
  { apply Exists_exists. exists row. split; [|eauto].
    eapply Permutation_in; [apply Permutation_sym, order_desc_perm | exact Hin]. }
  destruct (decode_some_bad _ w Hexists) as (e' & row' & Hin' & Hrow' & Hrun).
  exists e', row'. split.
  - eapply Permutation_in; [apply order_desc_perm | exact Hin'].
  - split; [exact Hrow'|].
    rewrite (listByUser_production _ _ Hmode Hup).
    unfold try_catch. now rewrite (array_map_run _ _ _ _ _ Hrun).
Qed.

(** X10.  In production mode the listing gives back what [create] stored,
    where [findById] does not: when [JSON.parse] inverts [JSON.stringify]
    on the payload and the rows the user already has parse, the listing
    of the user after [create] has one record more, and among its records
    one with the generated [id], the [user_id] and, as [assessmentData],
    the payload. *)
Theorem create_then_listByUser_production (assessmentData : value)
        (userId : string) (w : World) :
  isTestMode = false ->
  datastore_up w ->
  JSON_parse (JSON_stringify assessmentData) = Return assessmentData ->
  Forall (fun row => exists parsed,
            JSON_parse (get row "assessment_data") = Return parsed)
         (rows_where w "assessments" "user_id" (VStr userId)) ->
  exists r w1 records a,
    create assessmentData userId w = (Return r, w1) /\
    listByUser userId w1 = (Return (VArr records), w1) /\
    List.length records
      = S (List.length (rows_where w "assessments" "user_id" (VStr userId))) /\
    In (VObj a) records /\
    get a "id" = VStr (next_uuid w) /\
    get a "user_id" = VStr userId /\
    get a "assessmentData" = assessmentData.
Proof.
  intros Hmode Hup Hround Hparse.
  rewrite (create_production _ _ _ _ _ Hmode Hup).
  set (row := new_row (next_uuid w) userId (JSON_stringify assessmentData)
                      (VDate (clock w))).
  set (w1 := put_table (drawn w) "assessments" _).
  assert (Hrows : rows_where w1 "assessments" "user_id" (VStr userId)
                  = (rows_where w "assessments" "user_id" (VStr userId)
                     ++ [row])%list).
  { unfold rows_where, w1. cbn [put_table tables drawn].
    rewrite with_table_same, filter_app. cbn. now rewrite String.eqb_refl. }
  assert (Hparse1 : Forall (fun row => exists parsed,
              JSON_parse (get row "assessment_data") = Return parsed)
            (rows_where w1 "assessments" "user_id" (VStr userId))).
  { rewrite Hrows. apply Forall_app. split; [exact Hparse|].
    constructor; [|constructor]. exists assessmentData. exact Hround. }
  destruct (listByUser_decodes_rows_aux userId w1) as (records & Hlist & Hall & Hperm).
  { exact Hmode. } { exact Hup. } { exact Hparse1. }
  assert (Hin : In row (rows_of_user w1 userId)).
  { eapply Permutation_in; [apply Permutation_sym, Hperm|].
    rewrite Hrows. apply in_or_app. right. now left. }
  destruct (Forall2_In_l _ _ _ _ Hall Hin) as (record & Hrecord & Hdecoded).
  unfold decoded in Hdecoded. cbn in Hdecoded. rewrite Hround in Hdecoded.
  injection Hdecoded as <-.
  eexists _, w1, records, _. split; [reflexivity|].
  split; [exact Hlist|]. split.
  - rewrite <- (Forall2_length Hall), (Permutation_length Hperm), Hrows.
    rewrite length_app. cbn. lia.
  - split; [exact Hrecord|]. repeat split.
Qed.

(** X11.  In production mode, with the datastore answering, [update] on
    an id that rows have returns the first such row as the datastore holds
    it after the statement, with the payload added: the result carries
    the new payload twice, as the object under [assessmentData] and as its
    serialised text under [assessment_data], has the time of the call in
    [updated_at], and every other column as the row had it. *)
Theorem update_production_result (id : string) (assessmentData : value)
        (w : World) (row : obj) (rest : list obj) :
  isTestMode = false ->
  datastore_up w ->
  rows_where w "assessments" "id" (VStr id) = row :: rest ->
  exists a,
    result_of (update id assessmentData w) = Return (VObj a) /\
    get a "assessmentData" = assessmentData /\
    get a "assessment_data" = JSON_stringify assessmentData /\
    get a "updated_at" = VDate (clock w) /\
    forall k, k <> "assessmentData" -> k <> "assessment_data" ->
              k <> "updated_at" -> get a k = get row k.
Proof.
  intros Hmode Hup Hrows.
  rewrite (update_production _ _ _ _ _ Hmode Hup). cbv zeta.
  rewrite rows_where_id_updated, Hrows.
  assert (Hid : Datastore.sql_eq (get row "id") (VStr id) = true).
  { assert (Hin : In row (rows_where w "assessments" "id" (VStr id)))
      by (rewrite Hrows; now left).
    now apply filter_In in Hin. }
  cbn [map first_or_null spread result_of fst]. unfold updated_row.
  rewrite Hid. eexists. split; [reflexivity|].
  unfold assign; simpl. repeat split.
  - apply get_set_same.
  - rewrite !get_set_other by discriminate. apply get_set_same.
  - rewrite get_set_other by discriminate. apply get_set_same.
  - intros k H1 H2 H3. now rewrite !get_set_other.
Qed.

(** X12.  [update] in production mode is two statements with no
    transaction around them: when the [UPDATE] goes through and the read
    that follows fails with [e], the call rejects with [e] although the
    rows are changed, and [e] is logged twice, by [findById] and by
    [update]. *)
Theorem update_rejects_after_writing (id : string) (assessmentData : value)
        (w : World) (e : value) (later : list (option value)) :
  isTestMode = false ->
  faults w = None :: Some e :: later ->
  update id assessmentData w =
    (Throw e,
     after_failed_reread w "assessments"
       (map (updated_row (JSON_stringify assessmentData) (VDate (clock w))
                         (VStr id))
            (tables w "assessments"))
       "Error finding assessment by ID:" "Error updating assessment:" e).
Proof.
  intros Hmode Hfaults.
  unfold Assessment.update, Assessment.findById, try_catch, bind, new_Date,
    read_store, Datastore.query, Datastore.datastore_call,
    after_failed_reread.
  rewrite Hmode, Hfaults. cbn. now rewrite <- app_assoc.
Qed.

End Production.

(* ===================================================================== *)
(** * Further properties: DbService *)
(* ===================================================================== *)

Lemma get_assign_untouched (changes : obj) : forall (r : obj) k,
  lookup changes k = None -> get (assign r changes) k = get r k.
Proof.
  unfold assign.
  induction changes as [|[k' v'] changes IH]; intros r k; simpl; auto.
  destruct (String.eqb_spec k' k) as [->|Hne]; [discriminate|].
  intros Hnone. rewrite IH by exact Hnone. now apply get_set_other.
Qed.

Lemma get_assign_first (r rest : obj) k v :
  lookup rest k = None -> get (assign r ((k, v) :: rest)) k = v.
Proof.
  intros Hnone. unfold assign. simpl.
  change (get (assign (set r k v) rest) k = v).
  rewrite get_assign_untouched by exact Hnone. apply get_set_same.
Qed.

Lemma filter_none {A} (p : A -> bool) (l : list A) :
  (forall x, In x l -> p x = false) -> filter p l = [].
Proof.
  induction l as [|x l IH]; intros H; simpl; auto.
  rewrite (H x (or_introl eq_refl)). apply IH.
  intros y Hy. apply H. now right.
Qed.

Lemma DbService_create_up table props w :
  datastore_up w ->
  DbService.create table (VObj props) w =
    (let rows := (tables w table ++ [props])%list in
     let w1 := put_table w table rows in
     (Return (first_or_null
                (rows_where w1 table "id"
                   (or_else (get props "id")
                            (VNum (Z.of_nat (List.length rows)))))),
      w1)).
Proof.
  intros Hup. unfold DbService.create, try_catch, bind, Datastore.insert.
  erewrite datastore_call_write; [ | exact Hup | reflexivity ].
  cbn [fst member ret item0 spread Datastore.from Datastore.db].
  now rewrite DbService_findById_up by exact Hup.
Qed.

Lemma DbService_update_up table id data w :
  datastore_up w ->
  DbService.update table id data w =
    (let w1 := put_table w table
                 (map (fun r => if Datastore.sql_eq (get r "id") id
                                then assign r (spread data) else r)
                      (tables w table)) in
     (Return (first_or_null (rows_where w1 table "id" id)), w1)).
Proof.
  intros Hup. unfold DbService.update, try_catch, bind, Datastore.update.
  erewrite datastore_call_write; [ | exact Hup | reflexivity ].
  cbn [fst Datastore.from Datastore.wheres Datastore.where_ Datastore.db app].
  rewrite DbService_findById_up by exact Hup. cbv zeta.
  rewrite (map_ext _ _ (fun r => f_equal (fun b : bool => if b then _ else r)
                                         (matches_id id r))).
  reflexivity.
Qed.

(** X13.  With the datastore answering, [DbService.create] gives back the
    record it was given: when [data] carries a scalar, truthy [id] that no
    row of the table has yet, the row joins the table as given and the
    call returns it. *)
Theorem DbService_create_returns_the_record (table : string) (props : obj)
        (w : World) :
  datastore_up w ->
  truthy (get props "id") = true ->
  Datastore.sql_eq (get props "id") (get props "id") = true ->
  rows_where w table "id" (get props "id") = [] ->
  DbService.create table (VObj props) w =
    (Return (VObj props),
     put_table w table (tables w table ++ [props])%list).
Proof.
  intros Hup Htruthy Hscalar Hfresh.
  rewrite (DbService_create_up _ _ _ Hup). cbv zeta.
  unfold or_else. rewrite Htruthy.
  unfold rows_where in *. cbn [put_table tables].
  rewrite with_table_same, filter_app, Hfresh. cbn. now rewrite Hscalar.
Qed.

(** X14.  With the datastore answering, [DbService.update] answers what
    [findById] finds afterwards under the id it was given.  On an id no
    row has it returns [null] and leaves the table as it was; when rows
    have the id and [data] does not set [id], it returns the first of
    them with the properties of [data] assigned over it; and when rows
    have the id and [data] sets [id] to another value it returns [null]
    although it has changed the rows: no row has the id it was given any
    more, and the table holds every row that had it with the properties
    of [data] assigned over it, the new [id] among them. *)
Theorem DbService_update_result (table : string) (id : value) (w : World) :
  datastore_up w ->
  (forall data,
      rows_where w table "id" id = [] ->
      result_of (DbService.update table id data w) = Return VNull /\
      tables (world_of (DbService.update table id data w)) table
      = tables w table) /\
  (forall changes row rest,
      rows_where w table "id" id = row :: rest ->
      lookup changes "id" = None ->
      result_of (DbService.update table id (VObj changes) w)
      = Return (VObj (assign row changes))) /\
  (forall new_id others row rest,
      rows_where w table "id" id = row :: rest ->
      lookup others "id" = None ->
      Datastore.sql_eq new_id id = false ->
      let data := VObj (("id", new_id) :: others) in
      let w' := world_of (DbService.update table id data w) in
      result_of (DbService.update table id data w) = Return VNull /\
      rows_where w' table "id" id = [] /\
      (forall changed, In changed (row :: rest) ->
         In (assign changed (("id", new_id) :: others)) (tables w' table) /\
         get (assign changed (("id", new_id) :: others)) "id" = new_id) /\
      tables w' table <> tables w table).
Proof.
  intros Hup. split; [|split].
  - intros data Hnone. rewrite (DbService_update_up _ _ _ _ Hup). cbv zeta.
    cbn [result_of world_of fst snd put_table tables].
    rewrite with_table_same.
    assert (Hsame : map (fun r => if Datastore.sql_eq (get r "id") id
                                  then assign r (spread data) else r)
                        (tables w table) = tables w table).
    { rewrite <- (map_id (tables w table)) at 2. apply map_ext_in.
      intros r Hin. destruct (Datastore.sql_eq (get r "id") id) eqn:E; auto.
      assert (Hr : In r (rows_where w table "id" id))
        by (apply filter_In; now split).
      rewrite Hnone in Hr. contradiction. }
    unfold rows_where in *. cbn [put_table tables].
    now rewrite with_table_same, Hsame, Hnone.
  - intros changes row rest Hrows Hkeeps.
    rewrite (DbService_update_up _ _ _ _ Hup). cbv zeta.
    unfold rows_where in *. cbn [result_of fst put_table tables spread].
    rewrite with_table_same, filter_map_stable, Hrows.
    + assert (Hid : Datastore.sql_eq (get row "id") id = true).
      { assert (Hin : In row (filter (fun r => Datastore.sql_eq (get r "id") id)
                                     (tables w table)))
          by (rewrite Hrows; now left).
        now apply filter_In in Hin. }
      cbn. now rewrite Hid.
    + intros r. destruct (Datastore.sql_eq (get r "id") id) eqn:E; auto.
      now rewrite get_assign_untouched, E.
  - intros new_id others row rest Hrows Hothers Hnew. cbv zeta.
    rewrite (DbService_update_up _ _ _ _ Hup). cbv zeta.
    cbn [result_of world_of fst snd spread].
    assert (Hgone : rows_where
                      (put_table w table
                         (map (fun r => if Datastore.sql_eq (get r "id") id
                                        then assign r (("id", new_id) :: others)
                                        else r)
                              (tables w table)))
                      table "id" id = []).
    { unfold rows_where. cbn [put_table tables].
      rewrite with_table_same. apply filter_none.
      intros r Hin. apply in_map_iff in Hin as (r0 & <- & _).
      destruct (Datastore.sql_eq (get r0 "id") id) eqn:E; auto.
      now rewrite get_assign_first. }
    rewrite Hgone. split; [reflexivity|]. split; [reflexivity|].
    cbn [put_table tables]. rewrite with_table_same. split.
    + intros changed Hin. rewrite <- Hrows in Hin.
      apply filter_In in Hin as [Hin Hid]. split.
      * apply in_map_iff. exists changed. split; [|exact Hin].
        now rewrite Hid.
      * now rewrite get_assign_first.
    + intros Hsame.
      assert (Hin : In row (rows_where w table "id" id))
        by (rewrite Hrows; now left).
      unfold rows_where in Hin, Hgone. cbn [put_table tables] in Hgone.
      rewrite with_table_same, Hsame in Hgone.
      now rewrite Hgone in Hin.
Qed.

(** X15.  With the datastore answering, [DbService.delete] with an object
    that has no property of its own (the empty object, a [Date]) puts no
    condition on the query: it deletes every row of the table, and returns
    [true] exactly when the table had a row. *)
Theorem DbService_delete_without_conditions (table : string) (option : value)
        (w : World) :
  datastore_up w ->
  typeof option = "object" ->
  option <> VNull ->
  Object_entries option = [] ->
  tables (world_of (DbService.delete table option w)) table = [] /\
  result_of (DbService.delete table option w)
  = Return (VBool (negb (Nat.eqb (List.length (tables w table)) 0))).
Proof.
  intros Hup Hobject Hnotnull Hempty.
  rewrite (DbService_delete_up _ _ _ Hup).
  assert (Hconds : conditions option = []).
  { unfold conditions. rewrite Hobject, Hempty. now destruct option. }
  rewrite Hconds. cbn [world_of result_of fst snd put_table tables].
  rewrite with_table_same. split.
  - apply filter_none. reflexivity.
  - rewrite (filter_ext (Datastore.matches []) (fun _ => true))
      by reflexivity.
    assert (Hall : forall l : list obj, filter (fun _ => true) l = l).
    { induction l as [|x l IH]; simpl; [|rewrite IH]; reflexivity. }
    rewrite Hall. now destruct (tables w table).
Qed.

(** X16.  [DbService.create] and [DbService.update] write first and read
    back after, with no transaction around the two calls: when the write
    goes through and the read fails with [e], the call rejects with [e]
    although the table is changed, and [e] is logged twice, by [findById]
    and by the operation. *)
Theorem DbService_rejects_after_writing (table : string) (id : value)
        (props : obj) (data : value) (w : World) (e : value)
        (later : list (option value)) :
  faults w = None :: Some e :: later ->
  DbService.create table (VObj props) w =
    (Throw e,
     after_failed_reread w table (tables w table ++ [props])%list
       ("Error in findById for " ++ table ++ ":")
       ("Error in create for " ++ table ++ ":") e) /\
  DbService.update table id data w =
    (Throw e,
     after_failed_reread w table
       (map (fun r => if Datastore.matches [("id", id)] r
                      then assign r (spread data) else r)
            (tables w table))
       ("Error in findById for " ++ table ++ ":")
       ("Error in update for " ++ table ++ ":") e).
Proof.
  intros Hfaults. split.
  - unfold DbService.create, DbService.findById, try_catch, bind,
      Datastore.insert, Datastore.first, Datastore.datastore_call,
      after_failed_reread.
    rewrite Hfaults. cbn. now rewrite <- app_assoc.
  - unfold DbService.update, DbService.findById, try_catch, bind,
      Datastore.update, Datastore.first, Datastore.datastore_call,
      after_failed_reread.
    rewrite Hfaults. cbn. now rewrite <- app_assoc.
Qed.

(* ===================================================================== *)
(** * Further properties: the preview list *)
(* ===================================================================== *)

(** A callback of the fan-out makes one datastore call, whatever the
    tables hold. *)
Lemma withPreview_calls conv w :
  faults (world_of (DbService.withPreview (VObj conv) w)) = tl (faults w).
Proof.
  unfold DbService.withPreview, bind, member, ret, Datastore.first,
    Datastore.datastore_call.
  destruct (hd None (faults w)); cbn; [reflexivity|].
  destruct (Datastore.order_desc "created_at" _) as [|m rest]; cbn;
    [reflexivity|].
  now destruct (get m "content").
Qed.

Lemma skipn_tl {A} n (l : list A) : skipn n (tl l) = skipn (S n) l.
Proof. destruct l; simpl; [now rewrite skipn_nil | reflexivity]. Qed.

Lemma fan_out_calls convs :
  forall w,
    faults (world_of (Promise_all_map DbService.withPreview (map VObj convs) w))
    = skipn (List.length convs) (faults w).
Proof.
  intros w. rewrite Promise_all_map_world. revert w.
  induction convs as [|conv convs IH]; intros w; [reflexivity|].
  cbn [map run_all List.length].
  pose proof (withPreview_calls conv w) as Hone.
  destruct (DbService.withPreview (VObj conv) w) as [c w1];
    cbn [world_of snd] in *.
  pose proof (IH w1) as Hrest.
  destruct (run_all _ _ w1) as [cs w2]; cbn [snd] in *.
  now rewrite Hrest, Hone, skipn_tl.
Qed.

Lemma select_run (q : Datastore.Query) w :
  Datastore.select q w =
    (match hd None (faults w) with
     | Some e => Throw e
     | None => Return (VArr (map VObj (Datastore.selected q (tables w))))
     end,
     mkWorld (testAssessments w) (tables w) (tl (faults w)) (console w)
             (uuid_source w) (uuid_drawn w) (clock w) (prototype w) (settle_time w)).
Proof.
  unfold Datastore.select, Datastore.datastore_call.
  now destruct (hd None (faults w)).
Qed.

Lemma selected_conversations t userId :
  Datastore.selected
    (Datastore.orderBy "updated_at" "desc"
       (Datastore.where_ "user_id" (VStr userId) (Datastore.db "conversations")))
    t
  = Datastore.order_desc "updated_at"
      (filter (fun r => Datastore.sql_eq (get r "user_id") (VStr userId))
              (t "conversations")).
Proof.
  unfold Datastore.selected; simpl.
  now rewrite (filter_ext _ _ (matches_single "user_id" (VStr userId))).
Qed.

(** X17.  [getConversationsWithPreviews] costs one query for the
    conversations and, when that one answers, one more query for each
    conversation of the user, all of them issued whether or not some of
    them fail; when the first query fails, no other is made. *)
Theorem getConversationsWithPreviews_calls (userId : string) (w : World) :
  let w' := world_of (DbService.getConversationsWithPreviews userId w) in
  match hd None (faults w) with
  | Some e => faults w' = tl (faults w)
  | None =>
      faults w' = skipn (S (List.length (rows_where w "conversations"
                                           "user_id" (VStr userId))))
                        (faults w)
  end.
Proof.
  cbv zeta.
  unfold DbService.getConversationsWithPreviews, try_catch, bind.
  rewrite select_run, selected_conversations.
  destruct (hd None (faults w)) eqn:Hhd; [reflexivity|].
  cbn [or_else truthy DbService.array_items].
  match goal with
  | |- context [Promise_all_map DbService.withPreview (map VObj ?convs) ?world] =>
      pose proof (fan_out_calls convs world) as Hcalls;
      destruct (Promise_all_map DbService.withPreview (map VObj convs) world)
        as [[entries|e] w2]
  end.
  - cbn in *. rewrite Hcalls, skipn_tl.
    now rewrite (Permutation_length (order_desc_perm _ _)).
  - cbn in *. rewrite Hcalls, skipn_tl.
    now rewrite (Permutation_length (order_desc_perm _ _)).
Qed.

(** With the datastore answering, a callback leaves the world as it
    was, whether it returns or throws. *)
Lemma withPreview_up_world conv w :
  datastore_up w ->
  world_of (DbService.withPreview (VObj conv) w) = w.
Proof.
  intros Hup. unfold DbService.withPreview, bind, member, ret.
  rewrite latest_message_up by exact Hup.
  destruct (Datastore.order_desc "created_at" (messages_of w conv))
    as [|m rest]; cbn; [reflexivity|].
  now destruct (get m "content").
Qed.

(** A callback throws when the latest message has no text. *)
Lemma withPreview_without_text conv w m :
  datastore_up w ->
  latest_message w conv = Some m ->
  has_text m = false ->
  exists message,
    result_of (DbService.withPreview (VObj conv) w) = Throw (VError message).
Proof.
  intros Hup Hlatest Htext. unfold DbService.withPreview, bind, member, ret.
  rewrite latest_message_up by exact Hup.
  unfold latest_message in Hlatest.
  destruct (Datastore.order_desc "created_at" (messages_of w conv))
    as [|m' rest]; [discriminate|].
  injection Hlatest as ->. unfold has_text in Htext. cbn.
  destruct (get m "content"); try discriminate; cbn; eauto.
Qed.

(** With the datastore answering, what a callback throws is an error of
    its own. *)
Lemma withPreview_throws_error conv w e w1 :
  datastore_up w ->
  DbService.withPreview (VObj conv) w = (Throw e, w1) ->
  exists message, e = VError message.
Proof.
  intros Hup. unfold DbService.withPreview, bind, member, ret.
  rewrite latest_message_up by exact Hup.
  destruct (Datastore.order_desc "created_at" (messages_of w conv))
    as [|m rest]; cbn; [discriminate|].
  destruct (get m "content"); cbn; intros [= <- _]; eauto; discriminate.
Qed.

Lemma fan_out_up convs w :
  datastore_up w ->
  run_all DbService.withPreview (map VObj convs) w
  = (map (fun x => result_of (DbService.withPreview x w)) (map VObj convs), w).
Proof.
  intros Hup. apply run_all_fixed_world. intros x Hin.
  apply in_map_iff in Hin as (conv & <- & _).
  now apply withPreview_up_world.
Qed.

Lemma fan_out_up_world convs w :
  datastore_up w ->
  world_of (Promise_all_map DbService.withPreview (map VObj convs) w) = w.
Proof.
  intros Hup. now rewrite Promise_all_map_world, fan_out_up.
Qed.

Lemma fan_out_throws convs w conv m :
  datastore_up w ->
  In conv convs ->
  latest_message w conv = Some m ->
  has_text m = false ->
  exists message,
    Promise_all_map DbService.withPreview (map VObj convs) w
    = (Throw (VError message), w).
Proof.
  intros Hup Hin Hlatest Htext.
  pose proof (fan_out_up_world convs w Hup) as Hworld.
  pose proof (Promise_all_map_result DbService.withPreview (map VObj convs) w)
    as Hres.
  rewrite (fan_out_up convs w Hup) in Hres. cbn [fst] in Hres.
  destruct (Promise_all_map DbService.withPreview (map VObj convs) w)
    as [[bs|e] w1]; cbn [world_of result_of fst snd] in *; subst w1.
  - exfalso.
    destruct (withPreview_without_text conv w m Hup Hlatest Htext)
      as (message & Hthrow).
    assert (Hthrown : In (Throw (VError message)) (map Return bs)).
    { rewrite <- Hres, <- Hthrow. rewrite map_map.
      apply in_map_iff. now exists conv. }
    apply in_map_iff in Hthrown as (b & Hb & _). discriminate.
  - rewrite map_map in Hres. apply in_map_iff in Hres as (c & Hc & _).
    destruct (DbService.withPreview (VObj c) w) as [r w1] eqn:Hrun.
    cbn [result_of fst] in Hc. subst r.
    destruct (withPreview_throws_error _ _ _ _ Hup Hrun) as (message & ->).
    eauto.
Qed.

(** X18.  With the datastore answering, the preview list is all or
    nothing: when the latest message of one conversation of the user has
    a content that is not text, [getConversationsWithPreviews] rejects
    with a [TypeError] and returns no preview at all. *)
Theorem getConversationsWithPreviews_rejects_without_text
        (userId : string) (w : World) (conv m : obj) :
  datastore_up w ->
  In conv (rows_where w "conversations" "user_id" (VStr userId)) ->
  latest_message w conv = Some m ->
  has_text m = false ->
  exists message,
    result_of (DbService.getConversationsWithPreviews userId w)
    = Throw (VError message).
Proof.
  intros Hup Hin Hlatest Htext.
  unfold DbService.getConversationsWithPreviews, try_catch, bind.
  rewrite conversations_of_user_up by exact Hup.
  cbn [or_else truthy DbService.array_items].
  destruct (fan_out_throws
              (Datastore.order_desc "updated_at"
                 (rows_where w "conversations" "user_id" (VStr userId)))
              w conv m Hup) as (message & ->); try assumption.
  - eapply Permutation_in; [apply Permutation_sym, order_desc_perm | exact Hin].
  - cbn. eauto.
Qed.

(* ===================================================================== *)
(** * Further properties: repeating a delete, listing nothing *)
(* ===================================================================== *)

Lemma filter_idem {A} (p : A -> bool) (l : list A) :
  filter p (filter p l) = filter p l.
Proof.
  induction l as [|x l IH]; simpl; auto.
  destruct (p x) eqn:E; simpl; [rewrite E, IH|]; auto.
Qed.

Section Repeating.

Variable process_env : string -> value.
Variable JSON_stringify : value -> value.
Variable JSON_parse : value -> Completion value.

Local Abbreviation isTestMode := (Assessment.isTestMode process_env).
Local Abbreviation listByUser := (Assessment.listByUser process_env JSON_parse).
Local Abbreviation delete := (Assessment.delete process_env).

(** X19.  With the datastore answering, a delete can be repeated, and the
    two classes report it differently: in production mode a second
    [Assessment.delete id] returns [true] again, and a second
    [DbService.delete table option] returns [false]; neither changes the
    table any more. *)
Theorem delete_twice (id : string) (table : string) (option : value)
        (w : World) :
  datastore_up w ->
  (isTestMode = false ->
   forall r w1,
     delete id w = (Return r, w1) ->
     result_of (delete id w1) = Return (VBool true) /\
     tables (world_of (delete id w1)) "assessments" = tables w1 "assessments") /\
  (forall r w1,
     DbService.delete table option w = (Return r, w1) ->
     result_of (DbService.delete table option w1) = Return (VBool false) /\
     tables (world_of (DbService.delete table option w1)) table
     = tables w1 table).
Proof.
  intros Hup. split.
  - intros Hmode r w1 Hdel.
    rewrite (delete_production _ _ _ Hmode Hup) in Hdel.
    injection Hdel as _ <-.
    rewrite (delete_production _ _ _ Hmode) by exact Hup.
    split; [reflexivity|].
    cbn [world_of snd put_table tables].
    rewrite !with_table_same. apply filter_idem.
  - intros r w1. rewrite (DbService_delete_up _ _ _ Hup).
    intros Hdel. injection Hdel as _ <-.
    rewrite (DbService_delete_up _ _ _) by exact Hup.
    cbn [world_of result_of fst snd put_table tables].
    rewrite !with_table_same, filter_idem.
    split; [|reflexivity].
    rewrite (filter_filter_negb (Datastore.matches (conditions option))).
    reflexivity.
Qed.

(** X20.  A user who owns nothing gets an empty list, not an error and not
    [null]: [listByUser] returns [[]] in test mode when no assessment of
    the store belongs to the user, and in production mode, with the
    datastore answering, when no row does, and
    [getConversationsWithPreviews] returns [[]] for a user without
    conversations, after a single query. *)
Theorem listings_of_nothing (userId : string) (w : World) :
  (isTestMode = true ->
   Forall (fun a => get a "userId" <> VStr userId)
          (Object_values (testAssessments w)) ->
   listByUser userId w = (Return (VArr []), w)) /\
  (isTestMode = false ->
   datastore_up w ->
   rows_where w "assessments" "user_id" (VStr userId) = [] ->
   listByUser userId w = (Return (VArr []), w)) /\
  (datastore_up w ->
   rows_where w "conversations" "user_id" (VStr userId) = [] ->
   DbService.getConversationsWithPreviews userId w = (Return (VArr []), w)).
Proof.
  split; [|split].
  - intros Hmode Hnone. rewrite (listByUser_test_mode _ _ _ _ Hmode).
    rewrite filter_none; [reflexivity|].
    intros a Hin. rewrite Forall_forall in Hnone. specialize (Hnone a Hin).
    destruct (strict_equals (get a "userId") (VStr userId)) eqn:E; auto.
    now apply strict_equals_text in E.
  - intros Hmode Hup Hnone.
    unfold Assessment.listByUser, try_catch, bind.
    rewrite Hmode, select_by_user_up by exact Hup.
    now rewrite Hnone.
  - intros Hup Hnone.
    unfold DbService.getConversationsWithPreviews, try_catch, bind.
    rewrite conversations_of_user_up by exact Hup.
    now rewrite Hnone.
Qed.

End Repeating.

(* ===================================================================== *)
(** * The further properties on sample worlds *)
(* ===================================================================== *)

Lemma readers_change_nothing_witness :
  tables (world_of (run Sample.production_env Sample.JSON_stringify
                        Sample.JSON_parse
                        (DbService_getConversationsWithPreviews Sample.ada)
                        Sample.twice_failing_world))
  = tables Sample.twice_failing_world /\
  tables (world_of (run Sample.test_env Sample.JSON_stringify
                        Sample.JSON_parse
                        (Assessment_listByUser Sample.ada)
                        Sample.test_world))
  = tables Sample.test_world.
Proof.
  split.
  - apply (readers_change_nothing Sample.production_env Sample.JSON_stringify
             Sample.JSON_parse
             (DbService_getConversationsWithPreviews Sample.ada)
             Sample.twice_failing_world eq_refl).
  - apply (readers_change_nothing Sample.test_env Sample.JSON_stringify
             Sample.JSON_parse (Assessment_listByUser Sample.ada)
             Sample.test_world eq_refl).
Defined.

Lemma test_mode_spares_the_datastore_witness :
  let w := mkWorld [(Sample.uuids 0, Sample.stored)]
                   (Sample.tables_of Sample.content)
                   [Some Sample.connection_reset] [] Sample.random 1
                   Sample.start None Sample.in_turn in
  faults (world_of (run Sample.test_env Sample.JSON_stringify
                        Sample.JSON_parse
                        (Assessment_update (Sample.uuids 0) Sample.answers') w))
  = [Some Sample.connection_reset] /\
  faults (world_of (run Sample.test_env Sample.JSON_stringify
                        Sample.JSON_parse
                        (Assessment_findById (Sample.uuids 0)) w))
  = [Some Sample.connection_reset].
Proof.
  cbv zeta. split.
  - apply (test_mode_spares_the_datastore Sample.test_env Sample.JSON_stringify
             Sample.JSON_parse
             (Assessment_update (Sample.uuids 0) Sample.answers')).
    + reflexivity.
    + reflexivity.
    + discriminate.
  - apply (test_mode_spares_the_datastore Sample.test_env Sample.JSON_stringify
             Sample.JSON_parse (Assessment_findById (Sample.uuids 0))).
    + reflexivity.
    + reflexivity.
    + intros id [= <-]. discriminate.
Defined.

Lemma store_is_left_alone_witness :
  testAssessments
    (world_of (run Sample.production_env Sample.JSON_stringify
                   Sample.JSON_parse
                   (Assessment_create Sample.answers Sample.ada)
                   Sample.production_world)) = [] /\
  testAssessments
    (world_of (run Sample.test_env Sample.JSON_stringify Sample.JSON_parse
                   (DbService_delete "assessments" (VObj []))
                   Sample.shadowed_world))
  = [(Sample.uuids 0, Sample.stored)].
Proof.
  split.
  - apply (store_is_left_alone Sample.production_env Sample.JSON_stringify
             Sample.JSON_parse (Assessment_create Sample.answers Sample.ada)
             Sample.production_world).
    reflexivity.
  - apply (store_is_left_alone Sample.test_env Sample.JSON_stringify
             Sample.JSON_parse (DbService_delete "assessments" (VObj []))
             Sample.shadowed_world).
    discriminate.
Defined.

Lemma create_then_listByUser_test_mode_witness :
  exists a w1,
    Assessment.create Sample.test_env Sample.JSON_stringify Sample.answers'
                      Sample.ada Sample.test_world = (Return (VObj a), w1) /\
    result_of (Assessment.listByUser Sample.test_env Sample.JSON_parse
                 Sample.ada w1)
    = Return (VArr [VObj Sample.stored; VObj a]).
Proof.
  destruct (create_then_listByUser_test_mode Sample.test_env
              Sample.JSON_stringify Sample.JSON_parse Sample.answers'
              Sample.ada Sample.test_world eq_refl)
    as (a & w1 & before & after & Hcreate & Hbefore & Hafter & _ & Hfresh).
  destruct (Hfresh eq_refl) as [Happended _].
  exists a, w1. split; [exact Hcreate|].
  rewrite Hafter, Happended. injection Hbefore as <-. reflexivity.
Defined.

Lemma delete_then_not_found_test_mode_witness :
  let id := Sample.uuids 0 in
  let w1 := world_of (Assessment.delete Sample.test_env id Sample.test_world) in
  let w2 := world_of (Assessment.delete Sample.test_env "valueOf"
                        Sample.test_world) in
  (result_of (Assessment.delete Sample.test_env id w1)
   = Throw (VError
              "Assessment with ID 6f1c0a52-3b7e-4c7e-9d55-2a1f0e8b7c01 not found") /\
   result_of (Assessment.update Sample.test_env Sample.JSON_stringify id
                Sample.answers' w1)
   = Throw (VError
              "Assessment with ID 6f1c0a52-3b7e-4c7e-9d55-2a1f0e8b7c01 not found")) /\
  (result_of (Assessment.delete Sample.test_env "valueOf" w2)
   = Return (VBool true) /\
   result_of (Assessment.update Sample.test_env Sample.JSON_stringify "valueOf"
                Sample.answers' w2)
   = Return (VObj [("assessmentData", Sample.answers');
                   ("updatedAt", VDate Sample.start)])).
Proof.
  cbv zeta. split.
  - destruct (delete_then_not_found_test_mode Sample.test_env
                Sample.JSON_stringify (Sample.uuids 0) Sample.answers'
                Sample.test_world _ (VBool true) eq_refl eq_refl)
      as (Hgone & _ & _).
    exact (Hgone eq_refl).
  - destruct (delete_then_not_found_test_mode Sample.test_env
                Sample.JSON_stringify "valueOf" Sample.answers'
                Sample.test_world _ (VBool true) eq_refl eq_refl)
      as (_ & Hinherited & _).
    exact (Hinherited eq_refl).
Defined.

Lemma update_then_findById_test_mode_witness :
  let id := Sample.uuids 0 in
  let updated := Assessment.update Sample.test_env Sample.JSON_stringify id
                   Sample.answers' Sample.test_world in
  result_of (Assessment.findById Sample.test_env id (world_of updated))
  = result_of updated.
Proof.
  cbv zeta.
  destruct (update_then_findById_test_mode Sample.test_env
              Sample.JSON_stringify (Sample.uuids 0) Sample.answers'
              Sample.test_world
              (world_of (Assessment.update Sample.test_env
                           Sample.JSON_stringify (Sample.uuids 0)
                           Sample.answers' Sample.test_world))
              (VObj (assign Sample.stored
                       [("assessmentData", Sample.answers');
                        ("updatedAt", VDate Sample.start)]))
              eq_refl eq_refl) as [Hfound _].
  now rewrite Hfound.
Defined.

Lemma listByUser_decodes_rows_witness :
  exists a,
    Assessment.listByUser Sample.production_env Sample.JSON_parse Sample.ada
                          Sample.production_world
    = (Return (VArr [VObj a]), Sample.production_world) /\
    get a "assessmentData" = Sample.answers.
Proof.
  destruct (listByUser_decodes_rows Sample.production_env Sample.JSON_parse
              Sample.ada Sample.production_world eq_refl eq_refl)
    as (records & Hlist & Hall & _ & _).
  { repeat constructor. exists Sample.answers. reflexivity. }
  inversion Hall as [|row record rows rest Hrecord Hrest]; subst.
  inversion Hrest; subst.
  injection Hrecord as <-.
  eexists. split; [exact Hlist | reflexivity].
Defined.

Lemma listByUser_rejects_unparsable_witness :
  exists e,
    result_of (Assessment.listByUser Sample.production_env Sample.JSON_parse
                 Sample.ada Scenario.corrupt_world) = Throw e.
Proof.
  destruct (listByUser_rejects_unparsable Sample.production_env
              Sample.JSON_parse Sample.ada Scenario.corrupt_world
              Scenario.row_corrupt
              (VError "SyntaxError: Unexpected token") eq_refl eq_refl)
    as (e & row & _ & _ & Hresult).
  - right. left. reflexivity.
  - reflexivity.
  - exists e. exact Hresult.
Defined.

Lemma create_then_listByUser_production_witness :
  exists w1 records a,
    world_of (Assessment.create Sample.production_env Sample.JSON_stringify
                Sample.answers' Sample.ada Sample.production_world) = w1 /\
    Assessment.listByUser Sample.production_env Sample.JSON_parse Sample.ada w1
    = (Return (VArr records), w1) /\
    List.length records = 2%nat /\
    In (VObj a) records /\
    get a "assessmentData" = Sample.answers'.
Proof.
  destruct (create_then_listByUser_production Sample.production_env
              Sample.JSON_stringify Sample.JSON_parse Sample.answers'
              Sample.ada Sample.production_world eq_refl eq_refl eq_refl)
    as (r & w1 & records & a & Hcreate & Hlist & Hlength & Hin & _ & _ & Hdata).
  { repeat constructor. exists Sample.answers. reflexivity. }
  exists w1, records, a. rewrite Hcreate.
  repeat split; assumption.
Defined.

Lemma update_production_result_witness :
  exists a,
    result_of (Assessment.update Sample.production_env Sample.JSON_stringify
                 (Sample.uuids 0) Sample.answers' Sample.production_world)
    = Return (VObj a) /\
    get a "assessmentData" = Sample.answers' /\
    get a "assessment_data" = Sample.JSON_stringify Sample.answers' /\
    get a "user_id" = VStr Sample.ada.
Proof.
  destruct (update_production_result Sample.production_env
              Sample.JSON_stringify (Sample.uuids 0) Sample.answers'
              Sample.production_world Sample.row_ada [] eq_refl eq_refl eq_refl)
    as (a & Hresult & Hdata & Htext & _ & Hframe).
  exists a. repeat split; try assumption.
  rewrite Hframe by discriminate. reflexivity.
Defined.

Lemma update_rejects_after_writing_witness :
  let outcome :=
    Assessment.update Sample.production_env Sample.JSON_stringify
                      (Sample.uuids 0) Sample.answers'
                      Scenario.reread_failing_world in
  result_of outcome = Throw Sample.connection_reset /\
  rows_where (world_of outcome) "assessments" "id" (VStr (Sample.uuids 0))
  = [updated_row (Sample.JSON_stringify Sample.answers') (VDate Sample.start)
                 (VStr (Sample.uuids 0)) Sample.row_ada].
Proof.
  cbv zeta.
  rewrite (update_rejects_after_writing Sample.production_env
             Sample.JSON_stringify (Sample.uuids 0) Sample.answers'
             Scenario.reread_failing_world Sample.connection_reset []
             eq_refl eq_refl).
  split; reflexivity.
Defined.

Lemma DbService_create_returns_the_record_witness :
  DbService.create "conversations" (VObj Scenario.new_conversation)
                   Sample.production_world
  = (Return (VObj Scenario.new_conversation),
     put_table Sample.production_world "conversations"
       (Sample.conversations ++ [Scenario.new_conversation])%list).
Proof.
  apply (DbService_create_returns_the_record "conversations"
           Scenario.new_conversation Sample.production_world);
    reflexivity.
Defined.

Lemma DbService_update_result_witness :
  result_of (DbService.update "conversations" (VStr "conv-9")
               (VObj [("title", VStr "Renamed")]) Sample.production_world)
  = Return VNull /\
  result_of (DbService.update "conversations" (VStr "conv-2")
               (VObj [("title", VStr "Renamed")]) Sample.production_world)
  = Return (VObj (assign (Sample.conversation "conv-2" Sample.ada "Cramps"
                            (Sample.start - 2000))
                         [("title", VStr "Renamed")])) /\
  (result_of (DbService.update "conversations" (VStr "conv-2")
                (VObj [("id", VStr "conv-20")]) Sample.production_world)
   = Return VNull /\
   In (Sample.conversation "conv-20" Sample.ada "Cramps" (Sample.start - 2000))
      (tables (world_of (DbService.update "conversations" (VStr "conv-2")
                           (VObj [("id", VStr "conv-20")])
                           Sample.production_world))
              "conversations")).
Proof.
  split; [|split].
  - destruct (DbService_update_result "conversations" (VStr "conv-9")
                Sample.production_world eq_refl) as (Hmissing & _ & _).
    apply (Hmissing (VObj [("title", VStr "Renamed")])). reflexivity.
  - destruct (DbService_update_result "conversations" (VStr "conv-2")
                Sample.production_world eq_refl) as (_ & Hfound & _).
    apply (Hfound [("title", VStr "Renamed")] _ []); reflexivity.
  - destruct (DbService_update_result "conversations" (VStr "conv-2")
                Sample.production_world eq_refl) as (_ & _ & Hmoved).
    destruct (Hmoved (VStr "conv-20") []
                (Sample.conversation "conv-2" Sample.ada "Cramps"
                                     (Sample.start - 2000))
                [] eq_refl eq_refl eq_refl)
      as (Hnull & _ & Hchanged & _).
    split; [exact Hnull|].
    exact (proj1 (Hchanged _ (or_introl eq_refl))).
Defined.

Lemma DbService_delete_without_conditions_witness :
  tables (world_of (DbService.delete "chat_messages" (VObj [])
                      Sample.production_world)) "chat_messages" = [] /\
  result_of (DbService.delete "chat_messages" (VDate Sample.start)
               Sample.production_world) = Return (VBool true).
Proof.
  split.
  - apply (DbService_delete_without_conditions "chat_messages" (VObj [])
             Sample.production_world); try reflexivity. discriminate.
  - assert (Hnotnull : VDate Sample.start <> VNull) by discriminate.
    destruct (DbService_delete_without_conditions "chat_messages"
                (VDate Sample.start) Sample.production_world
                eq_refl eq_refl Hnotnull eq_refl) as [_ Hresult].
    rewrite Hresult. reflexivity.
Defined.

Lemma DbService_rejects_after_writing_witness :
  result_of (DbService.create "conversations" (VObj Scenario.new_conversation)
               Scenario.reread_failing_world)
  = Throw Sample.connection_reset /\
  tables (world_of (DbService.create "conversations"
                      (VObj Scenario.new_conversation)
                      Scenario.reread_failing_world)) "conversations"
  = (Sample.conversations ++ [Scenario.new_conversation])%list.
Proof.
  destruct (DbService_rejects_after_writing "conversations" (VStr "conv-4")
              Scenario.new_conversation (VObj []) Scenario.reread_failing_world
              Sample.connection_reset [] eq_refl) as [Hcreate _].
  rewrite Hcreate. split; reflexivity.
Defined.

Lemma getConversationsWithPreviews_rejects_without_text_witness :
  exists message,
    result_of (DbService.getConversationsWithPreviews Sample.ada
                 Scenario.textless_world) = Throw (VError message).
Proof.
  apply (getConversationsWithPreviews_rejects_without_text Sample.ada
           Scenario.textless_world
           (Sample.conversation "conv-1" Sample.ada "Cycle length"
                                (Sample.start - 5000))
           Scenario.message_without_text).
  - reflexivity.
  - left. reflexivity.
  - reflexivity.
  - reflexivity.
Defined.

(** The calls of the preview list: Ada has two conversations, so the list
    costs three calls, also when the second and the third fail. *)
Example getConversationsWithPreviews_calls_run :
  faults (world_of (DbService.getConversationsWithPreviews Sample.ada
                      Sample.twice_failing_world)) = [] /\
  faults (world_of (DbService.getConversationsWithPreviews Sample.ada
                      Sample.failing_world)) = [].
Proof. split; reflexivity. Qed.

Lemma delete_twice_witness :
  let w1 := world_of (Assessment.delete Sample.production_env (Sample.uuids 0)
                        Sample.production_world) in
  let w2 := world_of (DbService.delete "conversations" (VStr "conv-2")
                        Sample.production_world) in
  result_of (Assessment.delete Sample.production_env (Sample.uuids 0) w1)
  = Return (VBool true) /\
  result_of (DbService.delete "conversations" (VStr "conv-2") w2)
  = Return (VBool false).
Proof.
  cbv zeta.
  destruct (delete_twice Sample.production_env (Sample.uuids 0)
              "conversations" (VStr "conv-2") Sample.production_world eq_refl)
    as [Hmodel Hservice].
  split.
  - apply (Hmodel eq_refl (VBool true)). reflexivity.
  - apply (Hservice (VBool true)). reflexivity.
Defined.

Lemma listings_of_nothing_witness :
  Assessment.listByUser Sample.test_env Sample.JSON_parse Sample.grace
                        Sample.test_world
  = (Return (VArr []), Sample.test_world) /\
  Assessment.listByUser Sample.production_env Sample.JSON_parse "user-linus"
                        Sample.production_world
  = (Return (VArr []), Sample.production_world) /\
  DbService.getConversationsWithPreviews "user-linus" Sample.production_world
  = (Return (VArr []), Sample.production_world).
Proof.
  split; [|split].
  - destruct (listings_of_nothing Sample.test_env Sample.JSON_parse
                Sample.grace Sample.test_world) as (Htest & _ & _).
    apply Htest; [reflexivity|]. repeat constructor. discriminate.
  - destruct (listings_of_nothing Sample.production_env Sample.JSON_parse
                "user-linus" Sample.production_world) as (_ & Hproduction & _).
    apply Hproduction; reflexivity.
  - destruct (listings_of_nothing Sample.production_env Sample.JSON_parse
                "user-linus" Sample.production_world) as (_ & _ & Hpreviews).
    apply Hpreviews; reflexivity.
Defined.
